(** * web3Economy backend: admin authentication, content slugs, counters,
      pagination and newsletter handlers

    A shallow embedding of the Express/Mongoose handlers of the repository.
    Collections are lists of documents in insertion order, handlers are
    functions from (environment, collection, request) to (collection,
    response), and the external packages (bcryptjs, jsonwebtoken) are
    interfaces with an instance used for concrete runs. *)

From Stdlib Require Import String Ascii List ZArith Lia Bool Arith PeanoNat.
From Stdlib Require Import DecimalString DecimalNat FinFun Permutation Sorted.
Import ListNotations.
Open Scope string_scope.
Open Scope list_scope.
Open Scope nat_scope.

Set Implicit Arguments.
Set Warnings "-register-all".

(* ------------------------------------------------------------------------- *)
(** ** JavaScript string primitives (ASCII range) *)

Module Js.

Definition code (c : ascii) : nat := nat_of_ascii c.

Definition isUpper (c : ascii) : bool := (65 <=? code c) && (code c <=? 90).
Definition isLower (c : ascii) : bool := (97 <=? code c) && (code c <=? 122).
Definition isDigit (c : ascii) : bool := (48 <=? code c) && (code c <=? 57).
Definition isAlnum (c : ascii) : bool := isUpper c || isLower c || isDigit c.

  (** The regular-expression class [\s] and the set removed by [trim]:
      space, tab, line feed, vertical tab, form feed, carriage return. *)
Definition isSpace (c : ascii) : bool :=
    (code c =? 32) || ((9 <=? code c) && (code c <=? 13)).

Definition lowerChar (c : ascii) : ascii :=
    if isUpper c then ascii_of_nat (code c + 32) else c.

Definition chars (s : string) : list ascii := list_ascii_of_string s.
Definition str (l : list ascii) : string := string_of_list_ascii l.

  (** [s.toLowerCase()] *)
Definition toLowerCase (s : string) : string := str (map lowerChar (chars s)).

  (** [s.startsWith(p)] *)
Definition startsWith (s p : string) : bool := String.prefix p s.

  (** [s.substring(n)] *)
Definition substringFrom (n : nat) (s : string) : string :=
    String.substring n (String.length s - n) s.

  (** Truthiness of a string value: [!s] holds exactly for the empty string. *)
Definition truthy (s : string) : bool := negb (String.eqb s "").

  (** Truthiness of an optional string field: [undefined] and [""] are falsy. *)
Definition present (o : option string) : bool :=
    match o with
    | Some s => truthy s
    | None => false
    end.

Fixpoint dropWhile (p : ascii -> bool) (l : list ascii) : list ascii :=
    match l with
    | [] => []
    | c :: r => if p c then dropWhile p r else l
    end.

Definition trimStart (l : list ascii) : list ascii := dropWhile isSpace l.

Definition trimEnd (l : list ascii) : list ascii :=
    fold_right (fun c acc =>
                  match acc with
                  | [] => if isSpace c then [] else [c]
                  | _ => c :: acc
                  end) [] l.

(** A run of white space. *)
Definition spaces (l : list ascii) : Prop := Forall (fun c => isSpace c = true) l.

Definition trimChars (l : list ascii) : list ascii := trimEnd (trimStart l).

  (** [s.trim()] *)
Definition trim (s : string) : string := str (trimChars (chars s)).

  (** [n.toString()] for a non-negative integer. *)
Definition natToString (n : nat) : string :=
    NilZero.string_of_uint (Nat.to_uint n).

  (** [z.toString()] for an integer. *)
Definition toString (z : Z) : string :=
    NilZero.string_of_int (Z.to_int z).

End Js.

(* ------------------------------------------------------------------------- *)
(** ** The slugify package, options [{ lower: true, strict: true }]

    The controllers and the schema hooks call
    [slugify(title, { lower: true, strict: true })].  The function below
    follows the package's algorithm on ASCII text: every character is sent
    through the character map, a character equal to the replacement [-]
    becomes a space, characters outside the default allowed set are removed,
    [strict] then removes everything that is not a letter, a digit or white
    space, the result is trimmed, each run of white space becomes one [-], and
    the whole is lower-cased.  Characters above 127 have no entry in this
    model's character map and are removed by [strict]. *)

Module Slugify.
Import Js.

Definition charMap (c : ascii) : option (list ascii) :=
    match c with
    | "$"%char => Some (chars "dollar")
    | "%"%char => Some (chars "percent")
    | "&"%char => Some (chars "and")
    | "<"%char => Some (chars "less")
    | ">"%char => Some (chars "greater")
    | "|"%char => Some (chars "or")
    | _ => None
    end.

  (** The default [remove] expression keeps word characters, white space
      and the punctuation listed below (code 34 is the double quote). *)
Definition allowedDefault (c : ascii) : bool :=
    isAlnum c || isSpace c
    || existsb (Ascii.eqb c) (chars "$*_+~.()'!-:@")
    || (code c =? 34).

Definition replacement : ascii := "-"%char.

Definition appendChar (c : ascii) : list ascii :=
    let mapped := match charMap c with Some m => m | None => [c] end in
    let mapped := if list_eq_dec ascii_dec mapped [replacement]
                  then [" "%char] else mapped in
    filter allowedDefault mapped.

Definition strictKeep (c : ascii) : bool := isAlnum c || isSpace c.

  (** [slug.replace(/\s+/g, '-')], with [inRun] recording that the previous
      character was white space. *)
Fixpoint collapse (inRun : bool) (l : list ascii) : list ascii :=
    match l with
    | [] => []
    | c :: r =>
        if isSpace c
        then (if inRun then collapse true r else replacement :: collapse true r)
        else c :: collapse false r
    end.

Definition cleaned (l : list ascii) : list ascii :=
    filter strictKeep (flat_map appendChar l).

Definition slugChars (l : list ascii) : list ascii :=
    map lowerChar (collapse false (trimChars (cleaned l))).

Definition slugify (title : string) : string := str (slugChars (chars title)).

  (** What is left before lower-casing: letters, digits and [-]. *)
Definition keptChar (c : ascii) : bool := isAlnum c || Ascii.eqb c replacement.

(** Characters of a URL-safe slug: lower-case letters, digits and [-]. *)
Definition urlChar (c : ascii) : bool :=
    isLower c || isDigit c || Ascii.eqb c replacement.

Definition urlSafe (s : string) : bool := forallb urlChar (chars s).

End Slugify.

(* ------------------------------------------------------------------------- *)
(** ** HTTP responses and JSON payloads *)

Inductive json : Type :=
| JNull
| JBool (b : bool)
| JNum (z : Z)
| JStr (s : string)
| JDate (ms : Z)
| JArr (items : list json)
| JObj (fields : list (string * json)).

(** Does the key [k] occur as a property name anywhere in the value? *)
Fixpoint mentions (k : string) (j : json) : bool :=
  match j with
  | JObj fs =>
      (fix inFields (fs : list (string * json)) : bool :=
         match fs with
         | [] => false
         | (k', v) :: r => String.eqb k k' || mentions k v || inFields r
         end) fs
  | JArr l =>
      (fix inItems (l : list json) : bool :=
         match l with
         | [] => false
         | v :: r => mentions k v || inItems r
         end) l
  | _ => false
  end.

(** Property lookup [o.k] on a JSON object. *)
Definition jget (k : string) (j : json) : option json :=
  match j with
  | JObj fs =>
      match find (fun kv => String.eqb k (fst kv)) fs with
      | Some kv => Some (snd kv)
      | None => None
      end
  | _ => None
  end.

(** [delete o.k] *)
Definition jdelete (k : string) (fs : list (string * json)) : list (string * json) :=
  filter (fun kv => negb (String.eqb k (fst kv))) fs.

(** [o.k = v]: overwrite in place, or append a new property. *)
Fixpoint jset (k : string) (v : json) (fs : list (string * json)) : list (string * json) :=
  match fs with
  | [] => [(k, v)]
  | (k', v') :: r => if String.eqb k k' then (k, v) :: r else (k', v') :: jset k v r
  end.

(** Properties whose value is [undefined] are left out by [res.json]. *)
Definition optField (k : string) (o : option json) : list (string * json) :=
  match o with
  | Some v => [(k, v)]
  | None => []
  end.

Record ApiError : Type := { code : string; errMessage : string }.

(** The envelope [IApiResponse<T>]. *)
Record ApiResponse (T : Type) : Type := {
  success : bool;
  data : option T;
  message : option string;
  error : option ApiError
}.

Record Response (T : Type) : Type := {
  status : nat;
  headers : list (string * string);
  body : ApiResponse T
}.

(** [res.status(st).json({ success: false, error: { code, message } })] *)
Definition fail {T : Type} (st : nat) (c m : string) : Response T :=
  {| status := st; headers := [];
     body := {| success := false; data := None; message := None;
                error := Some {| code := c; errMessage := m |} |} |}.

(** [res.status(st).json({ success: true, data, message })] *)
Definition reply {T : Type} (st : nat) (d : option T) (m : option string) : Response T :=
  {| status := st; headers := [];
     body := {| success := true; data := d; message := m; error := None |} |}.

Definition errorCode {T : Type} (r : Response T) : option string :=
  match error (body r) with
  | Some e => Some (code e)
  | None => None
  end.

(** Document identifiers.  Routes admit only well-formed ids ([isMongoId]),
    so handlers work with ids as an abstract type; [idString] is
    [_id.toString()]. *)
Definition ObjectId : Type := nat.
Definition idString (i : ObjectId) : string := Js.natToString i.

(** Values the runtime supplies to a request: the clock ([Date.now()], in
    milliseconds), the id given to a newly constructed document, and the
    salt drawn by [bcrypt.genSalt]. *)
Record Runtime : Type := { now : Z; newId : ObjectId; salt : string }.

(** [process.env] *)
Record Env : Type := { JWT_SECRET : option string }.

(* ------------------------------------------------------------------------- *)
(** ** External packages as interfaces *)

(** bcryptjs: [hash(password, salt)] and [compare(password, digest)]. *)
Class Bcrypt : Type := {
  bcrypt_hash : string -> string -> string;
  bcrypt_compare : string -> string -> bool
}.

(** The registered claims of a token and the private payload
    [{ id, email }] that [loginAdmin] signs. *)
Record Claims : Type := {
  claim_id : ObjectId;
  claim_email : string;
  iat : Z;
  exp : Z
}.

(** What jsonwebtoken makes of a compact token string: text that is not a
    well-formed token, or a well-formed token with the key its signature
    verifies under and its claims. *)
Inductive Decoded : Type :=
| Malformed
| Signed (key : string) (c : Claims).

Class JsonWebToken : Type := {
  jwt_encode : string -> Claims -> string;
  jwt_decode : string -> Decoded;
  jwt_decode_empty : jwt_decode "" = Malformed
}.

Inductive Exception : Type :=
| TokenExpiredError
| JsonWebTokenError (msg : string)
| Error (msg : string)
| ValidationError (path : string)
| DuplicateKeyError (path : string).

(** [e instanceof jwt.JsonWebTokenError]; [TokenExpiredError] extends it. *)
Definition isJsonWebTokenError (e : Exception) : bool :=
  match e with
  | TokenExpiredError | JsonWebTokenError _ => true
  | _ => false
  end.

Definition isTokenExpiredError (e : Exception) : bool :=
  match e with
  | TokenExpiredError => true
  | _ => false
  end.

(** [Math.floor(Date.now() / 1000)] *)
Definition clockTimestamp (ms : Z) : Z := (ms / 1000)%Z.

(** [jwt.sign(payload, secret, { expiresIn })] *)
Definition jwt_sign {J : JsonWebToken} (id : ObjectId) (email : string)
    (secret : option string) (expiresIn : Z) (ms : Z) : Exception + string :=
  match secret with
  | Some k =>
      if Js.truthy k
      then inr (jwt_encode k {| claim_id := id; claim_email := email;
                                iat := clockTimestamp ms;
                                exp := (clockTimestamp ms + expiresIn)%Z |})
      else inl (Error "secretOrPrivateKey must have a value")
  | None => inl (Error "secretOrPrivateKey must have a value")
  end.

(** [jwt.verify(token, secret)] *)
Definition jwt_verify {J : JsonWebToken} (token : string) (secret : string) (ms : Z)
    : Exception + Claims :=
  if negb (Js.truthy token) then inl (JsonWebTokenError "jwt must be provided")
  else
    match jwt_decode token with
    | Malformed => inl (JsonWebTokenError "jwt malformed")
    | Signed key c =>
        if negb (String.eqb key secret)
        then inl (JsonWebTokenError "invalid signature")
        else if (exp c <=? clockTimestamp ms)%Z
             then inl TokenExpiredError
             else inr c
    end.

(* ------------------------------------------------------------------------- *)
(** ** models/Admin.ts *)

Record IAdmin : Type := {
  admin_id : ObjectId;
  email : string;
  passwordHash : string;
  name : string;
  role : string;
  createdAt : Z;
  updatedAt : Z;
  lastLoginAt : option Z
}.

(** The [match] validator of the email paths, [/^\S+@\S+\.\S+$/]: no white
    space, an [@] after at least one character, and after it a [.] with at
    least one character on either side. *)
Fixpoint afterAt (l : list ascii) : option (list ascii) :=
  match l with
  | [] => None
  | c :: r => if Ascii.eqb c "@" then Some r else afterAt r
  end.

Definition emailRegexTest (s : string) : bool :=
  let l := Js.chars s in
  forallb (fun c => negb (Js.isSpace c)) l
  && match l with
     | [] => false
     | _ :: t =>
         match afterAt t with
         | Some (_ :: r) => existsb (fun c => Ascii.eqb c ".") (removelast r)
         | _ => false
         end
     end.

(** Schema validators run by [save()]: [email] must match, [role] is one of
    the enum values; the required paths must be non-empty. *)
Definition AdminSchema_validate (a : IAdmin) : option Exception :=
  if negb (Js.truthy (email a)) || negb (emailRegexTest (email a))
  then Some (ValidationError "email")
  else if negb (Js.truthy (passwordHash a)) then Some (ValidationError "passwordHash")
  else if negb (Js.truthy (name a)) then Some (ValidationError "name")
  else if negb (String.eqb (role a) "admin" || String.eqb (role a) "superadmin")
  then Some (ValidationError "role")
  else None.

(** [new Admin({ email, passwordHash, name, role })]: the schema setters
    lower-case and trim [email] and trim [name]. *)
Definition newAdmin (rt : Runtime) (e h n r : string) : IAdmin :=
  {| admin_id := newId rt;
     email := Js.trim (Js.toLowerCase e);
     passwordHash := h;
     name := Js.trim n;
     role := r;
     createdAt := now rt;
     updatedAt := now rt;
     lastLoginAt := None |}.

Definition Admins : Type := list IAdmin.

(** The same record with another digest. *)
Definition withPasswordHash (h : string) (a : IAdmin) : IAdmin :=
  {| admin_id := admin_id a; email := email a; passwordHash := h; name := name a;
     role := role a; createdAt := createdAt a; updatedAt := updatedAt a;
     lastLoginAt := lastLoginAt a |}.

(** [Admin.findOne({ email })] *)
Definition Admin_findOne (db : Admins) (e : string) : option IAdmin :=
  find (fun a => String.eqb (email a) e) db.

(** [Admin.findById(id)] *)
Definition Admin_findById (db : Admins) (i : ObjectId) : option IAdmin :=
  find (fun a => admin_id a =? i) db.

(** [doc.save()] on a document read from the collection: validation, then
    the stored copy is replaced and [timestamps] stamps [updatedAt]. *)
Definition Admin_save (db : Admins) (rt : Runtime) (a : IAdmin) : Exception + Admins :=
  match AdminSchema_validate a with
  | Some e => inl e
  | None =>
      inr (map (fun b => if admin_id b =? admin_id a
                         then {| admin_id := admin_id a; email := email a;
                                 passwordHash := passwordHash a; name := name a;
                                 role := role a; createdAt := createdAt a;
                                 updatedAt := now rt; lastLoginAt := lastLoginAt a |}
                         else b) db)
  end.

(** [doc.save()] on a new document: validation, then the insert under the
    unique index on [email]. *)
Definition Admin_insert (db : Admins) (a : IAdmin) : Exception + Admins :=
  match AdminSchema_validate a with
  | Some e => inl e
  | None =>
      if existsb (fun b => String.eqb (email b) (email a)) db
      then inl (DuplicateKeyError "email")
      else inr (db ++ [a])
  end.

(** The [toJSON] transform of the schema: [id] replaces [_id], and [__v] and
    [passwordHash] are deleted. *)
Definition AdminSchema_toJSON_transform (ret : list (string * json)) : list (string * json) :=
  let ret := match jget "_id" (JObj ret) with
             | Some i => jset "id" i ret
             | None => jset "id" JNull ret
             end in
  let ret := jdelete "_id" ret in
  let ret := jdelete "__v" ret in
  jdelete "passwordHash" ret.

(** The plain object Mongoose hands to the transform. *)
Definition Admin_toObject (a : IAdmin) : list (string * json) :=
  [("_id", JStr (idString (admin_id a)));
   ("email", JStr (email a));
   ("passwordHash", JStr (passwordHash a));
   ("name", JStr (name a));
   ("role", JStr (role a))]
  ++ optField "lastLoginAt" (option_map JDate (lastLoginAt a))
  ++ [("createdAt", JDate (createdAt a));
      ("updatedAt", JDate (updatedAt a));
      ("__v", JNum 0)].

Definition Admin_toJSON (a : IAdmin) : json :=
  JObj (AdminSchema_toJSON_transform (Admin_toObject a)).

(* ------------------------------------------------------------------------- *)
(** ** middleware/auth.ts *)

Record AuthRequest : Type := {
  authorization : option string;
  req_admin : option IAdmin
}.

Inductive Outcome (T : Type) : Type :=
| Next (req : AuthRequest)
| Sent (r : Response T).
Arguments Next {T} req.
Arguments Sent {T} r.

Definition authenticateAdmin {J : JsonWebToken} (env : Env) (rt : Runtime)
    (db : Admins) (req : AuthRequest) : Outcome json :=
  let authHeader := authorization req in
  if negb (Js.present authHeader)
     || negb (Js.startsWith (match authHeader with Some h => h | None => "" end) "Bearer ")
  then Sent (fail 401 "AUTH_REQUIRED"
               "Authentication required. Please provide a valid token.")
  else
    let token := Js.substringFrom 7 (match authHeader with Some h => h | None => "" end) in
    let attempt : Exception + Outcome json :=
      if negb (Js.present (JWT_SECRET env))
      then inl (Error "JWT_SECRET is not configured")
      else
        match jwt_verify token
                (match JWT_SECRET env with Some k => k | None => "" end) (now rt) with
        | inl e => inl e
        | inr decoded =>
            match Admin_findById db (claim_id decoded) with
            | None => inr (Sent (fail 401 "ADMIN_NOT_FOUND"
                                   "Admin account not found or has been deleted."))
            | Some admin =>
                inr (Next {| authorization := authorization req;
                             req_admin := Some admin |})
            end
        end in
    match attempt with
    | inr out => out
    | inl error =>
        if isTokenExpiredError error
        then Sent (fail 401 "TOKEN_EXPIRED"
                     "Your session has expired. Please log in again.")
        else if isJsonWebTokenError error
        then Sent (fail 401 "INVALID_TOKEN" "Invalid authentication token.")
        else Sent (fail 500 "AUTH_ERROR" "An error occurred during authentication.")
    end.

(** [optionalAuth]: any failure is swallowed and the request goes on. *)
Definition optionalAuth {J : JsonWebToken} (env : Env) (rt : Runtime)
    (db : Admins) (req : AuthRequest) : AuthRequest :=
  match authorization req with
  | None => req
  | Some h =>
      if negb (Js.truthy h) || negb (Js.startsWith h "Bearer ") then req
      else
        match JWT_SECRET env with
        | None => req
        | Some k =>
            if negb (Js.truthy k) then req
            else
              match jwt_verify (Js.substringFrom 7 h) k (now rt) with
              | inl _ => req
              | inr decoded =>
                  match Admin_findById db (claim_id decoded) with
                  | Some admin => {| authorization := authorization req;
                                     req_admin := Some admin |}
                  | None => req
                  end
              end
        end
  end.

(** [requireRole(...roles)] *)
Definition requireRole (roles : list string) (req : AuthRequest) : Outcome json :=
  match req_admin req with
  | None => Sent (fail 401 "AUTH_REQUIRED" "Authentication required.")
  | Some a =>
      if negb (existsb (String.eqb (role a)) roles)
      then Sent (fail 403 "FORBIDDEN"
                   "You do not have permission to perform this action.")
      else Next req
  end.

(* ------------------------------------------------------------------------- *)
(** ** controllers/adminController.ts *)

Record LoginBody : Type := {
  login_email : option string;
  login_password : option string
}.

Record RegisterBody : Type := {
  reg_email : option string;
  reg_password : option string;
  reg_name : option string;
  reg_role : option string
}.

(** The value of a field already known to be truthy. *)
Definition field (o : option string) : string :=
  match o with
  | Some s => s
  | None => ""
  end.

(** A property with its default when absent. *)
Definition orDefault {T : Type} (o : option T) (d : T) : T :=
  match o with
  | Some v => v
  | None => d
  end.

(** An [enum] validator. *)
Definition oneOf (s : string) (l : list string) : bool := existsb (String.eqb s) l.

(** [a || b] on optional strings. *)
Definition orElse (o : option string) (d : string) : string :=
  if Js.present o then field o else d.

Definition loginAdmin {B : Bcrypt} {J : JsonWebToken} (env : Env) (rt : Runtime)
    (db : Admins) (reqBody : LoginBody) : Admins * Response json :=
  let email_ := login_email reqBody in
  let password := login_password reqBody in
  if negb (Js.present email_) || negb (Js.present password)
  then (db, fail 400 "MISSING_CREDENTIALS" "Email and password are required.")
  else
    match Admin_findOne db (Js.toLowerCase (field email_)) with
    | None => (db, fail 401 "INVALID_CREDENTIALS" "Invalid email or password.")
    | Some admin =>
        if negb (bcrypt_compare (field password) (passwordHash admin))
        then (db, fail 401 "INVALID_CREDENTIALS" "Invalid email or password.")
        else
          let admin := {| admin_id := admin_id admin; email := email admin;
                          passwordHash := passwordHash admin; name := name admin;
                          role := role admin; createdAt := createdAt admin;
                          updatedAt := updatedAt admin;
                          lastLoginAt := Some (now rt) |} in
          match Admin_save db rt admin with
          | inl _ => (db, fail 500 "LOGIN_ERROR" "An error occurred during login.")
          | inr db =>
              match jwt_sign (admin_id admin) (email admin) (JWT_SECRET env)
                             604800 (now rt) with
              | inl _ => (db, fail 500 "LOGIN_ERROR" "An error occurred during login.")
              | inr token =>
                  (db, reply 200
                         (Some (JObj [("token", JStr token);
                                      ("admin",
                                       JObj [("id", JStr (idString (admin_id admin)));
                                             ("email", JStr (email admin));
                                             ("name", JStr (name admin));
                                             ("role", JStr (role admin))])]))
                         None)
              end
          end
    end.

Definition registerAdmin {B : Bcrypt} (rt : Runtime) (db : Admins)
    (reqBody : RegisterBody) : Admins * Response json :=
  let email_ := reg_email reqBody in
  let password := reg_password reqBody in
  let name_ := reg_name reqBody in
  if negb (Js.present email_) || negb (Js.present password) || negb (Js.present name_)
  then (db, fail 400 "MISSING_FIELDS" "Email, password, and name are required.")
  else
    match Admin_findOne db (Js.toLowerCase (field email_)) with
    | Some _ => (db, fail 409 "ADMIN_EXISTS" "An admin with this email already exists.")
    | None =>
        let hash := bcrypt_hash (field password) (salt rt) in
        let admin := newAdmin rt (Js.toLowerCase (field email_)) hash (field name_)
                              (orElse (reg_role reqBody) "admin") in
        match Admin_insert db admin with
        | inl _ => (db, fail 500 "REGISTER_ERROR" "An error occurred during registration.")
        | inr db' =>
            (db', reply 201
                    (Some (JObj [("admin", JObj [("id", JStr (idString (admin_id admin)));
                                                 ("email", JStr (email admin));
                                                 ("name", JStr (name admin));
                                                 ("role", JStr (role admin))])]))
                    (Some "Admin registered successfully"))
        end
    end.

Definition getCurrentAdmin (req : AuthRequest) : Response json :=
  match req_admin req with
  | None => fail 401 "AUTH_REQUIRED" "Authentication required."
  | Some a =>
      reply 200
        (Some (JObj ([("id", JStr (idString (admin_id a)));
                      ("email", JStr (email a));
                      ("name", JStr (name a));
                      ("role", JStr (role a));
                      ("createdAt", JDate (createdAt a))]
                     ++ optField "lastLoginAt" (option_map JDate (lastLoginAt a)))))
        None
  end.

Record PasswordBody : Type := {
  currentPassword : option string;
  newPassword : option string
}.

(** [changePassword]: [req.admin] is the document the authentication
    middleware fetched; its digest is replaced and the document saved. *)
Definition changePassword {B : Bcrypt} (rt : Runtime) (db : Admins)
    (req : AuthRequest) (reqBody : PasswordBody) : Admins * Response json :=
  match req_admin req with
  | None => (db, fail 401 "AUTH_REQUIRED" "Authentication required.")
  | Some admin =>
      if negb (Js.present (currentPassword reqBody))
         || negb (Js.present (newPassword reqBody))
      then (db, fail 400 "MISSING_FIELDS"
                  "Current password and new password are required.")
      else if negb (bcrypt_compare (field (currentPassword reqBody)) (passwordHash admin))
      then (db, fail 401 "INVALID_PASSWORD" "Current password is incorrect.")
      else
        let hash := bcrypt_hash (field (newPassword reqBody)) (salt rt) in
        match Admin_save db rt (withPasswordHash hash admin) with
        | inl _ => (db, fail 500 "UPDATE_ERROR"
                          "An error occurred while changing password.")
        | inr db' => (db', reply 200 None (Some "Password changed successfully"))
        end
  end.

(** The record as [loginAdmin] saves it at time [ms], and as
    [changePassword] saves it with the digest [h]. *)
Definition withLastLogin (ms : Z) (a : IAdmin) : IAdmin :=
  {| admin_id := admin_id a; email := email a; passwordHash := passwordHash a;
     name := name a; role := role a; createdAt := createdAt a;
     updatedAt := ms; lastLoginAt := Some ms |}.

Definition withDigest (h : string) (ms : Z) (a : IAdmin) : IAdmin :=
  {| admin_id := admin_id a; email := email a; passwordHash := h;
     name := name a; role := role a; createdAt := createdAt a;
     updatedAt := ms; lastLoginAt := lastLoginAt a |}.

(** What the schema guarantees of the [admins] collection: the unique
    index on [email], and stored documents that pass the validators and
    whose email is lower-case (the [lowercase] setter). *)
Definition AdminsInvariant (db : Admins) : Prop :=
  NoDup (map email db)
  /\ Forall (fun a => AdminSchema_validate a = None
                      /\ Js.toLowerCase (email a) = email a) db.

(** The signing secret is set in the environment. *)
Definition configured (env : Env) : bool := Js.present (JWT_SECRET env).

(** The token [loginAdmin] signs for an administrator at time [ms]. *)
Definition issuedClaims (a : IAdmin) (ms : Z) : Claims :=
  {| claim_id := admin_id a; claim_email := email a;
     iat := clockTimestamp ms; exp := (clockTimestamp ms + 604800)%Z |}.

(** Path lookup [o.k1.k2] in a JSON value. *)
Definition jpath (k1 k2 : string) (j : json) : option json :=
  match jget k1 j with
  | Some v => jget k2 v
  | None => None
  end.

(* ------------------------------------------------------------------------- *)
(** ** Cursors: [find(query).sort(s).skip(n).limit(m)] and [countDocuments]

    A negative skip is rejected by the database, [limit(0)] means no limit
    and a negative limit is treated as its absolute value. *)

Section Cursor.
Variable A : Type.

Fixpoint insertBy (before : A -> A -> bool) (x : A) (l : list A) : list A :=
  match l with
  | [] => [x]
  | y :: r => if before y x then y :: insertBy before x r else x :: l
  end.

Definition sortBy (before : A -> A -> bool) (l : list A) : list A :=
  fold_right (insertBy before) [] l.

Definition skipLimit (skip limit : Z) (l : list A) : Exception + list A :=
  if (skip <? 0)%Z then inl (Error "Skip value must be non-negative")
  else
    let rest := skipn (Z.to_nat skip) l in
    inr (if (limit =? 0)%Z then rest else firstn (Z.to_nat (Z.abs limit)) rest).

Definition countDocuments (query : A -> bool) (l : list A) : Z :=
  Z.of_nat (length (filter query l)).

End Cursor.

(** Further cursor and aggregation stages.  A sort on one key keeps
    documents with equal keys in the order of the collection. *)

Section Stages.
Variable A : Type.

(** [sort({ key: -1 })] *)
Definition descending (key : A -> Z) (x y : A) : bool := (key y <? key x)%Z.

(** [cursor.limit(n)] on its own. *)
Definition cursorLimit (limit : Z) (l : list A) : list A :=
  if (limit =? 0)%Z then l else firstn (Z.to_nat (Z.abs limit)) l.

(** [Model.findOne(query).sort(s)]: the first match in sort order. *)
Definition findOneSorted (before : A -> A -> bool) (query : A -> bool) (l : list A)
    : option A :=
  hd_error (sortBy before (filter query l)).

(** [deleteOne(query)]: the first match is removed. *)
Fixpoint deleteOne (query : A -> bool) (l : list A) : list A :=
  match l with
  | [] => []
  | x :: r => if query x then r else x :: deleteOne query r
  end.

End Stages.

(** [{ $group: { _id: '$key', count: { $sum: 1 } } }] over the key values of
    the documents: one group per distinct value, with the number of
    documents that carry it. *)
Definition occurrences (k : string) (keys : list string) : Z :=
  Z.of_nat (length (filter (String.eqb k) keys)).

Definition groupCount (keys : list string) : list (string * Z) :=
  map (fun k => (k, occurrences k keys)) (nodup string_dec keys).

(** The sum of a list of counts. *)
Definition sumZ (l : list Z) : Z := fold_right Z.add 0%Z l.

(* ------------------------------------------------------------------------- *)
(** ** models/Blog.ts *)

Module Blog.

Record IBlogAuthor : Type := {
  author_name : string;
  author_role : option string;
  author_bio : option string;
  author_avatar : option string
}.

Record IBlogStats : Type := { likes : Z; comments : Z; bookmarks : Z; views : Z }.

Record IBlog : Type := {
  _id : ObjectId;
  title : string;
  slug : string;
  excerpt : string;
  content : string;
  author : IBlogAuthor;
  publishedDate : Z;
  readTime : string;
  category : string;
  image : string;
  tags : list string;
  featured : bool;
  published : bool;
  stats : IBlogStats;
  color : option string;
  createdAt : Z;
  updatedAt : Z
}.

Definition Blogs : Type := list IBlog.

Definition withSlug (s : string) (b : IBlog) : IBlog :=
  {| _id := _id b; title := title b; slug := s; excerpt := excerpt b;
     content := content b; author := author b; publishedDate := publishedDate b;
     readTime := readTime b; category := category b; image := image b;
     tags := tags b; featured := featured b; published := published b;
     stats := stats b; color := color b; createdAt := createdAt b;
     updatedAt := updatedAt b |}.

Definition withReadTime (r : string) (b : IBlog) : IBlog :=
  {| _id := _id b; title := title b; slug := slug b; excerpt := excerpt b;
     content := content b; author := author b; publishedDate := publishedDate b;
     readTime := r; category := category b; image := image b;
     tags := tags b; featured := featured b; published := published b;
     stats := stats b; color := color b; createdAt := createdAt b;
     updatedAt := updatedAt b |}.

Definition withStats (s : IBlogStats) (b : IBlog) : IBlog :=
  {| _id := _id b; title := title b; slug := slug b; excerpt := excerpt b;
     content := content b; author := author b; publishedDate := publishedDate b;
     readTime := readTime b; category := category b; image := image b;
     tags := tags b; featured := featured b; published := published b;
     stats := s; color := color b; createdAt := createdAt b;
     updatedAt := updatedAt b |}.

Definition withUpdatedAt (t : Z) (b : IBlog) : IBlog :=
  {| _id := _id b; title := title b; slug := slug b; excerpt := excerpt b;
     content := content b; author := author b; publishedDate := publishedDate b;
     readTime := readTime b; category := category b; image := image b;
     tags := tags b; featured := featured b; published := published b;
     stats := stats b; color := color b; createdAt := createdAt b;
     updatedAt := t |}.

Definition withContent (c : string) (b : IBlog) : IBlog :=
  {| _id := _id b; title := title b; slug := slug b; excerpt := excerpt b;
     content := c; author := author b; publishedDate := publishedDate b;
     readTime := readTime b; category := category b; image := image b;
     tags := tags b; featured := featured b; published := published b;
     stats := stats b; color := color b; createdAt := createdAt b;
     updatedAt := updatedAt b |}.

Definition withViews (v : Z) (s : IBlogStats) : IBlogStats :=
  {| likes := likes s; comments := comments s; bookmarks := bookmarks s; views := v |}.

Definition withLikes (v : Z) (s : IBlogStats) : IBlogStats :=
  {| likes := v; comments := comments s; bookmarks := bookmarks s; views := views s |}.

(** The request body of create and update: every property is optional. *)
Record BlogBody : Type := {
  b_title : option string;
  b_slug : option string;
  b_excerpt : option string;
  b_content : option string;
  b_author : option IBlogAuthor;
  b_publishedDate : option Z;
  b_readTime : option string;
  b_category : option string;
  b_image : option string;
  b_tags : option (list string);
  b_featured : option bool;
  b_published : option bool;
  b_color : option string
}.

Definition withBodySlug (s : option string) (d : BlogBody) : BlogBody :=
  {| b_title := b_title d; b_slug := s; b_excerpt := b_excerpt d;
     b_content := b_content d; b_author := b_author d;
     b_publishedDate := b_publishedDate d; b_readTime := b_readTime d;
     b_category := b_category d; b_image := b_image d; b_tags := b_tags d;
     b_featured := b_featured d; b_published := b_published d;
     b_color := b_color d |}.

Definition noAuthor : IBlogAuthor :=
  {| author_name := ""; author_role := None; author_bio := None; author_avatar := None |}.

(** [new Blog(blogData)]: schema setters ([trim], [lowercase]) and defaults. *)
Definition newBlog (rt : Runtime) (d : BlogBody) : IBlog :=
  {| _id := newId rt;
     title := Js.trim (field (b_title d));
     slug := Js.toLowerCase (field (b_slug d));
     excerpt := Js.trim (field (b_excerpt d));
     content := field (b_content d);
     author := orDefault (b_author d) noAuthor;
     publishedDate := orDefault (b_publishedDate d) (now rt);
     readTime := field (b_readTime d);
     category := field (b_category d);
     image := field (b_image d);
     tags := orDefault (b_tags d) [];
     featured := orDefault (b_featured d) false;
     published := orDefault (b_published d) false;
     stats := {| likes := 0; comments := 0; bookmarks := 0; views := 0 |};
     color := b_color d;
     createdAt := now rt;
     updatedAt := now rt |}.

(** The validators of [BlogSchema]. *)
Definition BlogSchema_validate (b : IBlog) : option Exception :=
  if negb (Js.truthy (title b)) || (200 <? String.length (title b))
  then Some (ValidationError "title")
  else if negb (Js.truthy (slug b)) then Some (ValidationError "slug")
  else if negb (Js.truthy (excerpt b)) || (500 <? String.length (excerpt b))
  then Some (ValidationError "excerpt")
  else if negb (Js.truthy (content b)) then Some (ValidationError "content")
  else if negb (Js.truthy (author_name (author b))) then Some (ValidationError "author.name")
  else if negb (Js.truthy (readTime b)) then Some (ValidationError "readTime")
  else if negb (oneOf (category b) ["News"; "Tutorial"; "Guide"; "Industry News"])
  then Some (ValidationError "category")
  else if negb (Js.truthy (image b)) then Some (ValidationError "image")
  else if match color b with
          | Some c => negb (oneOf c ["mint"; "gold"])
          | None => false
          end
  then Some (ValidationError "color")
  else if (likes (stats b) <? 0)%Z || (comments (stats b) <? 0)%Z
          || (bookmarks (stats b) <? 0)%Z || (views (stats b) <? 0)%Z
  then Some (ValidationError "stats")
  else None.

(** First [pre('save')] hook.  [titleModified] is [this.isModified('title')]:
    true for a document built by [new Blog(data)] from data that carries a
    title, false for a fetched document whose title was not assigned. *)
Definition pre_save_slug (titleModified : bool) (b : IBlog) : IBlog :=
  if negb (Js.truthy (slug b)) || titleModified
  then withSlug (Js.toLowerCase (Slugify.slugify (title b))) b
  else b.

(** [content.split(/\s+/).length]: one more than the number of white-space runs. *)
Fixpoint splitCount (inRun : bool) (l : list ascii) : nat :=
  match l with
  | [] => 1
  | c :: r =>
      if Js.isSpace c
      then (if inRun then splitCount true r else S (splitCount true r))
      else splitCount false r
  end.

(** Second [pre('save')] hook. *)
Definition pre_save_readTime (b : IBlog) : IBlog :=
  if negb (Js.truthy (readTime b)) && Js.truthy (content b)
  then
    let wordCount := splitCount false (Js.chars (content b)) in
    let minutes := (wordCount + 199) / 200 in
    withReadTime (Js.natToString minutes ++ " min read")%string b
  else b.

(** [doc.save()] on a new document: validation, the hooks, the insert under
    the unique index on [slug].  Validation comes first, so the [required]
    path [slug] has to be in the data the document was built from even though
    the first hook then derives it from the title. *)
Definition Blog_insert (db : Blogs) (titleModified : bool) (b : IBlog)
    : Exception + (Blogs * IBlog) :=
  match BlogSchema_validate b with
  | Some e => inl e
  | None =>
      let b := pre_save_readTime (pre_save_slug titleModified b) in
      if existsb (fun o => String.eqb (slug o) (slug b)) db
      then inl (DuplicateKeyError "slug")
      else inr (db ++ [b], b)
  end.

Definition replaceDoc (b : IBlog) (db : Blogs) : Blogs :=
  map (fun o => if _id o =? _id b then b else o) db.

(** [Blog.findOne(query)] and [Blog.findById(id)] *)
Definition Blog_findOne (db : Blogs) (query : IBlog -> bool) : option IBlog :=
  find query db.

Definition Blog_findById (db : Blogs) (id : ObjectId) : option IBlog :=
  find (fun b => _id b =? id) db.

(** The unique index on [slug] is consulted when a write changes the key. *)
Definition slugChanged (db : Blogs) (b : IBlog) : bool :=
  match Blog_findById db (_id b) with
  | Some old => negb (String.eqb (slug old) (slug b))
  | None => true
  end.

(** [doc.save()] on a fetched document that was assigned to: validation, the
    hooks, the [updatedAt] stamp of [timestamps: true], the write. *)
Definition Blog_save (rt : Runtime) (db : Blogs) (titleModified : bool) (b : IBlog)
    : Exception + (Blogs * IBlog) :=
  match BlogSchema_validate b with
  | Some e => inl e
  | None =>
      let b := pre_save_readTime (pre_save_slug titleModified b) in
      let b := withUpdatedAt (now rt) b in
      if slugChanged db b
         && existsb (fun o => negb (_id o =? _id b) && String.eqb (slug o) (slug b)) db
      then inl (DuplicateKeyError "slug")
      else inr (replaceDoc b db, b)
  end.

(** The update validators ([runValidators: true]) of the paths in [$set]. *)
Definition validateSet (d : BlogBody) : option Exception :=
  if match b_title d with
     | Some t => negb (Js.truthy (Js.trim t)) || (200 <? String.length (Js.trim t))
     | None => false
     end
  then Some (ValidationError "title")
  else if match b_slug d with
          | Some s => negb (Js.truthy s)
          | None => false
          end
  then Some (ValidationError "slug")
  else if match b_excerpt d with
          | Some t => negb (Js.truthy (Js.trim t)) || (500 <? String.length (Js.trim t))
          | None => false
          end
  then Some (ValidationError "excerpt")
  else if match b_content d with Some t => negb (Js.truthy t) | None => false end
  then Some (ValidationError "content")
  else if match b_author d with
          | Some a => negb (Js.truthy (author_name a))
          | None => false
          end
  then Some (ValidationError "author.name")
  else if match b_readTime d with Some t => negb (Js.truthy t) | None => false end
  then Some (ValidationError "readTime")
  else if match b_category d with
          | Some c => negb (oneOf c ["News"; "Tutorial"; "Guide"; "Industry News"])
          | None => false
          end
  then Some (ValidationError "category")
  else if match b_image d with Some t => negb (Js.truthy t) | None => false end
  then Some (ValidationError "image")
  else if match b_color d with
          | Some c => negb (oneOf c ["mint"; "gold"])
          | None => false
          end
  then Some (ValidationError "color")
  else None.

(** [{ $set: updateData }]: provided paths are overwritten, the others kept. *)
Definition applySet (d : BlogBody) (b : IBlog) : IBlog :=
  {| _id := _id b;
     title := match b_title d with Some t => Js.trim t | None => title b end;
     slug := match b_slug d with Some s => Js.toLowerCase s | None => slug b end;
     excerpt := match b_excerpt d with Some t => Js.trim t | None => excerpt b end;
     content := orDefault (b_content d) (content b);
     author := orDefault (b_author d) (author b);
     publishedDate := orDefault (b_publishedDate d) (publishedDate b);
     readTime := orDefault (b_readTime d) (readTime b);
     category := orDefault (b_category d) (category b);
     image := orDefault (b_image d) (image b);
     tags := orDefault (b_tags d) (tags b);
     featured := orDefault (b_featured d) (featured b);
     published := orDefault (b_published d) (published b);
     stats := stats b;
     color := match b_color d with Some c => Some c | None => color b end;
     createdAt := createdAt b;
     updatedAt := updatedAt b |}.

(** [Blog.findByIdAndUpdate(id, update, { new: true, ... })] for an update
    function [upd]; no [save] hook runs, [updatedAt] is stamped, the unique
    index on [slug] is enforced, and the updated document is returned. *)
Definition Blog_findByIdAndUpdate (rt : Runtime) (db : Blogs) (id : ObjectId)
    (upd : IBlog -> IBlog) : Exception + (Blogs * option IBlog) :=
  match Blog_findById db id with
  | None => inr (db, None)
  | Some b =>
      let b' := withUpdatedAt (now rt) (upd b) in
      if negb (String.eqb (slug b) (slug b'))
         && existsb (fun o => negb (_id o =? id) && String.eqb (slug o) (slug b')) db
      then inl (DuplicateKeyError "slug")
      else inr (replaceDoc b' db, Some b')
  end.

(** [Blog.findByIdAndDelete(id)]: the deleted document, if there was one. *)
Definition Blog_findByIdAndDelete (db : Blogs) (id : ObjectId) : Blogs * option IBlog :=
  match Blog_findById db id with
  | None => (db, None)
  | Some b => (deleteOne (fun o => _id o =? id) db, Some b)
  end.

Definition withBookmarks (v : Z) (s : IBlogStats) : IBlogStats :=
  {| likes := likes s; comments := comments s; bookmarks := v; views := views s |}.

(** The collection's unique keys: [_id] and the unique index on [slug]. *)
Definition BlogsInvariant (db : Blogs) : Prop :=
  NoDup (map _id db) /\ NoDup (map slug db).

End Blog.

(** The text index of a collection ([$text: { $search }]) belongs to the
    database; handlers only pass the search string on. *)
Class TextIndex (A : Type) : Type := { text_search : string -> A -> bool }.

Definition withHeaders {T : Type} (h : list (string * string)) (r : Response T) : Response T :=
  {| status := status r; headers := h; body := body r |}.

(** The regular-expression engine, for expressions built from request text:
    [regexp_anchored_i s] is [new RegExp(`^${s}$`, 'i')], [None] when the
    constructor throws because the text is no valid expression, and otherwise
    its [test] function. *)
Class RegExp : Type := { regexp_anchored_i : string -> option (string -> bool) }.

(* ------------------------------------------------------------------------- *)
(** ** controllers/blogController.ts *)

Module BlogController.
Import Blog.

Record IBlogQueryParams : Type := {
  q_category : option string;
  q_tag : option string;
  q_search : option string;
  q_featured : option string;
  q_page : option Z;
  q_limit : option Z
}.

Record BlogList : Type := {
  posts : list IBlog;
  total : Z;
  page : Z;
  limit : Z;
  hasMore : bool
}.

(** The filter object built by [getBlogs].  The category expression
    [^category$] with flag [i] is a case-insensitive comparison. *)
Definition blogsQuery {X : TextIndex IBlog} (q : IBlogQueryParams) (b : IBlog) : bool :=
  published b
  && (if Js.present (q_category q) && negb (String.eqb (field (q_category q)) "all")
      then String.eqb (Js.toLowerCase (category b)) (Js.toLowerCase (field (q_category q)))
      else true)
  && (if Js.present (q_tag q)
      then existsb (String.eqb (field (q_tag q))) (tags b)
      else true)
  && match q_featured q with
     | Some f => Bool.eqb (featured b) (String.eqb f "true")
     | None => true
     end
  && (if Js.present (q_search q) then text_search (field (q_search q)) b else true).

(** [sort({ publishedDate: -1, createdAt: -1 })] *)
Definition newestFirst (x y : IBlog) : bool :=
  (publishedDate y <? publishedDate x)%Z
  || ((publishedDate y =? publishedDate x)%Z && (createdAt y <=? createdAt x)%Z).

Definition getBlogs {X : TextIndex IBlog} (db : Blogs) (q : IBlogQueryParams)
    : Response BlogList :=
  let page_ := orDefault (q_page q) 1%Z in
  let limit_ := orDefault (q_limit q) 10%Z in
  let query := blogsQuery q in
  let skip := ((page_ - 1) * limit_)%Z in
  match skipLimit skip limit_ (sortBy newestFirst (filter query db)) with
  | inl _ => fail 500 "FETCH_ERROR" "Failed to fetch blogs."
  | inr found =>
      let blogs := map (withContent "") found in
      let total_ := countDocuments query db in
      withHeaders [("X-Total-Count", Js.toString total_);
                   ("X-Page", Js.toString page_);
                   ("X-Limit", Js.toString limit_)]
        (reply 200
           (Some {| posts := blogs; total := total_; page := page_; limit := limit_;
                    hasMore := (skip + Z.of_nat (length blogs) <? total_)%Z |})
           None)
  end.

Definition getBlogBySlug (rt : Runtime) (db : Blogs) (slug_ : string)
    : Blogs * Response IBlog :=
  match Blog_findOne db (fun b => String.eqb (slug b) slug_ && published b) with
  | None => (db, fail 404 "NOT_FOUND" "Blog post not found.")
  | Some blog =>
      let blog := withStats (withViews (views (stats blog) + 1)%Z (stats blog)) blog in
      match Blog_save rt db false blog with
      | inl _ => (db, fail 500 "FETCH_ERROR" "Failed to fetch blog.")
      | inr (db', saved) => (db', reply 200 (Some saved) None)
      end
  end.

Definition getBlogById (db : Blogs) (id : ObjectId) : Response IBlog :=
  match Blog_findById db id with
  | None => fail 404 "NOT_FOUND" "Blog post not found."
  | Some blog => reply 200 (Some blog) None
  end.

Definition createBlog (rt : Runtime) (db : Blogs) (blogData : BlogBody)
    : Blogs * Response IBlog :=
  let titleGiven := match b_title blogData with Some _ => true | None => false end in
  match Blog_insert db titleGiven (newBlog rt blogData) with
  | inl _ => (db, fail 500 "CREATE_ERROR" "Failed to create blog post.")
  | inr (db', blog) =>
      (db', reply 201 (Some blog) (Some "Blog post created successfully"))
  end.

Definition updateBlog (rt : Runtime) (db : Blogs) (id : ObjectId)
    (reqBody : BlogBody) : Blogs * Response IBlog :=
  let updateData :=
    if Js.present (b_title reqBody)
    then withBodySlug (Some (Slugify.slugify (field (b_title reqBody)))) reqBody
    else reqBody in
  match validateSet updateData with
  | Some _ => (db, fail 500 "UPDATE_ERROR" "Failed to update blog post.")
  | None =>
      match Blog_findByIdAndUpdate rt db id (applySet updateData) with
      | inl _ => (db, fail 500 "UPDATE_ERROR" "Failed to update blog post.")
      | inr (db', None) => (db', fail 404 "NOT_FOUND" "Blog post not found.")
      | inr (db', Some blog) =>
          (db', reply 200 (Some blog) (Some "Blog post updated successfully"))
      end
  end.

Definition likeBlog (rt : Runtime) (db : Blogs) (id : ObjectId)
    : Blogs * Response Z :=
  match Blog_findByIdAndUpdate rt db id
          (fun b => withStats (withLikes (likes (stats b) + 1)%Z (stats b)) b) with
  | inl _ => (db, fail 500 "UPDATE_ERROR" "Failed to like blog post.")
  | inr (db', None) => (db', fail 404 "NOT_FOUND" "Blog post not found.")
  | inr (db', Some blog) =>
      (db', reply 200 (Some (likes (stats blog))) (Some "Blog post liked"))
  end.

Definition bookmarkBlog (rt : Runtime) (db : Blogs) (id : ObjectId)
    : Blogs * Response Z :=
  match Blog_findByIdAndUpdate rt db id
          (fun b => withStats (withBookmarks (bookmarks (stats b) + 1)%Z (stats b)) b) with
  | inl _ => (db, fail 500 "UPDATE_ERROR" "Failed to bookmark blog post.")
  | inr (db', None) => (db', fail 404 "NOT_FOUND" "Blog post not found.")
  | inr (db', Some blog) =>
      (db', reply 200 (Some (bookmarks (stats blog))) (Some "Blog post bookmarked"))
  end.

(** [getFeaturedBlog]: the newest published featured post, and when there is
    none the newest published post. *)
Definition getFeaturedBlog (db : Blogs) : Response IBlog :=
  match findOneSorted (descending publishedDate)
          (fun b => featured b && published b) db with
  | None =>
      match findOneSorted (descending publishedDate) published db with
      | None => fail 404 "NOT_FOUND" "No blog posts found."
      | Some latestPost => reply 200 (Some latestPost) None
      end
  | Some featuredPost => reply 200 (Some featuredPost) None
  end.

(** The projection [select('title category readTime slug image excerpt')],
    which keeps [_id]. *)
Record RelatedBlog : Type := {
  rel_id : ObjectId;
  rel_title : string;
  rel_category : string;
  rel_readTime : string;
  rel_slug : string;
  rel_image : string;
  rel_excerpt : string
}.

Definition selectRelated (b : IBlog) : RelatedBlog :=
  {| rel_id := _id b; rel_title := title b; rel_category := category b;
     rel_readTime := readTime b; rel_slug := slug b; rel_image := image b;
     rel_excerpt := excerpt b |}.

(** The filter of [getRelatedBlogs] for the post [currentBlog]:
    [{ _id: { $ne }, published: true, $or: [{ category }, { tags: { $in } }] }]. *)
Definition relatedQuery (currentBlog b : IBlog) : bool :=
  negb (_id b =? _id currentBlog)
  && published b
  && (String.eqb (category b) (category currentBlog)
      || existsb (fun t => existsb (String.eqb t) (tags currentBlog)) (tags b)).

(** [getRelatedBlogs].  [limitParam] is [Number(req.query.limit)] when that
    is an integer, and [None] when the parameter is absent or no number;
    [|| 3] replaces both that and zero. *)
Definition getRelatedBlogs (db : Blogs) (slug_ : string) (limitParam : option Z)
    : Response (list RelatedBlog) :=
  let limit_ := match limitParam with
                | Some n => if (n =? 0)%Z then 3%Z else n
                | None => 3%Z
                end in
  match Blog_findOne db (fun b => String.eqb (slug b) slug_) with
  | None => fail 404 "NOT_FOUND" "Blog post not found."
  | Some currentBlog =>
      let relatedBlogs :=
        map selectRelated
          (cursorLimit limit_
             (sortBy (descending publishedDate) (filter (relatedQuery currentBlog) db))) in
      reply 200 (Some relatedBlogs) None
  end.

Record CategoryCount : Type := { cat_id : string; cat_name : string; cat_count : Z }.

(** [cat._id.toLowerCase().replace(/\s+/g, '-')] *)
Definition categoryId (name_ : string) : string :=
  Js.str (Slugify.collapse false (Js.chars (Js.toLowerCase name_))).

(** [getBlogCategories]: the groups of the published posts by category,
    largest first, behind the entry for all posts. *)
Definition getBlogCategories (db : Blogs) : Response (list CategoryCount) :=
  let categories :=
    sortBy (descending (@snd string Z))
      (groupCount (map category (filter published db))) in
  let totalPosts := countDocuments published db in
  let formattedCategories :=
    {| cat_id := "all"; cat_name := "All Posts"; cat_count := totalPosts |}
    :: map (fun cat => {| cat_id := categoryId (fst cat); cat_name := fst cat;
                          cat_count := snd cat |}) categories in
  reply 200 (Some formattedCategories) None.

Record Topic : Type := { topic_name : string; topic_posts : Z }.

(** [getTrendingTopics]: [$match], [$unwind: '$tags'], [$group] with a
    count, [$sort] by the count, [$limit: 10], [$project]. *)
Definition getTrendingTopics (db : Blogs) : Response (list Topic) :=
  let grouped := groupCount (flat_map tags (filter published db)) in
  let trendingTopics :=
    map (fun g => {| topic_name := fst g; topic_posts := snd g |})
      (firstn 10 (sortBy (descending (@snd string Z)) grouped)) in
  reply 200 (Some trendingTopics) None.

Definition deleteBlog (db : Blogs) (id : ObjectId) : Blogs * Response unit :=
  match Blog_findByIdAndDelete db id with
  | (db', None) => (db', fail 404 "NOT_FOUND" "Blog post not found.")
  | (db', Some _) => (db', reply 200 None (Some "Blog post deleted successfully"))
  end.

Record IBlogAdminQuery : Type := {
  aq_category : option string;
  aq_published : option string;
  aq_page : option Z;
  aq_limit : option Z
}.

(** The filter object built by [getAllBlogsAdmin]; [None] when the category
    text is no valid regular expression. *)
Definition adminQuery {R : RegExp} (q : IBlogAdminQuery) : option (IBlog -> bool) :=
  let byCategory : option (IBlog -> bool) :=
    if Js.present (aq_category q) && negb (String.eqb (field (aq_category q)) "all")
    then match regexp_anchored_i (field (aq_category q)) with
         | Some test => Some (fun b => test (category b))
         | None => None
         end
    else Some (fun _ => true) in
  match byCategory with
  | None => None
  | Some inCategory =>
      Some (fun b => inCategory b
                     && match aq_published q with
                        | Some p => Bool.eqb (published b) (String.eqb p "true")
                        | None => true
                        end)
  end.

Definition getAllBlogsAdmin {R : RegExp} (db : Blogs) (q : IBlogAdminQuery)
    : Response BlogList :=
  let page_ := orDefault (aq_page q) 1%Z in
  let limit_ := orDefault (aq_limit q) 20%Z in
  match adminQuery q with
  | None => fail 500 "FETCH_ERROR" "Failed to fetch blogs."
  | Some query =>
      let skip := ((page_ - 1) * limit_)%Z in
      match skipLimit skip limit_ (sortBy (descending createdAt) (filter query db)) with
      | inl _ => fail 500 "FETCH_ERROR" "Failed to fetch blogs."
      | inr blogs =>
          let total_ := countDocuments query db in
          withHeaders [("X-Total-Count", Js.toString total_);
                       ("X-Page", Js.toString page_);
                       ("X-Limit", Js.toString limit_)]
            (reply 200
               (Some {| posts := blogs; total := total_; page := page_; limit := limit_;
                        hasMore := (skip + Z.of_nat (length blogs) <? total_)%Z |})
               None)
      end
  end.

End BlogController.

(* ------------------------------------------------------------------------- *)
(** ** models/Showcase.ts *)

Module Showcase.

Record IShowcaseStats : Type := { stars : Z; users : string; tvl : string }.

Record IShowcaseLinks : Type := {
  website : option string;
  github : option string;
  twitter : option string;
  discord : option string;
  documentation : option string
}.

Record IShowcase : Type := {
  _id : ObjectId;
  title : string;
  slug : string;
  description : string;
  category : string;
  creator : string;
  image : string;
  tags : list string;
  stats : IShowcaseStats;
  links : IShowcaseLinks;
  featured : bool;
  trending : bool;
  recentlyAdded : bool;
  color : string;
  published : bool;
  createdAt : Z;
  updatedAt : Z
}.

Definition Projects : Type := list IShowcase.

Definition withSlug (s : string) (p : IShowcase) : IShowcase :=
  {| _id := _id p; title := title p; slug := s; description := description p;
     category := category p; creator := creator p; image := image p;
     tags := tags p; stats := stats p; links := links p; featured := featured p;
     trending := trending p; recentlyAdded := recentlyAdded p; color := color p;
     published := published p; createdAt := createdAt p; updatedAt := updatedAt p |}.

Definition withRecentlyAdded (r : bool) (p : IShowcase) : IShowcase :=
  {| _id := _id p; title := title p; slug := slug p; description := description p;
     category := category p; creator := creator p; image := image p;
     tags := tags p; stats := stats p; links := links p; featured := featured p;
     trending := trending p; recentlyAdded := r; color := color p;
     published := published p; createdAt := createdAt p; updatedAt := updatedAt p |}.

Definition withStats (s : IShowcaseStats) (p : IShowcase) : IShowcase :=
  {| _id := _id p; title := title p; slug := slug p; description := description p;
     category := category p; creator := creator p; image := image p;
     tags := tags p; stats := s; links := links p; featured := featured p;
     trending := trending p; recentlyAdded := recentlyAdded p; color := color p;
     published := published p; createdAt := createdAt p; updatedAt := updatedAt p |}.

Definition withUpdatedAt (t : Z) (p : IShowcase) : IShowcase :=
  {| _id := _id p; title := title p; slug := slug p; description := description p;
     category := category p; creator := creator p; image := image p;
     tags := tags p; stats := stats p; links := links p; featured := featured p;
     trending := trending p; recentlyAdded := recentlyAdded p; color := color p;
     published := published p; createdAt := createdAt p; updatedAt := t |}.

Definition withStars (n : Z) (s : IShowcaseStats) : IShowcaseStats :=
  {| stars := n; users := users s; tvl := tvl s |}.

Record ShowcaseBody : Type := {
  s_title : option string;
  s_slug : option string;
  s_description : option string;
  s_category : option string;
  s_creator : option string;
  s_image : option string;
  s_tags : option (list string);
  s_stats : option IShowcaseStats;
  s_links : option IShowcaseLinks;
  s_featured : option bool;
  s_trending : option bool;
  s_recentlyAdded : option bool;
  s_color : option string;
  s_published : option bool
}.

Definition withBodySlug (s : option string) (d : ShowcaseBody) : ShowcaseBody :=
  {| s_title := s_title d; s_slug := s; s_description := s_description d;
     s_category := s_category d; s_creator := s_creator d; s_image := s_image d;
     s_tags := s_tags d; s_stats := s_stats d; s_links := s_links d;
     s_featured := s_featured d; s_trending := s_trending d;
     s_recentlyAdded := s_recentlyAdded d; s_color := s_color d;
     s_published := s_published d |}.

Definition noLinks : IShowcaseLinks :=
  {| website := None; github := None; twitter := None; discord := None;
     documentation := None |}.

(** [new Showcase(projectData)] *)
Definition newShowcase (rt : Runtime) (d : ShowcaseBody) : IShowcase :=
  {| _id := newId rt;
     title := Js.trim (field (s_title d));
     slug := Js.toLowerCase (field (s_slug d));
     description := field (s_description d);
     category := field (s_category d);
     creator := Js.trim (field (s_creator d));
     image := field (s_image d);
     tags := map Js.trim (orDefault (s_tags d) []);
     stats := orDefault (s_stats d) {| stars := 0; users := "0"; tvl := "$0" |};
     links := orDefault (s_links d) noLinks;
     featured := orDefault (s_featured d) false;
     trending := orDefault (s_trending d) false;
     recentlyAdded := orDefault (s_recentlyAdded d) true;
     color := orDefault (s_color d) "mint";
     published := orDefault (s_published d) false;
     createdAt := now rt;
     updatedAt := now rt |}.

Definition categories : list string :=
  ["DeFi"; "NFT"; "DAO"; "GameFi"; "Infrastructure"; "Social"; "Tools"; "Other"].

Definition showcaseSchema_validate (p : IShowcase) : option Exception :=
  if negb (Js.truthy (title p)) || (200 <? String.length (title p))
  then Some (ValidationError "title")
  else if negb (Js.truthy (description p)) || (1000 <? String.length (description p))
  then Some (ValidationError "description")
  else if negb (oneOf (category p) categories) then Some (ValidationError "category")
  else if negb (Js.truthy (creator p)) then Some (ValidationError "creator")
  else if negb (Js.truthy (image p)) then Some (ValidationError "image")
  else if negb (oneOf (color p) ["mint"; "gold"]) then Some (ValidationError "color")
  else None.

Definition thirtyDays : Z := (30 * 24 * 60 * 60 * 1000)%Z.

(** The [pre('save')] hook: the slug rule, then [recentlyAdded] is cleared
    for documents created more than thirty days ago. *)
Definition pre_save (rt : Runtime) (titleModified : bool) (p : IShowcase) : IShowcase :=
  let p := if titleModified || negb (Js.truthy (slug p))
           then withSlug (Js.toLowerCase (Slugify.slugify (title p))) p
           else p in
  if (createdAt p <? now rt - thirtyDays)%Z then withRecentlyAdded false p else p.

Definition Showcase_insert (rt : Runtime) (db : Projects) (titleModified : bool)
    (p : IShowcase) : Exception + (Projects * IShowcase) :=
  match showcaseSchema_validate p with
  | Some e => inl e
  | None =>
      let p := pre_save rt titleModified p in
      if existsb (fun o => String.eqb (slug o) (slug p)) db
      then inl (DuplicateKeyError "slug")
      else inr (db ++ [p], p)
  end.

Definition Showcase_findOne (db : Projects) (query : IShowcase -> bool) : option IShowcase :=
  find query db.

Definition Showcase_findById (db : Projects) (id : ObjectId) : option IShowcase :=
  find (fun p => _id p =? id) db.

Definition replaceDoc (p : IShowcase) (db : Projects) : Projects :=
  map (fun o => if _id o =? _id p then p else o) db.

Definition validateSet (d : ShowcaseBody) : option Exception :=
  if match s_title d with
     | Some t => negb (Js.truthy (Js.trim t)) || (200 <? String.length (Js.trim t))
     | None => false
     end
  then Some (ValidationError "title")
  else if match s_description d with
          | Some t => negb (Js.truthy t) || (1000 <? String.length t)
          | None => false
          end
  then Some (ValidationError "description")
  else if match s_category d with
          | Some c => negb (oneOf c categories)
          | None => false
          end
  then Some (ValidationError "category")
  else if match s_creator d with Some t => negb (Js.truthy (Js.trim t)) | None => false end
  then Some (ValidationError "creator")
  else if match s_image d with Some t => negb (Js.truthy t) | None => false end
  then Some (ValidationError "image")
  else if match s_color d with
          | Some c => negb (oneOf c ["mint"; "gold"])
          | None => false
          end
  then Some (ValidationError "color")
  else None.

Definition applySet (d : ShowcaseBody) (p : IShowcase) : IShowcase :=
  {| _id := _id p;
     title := match s_title d with Some t => Js.trim t | None => title p end;
     slug := match s_slug d with Some s => Js.toLowerCase s | None => slug p end;
     description := orDefault (s_description d) (description p);
     category := orDefault (s_category d) (category p);
     creator := match s_creator d with Some t => Js.trim t | None => creator p end;
     image := orDefault (s_image d) (image p);
     tags := match s_tags d with Some t => map Js.trim t | None => tags p end;
     stats := orDefault (s_stats d) (stats p);
     links := orDefault (s_links d) (links p);
     featured := orDefault (s_featured d) (featured p);
     trending := orDefault (s_trending d) (trending p);
     recentlyAdded := orDefault (s_recentlyAdded d) (recentlyAdded p);
     color := orDefault (s_color d) (color p);
     published := orDefault (s_published d) (published p);
     createdAt := createdAt p;
     updatedAt := updatedAt p |}.

(** [Showcase.findByIdAndUpdate(id, update, { new: true, ... })]; the unique
    index on [slug] is consulted when the update changes the key. *)
Definition Showcase_findByIdAndUpdate (rt : Runtime) (db : Projects) (id : ObjectId)
    (upd : IShowcase -> IShowcase) : Exception + (Projects * option IShowcase) :=
  match Showcase_findById db id with
  | None => inr (db, None)
  | Some p =>
      let p' := withUpdatedAt (now rt) (upd p) in
      if negb (String.eqb (slug p) (slug p'))
         && existsb (fun o => negb (_id o =? id) && String.eqb (slug o) (slug p')) db
      then inl (DuplicateKeyError "slug")
      else inr (replaceDoc p' db, Some p')
  end.

(** The collection's unique keys: [_id] and the unique index on [slug]. *)
Definition ProjectsInvariant (db : Projects) : Prop :=
  NoDup (map _id db) /\ NoDup (map slug db).

End Showcase.

(* ------------------------------------------------------------------------- *)
(** ** controllers/showcaseController.ts *)

Module ShowcaseController.
Import Showcase.

Definition getShowcaseBySlug (db : Projects) (slug_ : string) : Response IShowcase :=
  match Showcase_findOne db (fun p => String.eqb (slug p) slug_ && published p) with
  | None => fail 404 "NOT_FOUND" "Project not found."
  | Some project => reply 200 (Some project) None
  end.

Definition getShowcaseById (db : Projects) (id : ObjectId) : Response IShowcase :=
  match Showcase_findById db id with
  | None => fail 404 "NOT_FOUND" "Project not found."
  | Some project => reply 200 (Some project) None
  end.

(** [{ $inc: { 'stats.stars': 1 } }] *)
Definition incStars (p : IShowcase) : IShowcase :=
  withStats (withStars (stars (stats p) + 1)%Z (stats p)) p.

Definition starProject (rt : Runtime) (db : Projects) (id : ObjectId)
    : Projects * Response Z :=
  match Showcase_findByIdAndUpdate rt db id incStars with
  | inl _ => (db, fail 500 "UPDATE_ERROR" "Failed to star project.")
  | inr (db', None) => (db', fail 404 "NOT_FOUND" "Project not found.")
  | inr (db', Some project) =>
      (db', reply 200 (Some (stars (stats project))) (Some "Project starred"))
  end.

Definition createShowcaseProject (rt : Runtime) (db : Projects)
    (projectData : ShowcaseBody) : Projects * Response IShowcase :=
  let titleGiven := match s_title projectData with Some _ => true | None => false end in
  match Showcase_insert rt db titleGiven (newShowcase rt projectData) with
  | inl _ => (db, fail 500 "CREATE_ERROR" "Failed to create showcase project.")
  | inr (db', project) =>
      (db', reply 201 (Some project) (Some "Showcase project created successfully"))
  end.

Definition updateShowcaseProject (rt : Runtime) (db : Projects) (id : ObjectId)
    (reqBody : ShowcaseBody) : Projects * Response IShowcase :=
  let updateData :=
    if Js.present (s_title reqBody)
    then withBodySlug (Some (Slugify.slugify (field (s_title reqBody)))) reqBody
    else reqBody in
  match validateSet updateData with
  | Some _ => (db, fail 500 "UPDATE_ERROR" "Failed to update showcase project.")
  | None =>
      match Showcase_findByIdAndUpdate rt db id (applySet updateData) with
      | inl _ => (db, fail 500 "UPDATE_ERROR" "Failed to update showcase project.")
      | inr (db', None) => (db', fail 404 "NOT_FOUND" "Showcase project not found.")
      | inr (db', Some project) =>
          (db', reply 200 (Some project) (Some "Showcase project updated successfully"))
      end
  end.

(** [Number(req.query.limit) || 6]; the parameter as in [getRelatedBlogs]. *)
Definition limitOr (d : Z) (limitParam : option Z) : Z :=
  match limitParam with
  | Some n => if (n =? 0)%Z then d else n
  | None => d
  end.

Definition byStars (p : IShowcase) : Z := stars (stats p).

(** [find({ featured: true, published: true }).sort({ 'stats.stars': -1 }).limit(limit)] *)
Definition getFeaturedProjects (db : Projects) (limitParam : option Z)
    : Response (list IShowcase) :=
  let limit_ := limitOr 6 limitParam in
  let projects :=
    cursorLimit limit_
      (sortBy (descending byStars) (filter (fun p => featured p && published p) db)) in
  reply 200 (Some projects) None.

Definition getTrendingProjects (db : Projects) (limitParam : option Z)
    : Response (list IShowcase) :=
  let limit_ := limitOr 6 limitParam in
  let projects :=
    cursorLimit limit_
      (sortBy (descending byStars) (filter (fun p => trending p && published p) db)) in
  reply 200 (Some projects) None.

End ShowcaseController.

(* ------------------------------------------------------------------------- *)
(** ** models/Resource.ts *)

Module Resource.

Record IResource : Type := {
  _id : ObjectId;
  title : string;
  description : string;
  type : string;
  category : string;
  level : string;
  duration : string;
  author : string;
  downloads : Z;
  rating : option Z;
  students : option Z;
  image : string;
  resourceUrl : string;
  provider : string;
  tags : list string;
  slug : string;
  featured : bool;
  createdAt : Z;
  updatedAt : Z
}.

Definition Resources : Type := list IResource.

Definition withSlug (s : string) (r : IResource) : IResource :=
  {| _id := _id r; title := title r; description := description r; type := type r;
     category := category r; level := level r; duration := duration r;
     author := author r; downloads := downloads r; rating := rating r;
     students := students r; image := image r; resourceUrl := resourceUrl r;
     provider := provider r; tags := tags r; slug := s; featured := featured r;
     createdAt := createdAt r; updatedAt := updatedAt r |}.

Record ResourceBody : Type := {
  r_title : option string;
  r_description : option string;
  r_type : option string;
  r_category : option string;
  r_level : option string;
  r_duration : option string;
  r_author : option string;
  r_rating : option Z;
  r_students : option Z;
  r_image : option string;
  r_resourceUrl : option string;
  r_provider : option string;
  r_tags : option (list string);
  r_slug : option string;
  r_featured : option bool
}.

Definition withBodySlug (s : option string) (d : ResourceBody) : ResourceBody :=
  {| r_title := r_title d; r_description := r_description d; r_type := r_type d;
     r_category := r_category d; r_level := r_level d; r_duration := r_duration d;
     r_author := r_author d; r_rating := r_rating d; r_students := r_students d;
     r_image := r_image d; r_resourceUrl := r_resourceUrl d;
     r_provider := r_provider d; r_tags := r_tags d; r_slug := s;
     r_featured := r_featured d |}.

(** [new Resource(resourceData)] *)
Definition newResource (rt : Runtime) (d : ResourceBody) : IResource :=
  {| _id := newId rt;
     title := Js.trim (field (r_title d));
     description := Js.trim (field (r_description d));
     type := field (r_type d);
     category := Js.trim (field (r_category d));
     level := field (r_level d);
     duration := field (r_duration d);
     author := Js.trim (field (r_author d));
     downloads := 0;
     rating := r_rating d;
     students := r_students d;
     image := field (r_image d);
     resourceUrl := field (r_resourceUrl d);
     provider := Js.trim (field (r_provider d));
     tags := orDefault (r_tags d) [];
     slug := field (r_slug d);
     featured := orDefault (r_featured d) false;
     createdAt := now rt;
     updatedAt := now rt |}.

Definition inRange (lo hi : Z) (o : option Z) : bool :=
  match o with
  | Some v => (lo <=? v)%Z && (v <=? hi)%Z
  | None => false
  end.

Definition atLeast (lo : Z) (o : option Z) : bool :=
  match o with
  | Some v => (lo <=? v)%Z
  | None => false
  end.

Definition ResourceSchema_validate (r : IResource) : option Exception :=
  if negb (Js.truthy (title r)) then Some (ValidationError "title")
  else if negb (Js.truthy (description r)) then Some (ValidationError "description")
  else if negb (oneOf (type r) ["Tutorial"; "Documentation"; "Tool"; "Video"])
  then Some (ValidationError "type")
  else if negb (Js.truthy (category r)) then Some (ValidationError "category")
  else if negb (oneOf (level r) ["Beginner"; "Intermediate"; "Advanced"; "All Levels"])
  then Some (ValidationError "level")
  else if negb (Js.truthy (duration r)) then Some (ValidationError "duration")
  else if negb (Js.truthy (author r)) then Some (ValidationError "author")
  else if (downloads r <? 0)%Z then Some (ValidationError "downloads")
  else if negb (inRange 0 5 (rating r)) then Some (ValidationError "rating")
  else if negb (atLeast 0 (students r)) then Some (ValidationError "students")
  else if negb (Js.truthy (image r)) then Some (ValidationError "image")
  else if negb (Js.truthy (resourceUrl r)) then Some (ValidationError "resourceUrl")
  else if negb (Js.truthy (provider r)) then Some (ValidationError "provider")
  else if negb (Js.truthy (slug r)) then Some (ValidationError "slug")
  else None.

(** The [pre('save')] hook of the schema; [titleModified] as for blogs. *)
Definition pre_save_slug (titleModified : bool) (r : IResource) : IResource :=
  if negb (Js.truthy (slug r)) || titleModified
  then withSlug (Slugify.slugify (title r)) r
  else r.

Definition Resource_findOne (db : Resources) (query : IResource -> bool) : option IResource :=
  find query db.

Definition Resource_insert (db : Resources) (titleModified : bool) (r : IResource)
    : Exception + (Resources * IResource) :=
  match ResourceSchema_validate r with
  | Some e => inl e
  | None =>
      let r := pre_save_slug titleModified r in
      if existsb (fun o => String.eqb (slug o) (slug r)) db
      then inl (DuplicateKeyError "slug")
      else inr (db ++ [r], r)
  end.

Definition Resource_findById (db : Resources) (id : ObjectId) : option IResource :=
  find (fun r => _id r =? id) db.

Definition replaceDoc (r : IResource) (db : Resources) : Resources :=
  map (fun o => if _id o =? _id r then r else o) db.

Definition checked (o : option string) (ok : string -> bool) : bool :=
  match o with
  | Some v => ok v
  | None => true
  end.

(** The update validators of the paths in [$set]. *)
Definition validateSet (d : ResourceBody) : option Exception :=
  if negb (checked (r_title d) (fun t => Js.truthy (Js.trim t)))
  then Some (ValidationError "title")
  else if negb (checked (r_description d) (fun t => Js.truthy (Js.trim t)))
  then Some (ValidationError "description")
  else if negb (checked (r_type d)
                  (fun t => oneOf t ["Tutorial"; "Documentation"; "Tool"; "Video"]))
  then Some (ValidationError "type")
  else if negb (checked (r_category d) (fun t => Js.truthy (Js.trim t)))
  then Some (ValidationError "category")
  else if negb (checked (r_level d)
                  (fun t => oneOf t ["Beginner"; "Intermediate"; "Advanced"; "All Levels"]))
  then Some (ValidationError "level")
  else if negb (checked (r_duration d) Js.truthy) then Some (ValidationError "duration")
  else if negb (checked (r_author d) (fun t => Js.truthy (Js.trim t)))
  then Some (ValidationError "author")
  else if match r_rating d with Some v => negb (inRange 0 5 (Some v)) | None => false end
  then Some (ValidationError "rating")
  else if match r_students d with Some v => negb (atLeast 0 (Some v)) | None => false end
  then Some (ValidationError "students")
  else if negb (checked (r_image d) Js.truthy) then Some (ValidationError "image")
  else if negb (checked (r_resourceUrl d) Js.truthy)
  then Some (ValidationError "resourceUrl")
  else if negb (checked (r_provider d) (fun t => Js.truthy (Js.trim t)))
  then Some (ValidationError "provider")
  else if negb (checked (r_slug d) Js.truthy) then Some (ValidationError "slug")
  else None.

(** [{ $set: updateData }] *)
Definition applySet (d : ResourceBody) (r : IResource) : IResource :=
  {| _id := _id r;
     title := match r_title d with Some t => Js.trim t | None => title r end;
     description := match r_description d with
                    | Some t => Js.trim t
                    | None => description r
                    end;
     type := orDefault (r_type d) (type r);
     category := match r_category d with Some t => Js.trim t | None => category r end;
     level := orDefault (r_level d) (level r);
     duration := orDefault (r_duration d) (duration r);
     author := match r_author d with Some t => Js.trim t | None => author r end;
     downloads := downloads r;
     rating := match r_rating d with Some v => Some v | None => rating r end;
     students := match r_students d with Some v => Some v | None => students r end;
     image := orDefault (r_image d) (image r);
     resourceUrl := orDefault (r_resourceUrl d) (resourceUrl r);
     provider := match r_provider d with Some t => Js.trim t | None => provider r end;
     tags := orDefault (r_tags d) (tags r);
     slug := orDefault (r_slug d) (slug r);
     featured := orDefault (r_featured d) (featured r);
     createdAt := createdAt r;
     updatedAt := updatedAt r |}.

Definition withUpdatedAt (t : Z) (r : IResource) : IResource :=
  {| _id := _id r; title := title r; description := description r; type := type r;
     category := category r; level := level r; duration := duration r;
     author := author r; downloads := downloads r; rating := rating r;
     students := students r; image := image r; resourceUrl := resourceUrl r;
     provider := provider r; tags := tags r; slug := slug r; featured := featured r;
     createdAt := createdAt r; updatedAt := t |}.

(** [Resource.findByIdAndUpdate(id, update, { new: true, ... })]: no [save]
    hook runs. *)
Definition Resource_findByIdAndUpdate (rt : Runtime) (db : Resources) (id : ObjectId)
    (upd : IResource -> IResource) : Exception + (Resources * option IResource) :=
  match Resource_findById db id with
  | None => inr (db, None)
  | Some r =>
      let r' := withUpdatedAt (now rt) (upd r) in
      if negb (String.eqb (slug r) (slug r'))
         && existsb (fun o => negb (_id o =? id) && String.eqb (slug o) (slug r')) db
      then inl (DuplicateKeyError "slug")
      else inr (replaceDoc r' db, Some r')
  end.

End Resource.

(* ------------------------------------------------------------------------- *)
(** ** controllers/resourceController.ts *)

Module ResourceController.
Import Resource.

(** [`${originalSlug}-${counter}`] *)
Definition suffixed (originalSlug : string) (counter : nat) : string :=
  (originalSlug ++ "-" ++ Js.natToString counter)%string.

(** The slugs the loop goes through: the original one, then the suffixed
    ones in the order of the counter. *)
Definition candidate (originalSlug : string) (k : nat) : string :=
  match k with
  | 0 => originalSlug
  | S _ => suffixed originalSlug k
  end.

Definition slugExists (db : Resources) (s : string) : bool :=
  match Resource_findOne db (fun r => String.eqb (slug r) s) with
  | Some _ => true
  | None => false
  end.

(** The loop
    [while (slugExists) { slug = `${originalSlug}-${counter}`; ...; counter++ }],
    entered with the current slug and counter; [fuel] bounds the number of
    lookups. *)
Fixpoint ensureUnique (fuel : nat) (db : Resources) (originalSlug : string)
    (counter : nat) (current : string) : option string :=
  match fuel with
  | 0 => None
  | S fuel' =>
      if slugExists db current
      then ensureUnique fuel' db originalSlug (S counter) (suffixed originalSlug counter)
      else Some current
  end.

Definition createResource (rt : Runtime) (db : Resources) (reqBody : ResourceBody)
    : Resources * Response IResource :=
  let resourceData :=
    if negb (Js.present (r_slug reqBody))
    then withBodySlug (Some (Slugify.slugify (field (r_title reqBody)))) reqBody
    else reqBody in
  let originalSlug := field (r_slug resourceData) in
  match ensureUnique (S (length db)) db originalSlug 1 originalSlug with
  | None => (db, fail 500 "CREATE_ERROR" "Failed to create resource.")
  | Some unique =>
      let resourceData := withBodySlug (Some unique) resourceData in
      let titleGiven := match r_title resourceData with Some _ => true | None => false end in
      match Resource_insert db titleGiven (newResource rt resourceData) with
      | inl _ => (db, fail 500 "CREATE_ERROR" "Failed to create resource.")
      | inr (db', resource) =>
          (db', reply 201 (Some resource) (Some "Resource created successfully"))
      end
  end.

Definition getResourceBySlug (db : Resources) (slug_ : string) : Response IResource :=
  match Resource_findOne db (fun r => String.eqb (slug r) slug_) with
  | None => fail 404 "NOT_FOUND" "Resource not found."
  | Some resource => reply 200 (Some resource) None
  end.

Definition updateResource (rt : Runtime) (db : Resources) (id : ObjectId)
    (updateData : ResourceBody) : Resources * Response IResource :=
  match validateSet updateData with
  | Some _ => (db, fail 500 "UPDATE_ERROR" "Failed to update resource.")
  | None =>
      match Resource_findByIdAndUpdate rt db id (applySet updateData) with
      | inl _ => (db, fail 500 "UPDATE_ERROR" "Failed to update resource.")
      | inr (db', None) => (db', fail 404 "NOT_FOUND" "Resource not found.")
      | inr (db', Some resource) =>
          (db', reply 200 (Some resource) (Some "Resource updated successfully"))
      end
  end.

(** [{ $inc: { downloads: 1 } }] *)
Definition incDownloads (r : IResource) : IResource :=
  {| _id := _id r; title := title r; description := description r; type := type r;
     category := category r; level := level r; duration := duration r;
     author := author r; downloads := (downloads r + 1)%Z; rating := rating r;
     students := students r; image := image r; resourceUrl := resourceUrl r;
     provider := provider r; tags := tags r; slug := slug r; featured := featured r;
     createdAt := createdAt r; updatedAt := updatedAt r |}.

Definition trackDownload (rt : Runtime) (db : Resources) (id : ObjectId)
    : Resources * Response Z :=
  match Resource_findByIdAndUpdate rt db id incDownloads with
  | inl _ => (db, fail 500 "TRACK_ERROR" "Failed to track download.")
  | inr (db', None) => (db', fail 404 "NOT_FOUND" "Resource not found.")
  | inr (db', Some resource) => (db', reply 200 (Some (downloads resource)) None)
  end.

(** Successive download requests for one resource, one runtime per request:
    the collection they leave and their answers in order. *)
Fixpoint trackDownloads (rts : list Runtime) (db : Resources) (id : ObjectId)
    : Resources * list (Response Z) :=
  match rts with
  | [] => (db, [])
  | rt :: rest =>
      let (db', r) := trackDownload rt db id in
      let (db'', rs) := trackDownloads rest db' id in
      (db'', r :: rs)
  end.

End ResourceController.

(* ------------------------------------------------------------------------- *)
(** ** models/NewsletterSubscriber.ts *)

Module Newsletter.

Inductive SubscriberStatus : Type := active | unsubscribed.

Definition status_eqb (a b : SubscriberStatus) : bool :=
  match a, b with
  | active, active | unsubscribed, unsubscribed => true
  | _, _ => false
  end.

Record INewsletterSubscriber : Type := {
  _id : ObjectId;
  email : string;
  source : option string;
  subscribedAt : Z;
  unsubscribedAt : option Z;
  status : SubscriberStatus
}.

Definition Subscribers : Type := list INewsletterSubscriber.

(** An email handed to [sendEmail]: recipient and subject. *)
Record Mail : Type := { to : string; subject : string }.

(** The collection together with the messages handed to the mail service. *)
Record State : Type := { subscribers : Subscribers; outbox : list Mail }.

(** [new NewsletterSubscriber({ email, source, status })] *)
Definition newSubscriber (rt : Runtime) (e : string) (src : string)
    (st : SubscriberStatus) : INewsletterSubscriber :=
  {| _id := newId rt;
     email := Js.trim (Js.toLowerCase e);
     source := Some (Js.trim src);
     subscribedAt := now rt;
     unsubscribedAt := None;
     status := st |}.

Definition NewsletterSubscriberSchema_validate (s : INewsletterSubscriber)
    : option Exception :=
  if negb (Js.truthy (email s)) || negb (emailRegexTest (email s))
  then Some (ValidationError "email")
  else None.

Definition NewsletterSubscriber_findOne (db : Subscribers) (e : string)
    : option INewsletterSubscriber :=
  find (fun s => String.eqb (email s) e) db.

Definition replaceDoc (s : INewsletterSubscriber) (db : Subscribers) : Subscribers :=
  map (fun o => if _id o =? _id s then s else o) db.

(** [doc.save()] on a fetched subscriber. *)
Definition NewsletterSubscriber_save (db : Subscribers) (s : INewsletterSubscriber)
    : Exception + Subscribers :=
  match NewsletterSubscriberSchema_validate s with
  | Some e => inl e
  | None => inr (replaceDoc s db)
  end.

(** [doc.save()] on a new subscriber, under the unique index on [email]. *)
Definition NewsletterSubscriber_insert (db : Subscribers) (s : INewsletterSubscriber)
    : Exception + Subscribers :=
  match NewsletterSubscriberSchema_validate s with
  | Some e => inl e
  | None =>
      if existsb (fun o => String.eqb (email o) (email s)) db
      then inl (DuplicateKeyError "email")
      else inr (db ++ [s])
  end.

(** What the schema guarantees of the [newsletter_subscribers] collection:
    unique ids, the unique index on [email], and stored documents that pass
    the validators with a lower-case email. *)
Definition SubscribersInvariant (db : Subscribers) : Prop :=
  NoDup (map _id db)
  /\ NoDup (map email db)
  /\ Forall (fun s => NewsletterSubscriberSchema_validate s = None
                      /\ Js.toLowerCase (email s) = email s) db.

End Newsletter.

(* ------------------------------------------------------------------------- *)
(** ** controllers/newsletterController.ts *)

Module NewsletterController.
Import Newsletter.

Record INewsletterSubscribeRequest : Type := {
  sub_email : option string;
  sub_source : option string
}.

Record INewsletterUnsubscribeRequest : Type := { unsub_email : option string }.

(** Handlers answer with an envelope that carries no [data]. *)
Definition Reply : Type := Response unit.

(** [try { await sendEmail(...) } catch { console.error(...) }]: the message
    is handed over and the outcome of delivery is ignored. *)
Definition send (m : Mail) (st : State) : State :=
  {| subscribers := subscribers st; outbox := outbox st ++ [m] |}.

Definition store (db : Subscribers) (st : State) : State :=
  {| subscribers := db; outbox := outbox st |}.

Definition subscribe (rt : Runtime) (st : State) (reqBody : INewsletterSubscribeRequest)
    : State * Reply :=
  let email_ := sub_email reqBody in
  let source_ := sub_source reqBody in
  if negb (Js.present email_)
  then (st, fail 400 "VALIDATION_ERROR" "Email is required.")
  else if negb (emailRegexTest (field email_))
  then (st, fail 400 "VALIDATION_ERROR" "Please provide a valid email address.")
  else
    let normalizedEmail := Js.toLowerCase (field email_) in
    match NewsletterSubscriber_findOne (subscribers st) normalizedEmail with
    | Some existingSubscriber =>
        if status_eqb (status existingSubscriber) active
        then (st, reply 200 None (Some "You are already subscribed to our newsletter."))
        else
          let existingSubscriber :=
            {| _id := _id existingSubscriber;
               email := email existingSubscriber;
               source := if Js.present source_
                         then Some (Js.trim (field source_))
                         else source existingSubscriber;
               subscribedAt := now rt;
               unsubscribedAt := None;
               status := active |} in
          match NewsletterSubscriber_save (subscribers st) existingSubscriber with
          | inl _ => (st, fail 500 "SUBSCRIBE_ERROR"
                            "Failed to subscribe to newsletter. Please try again later.")
          | inr db' =>
              (send {| to := normalizedEmail;
                       subject := "Welcome back to Web3 Economy Newsletter!" |}
                    (store db' st),
               reply 200 None (Some "Successfully re-subscribed to newsletter."))
          end
    | None =>
        let subscriber := newSubscriber rt normalizedEmail (orElse source_ "direct") active in
        match NewsletterSubscriber_insert (subscribers st) subscriber with
        | inl _ => (st, fail 500 "SUBSCRIBE_ERROR"
                          "Failed to subscribe to newsletter. Please try again later.")
        | inr db' =>
            (send {| to := normalizedEmail;
                     subject := "Welcome to Web3 Economy Newsletter!" |}
                  (store db' st),
             reply 201 None (Some "Successfully subscribed to newsletter."))
        end
    end.

Definition unsubscribe (rt : Runtime) (st : State) (reqBody : INewsletterUnsubscribeRequest)
    : State * Reply :=
  let email_ := unsub_email reqBody in
  if negb (Js.present email_)
  then (st, fail 400 "VALIDATION_ERROR" "Email is required.")
  else
    let normalizedEmail := Js.toLowerCase (field email_) in
    match NewsletterSubscriber_findOne (subscribers st) normalizedEmail with
    | None => (st, fail 404 "NOT_FOUND" "Email not found in our newsletter list.")
    | Some subscriber =>
        if status_eqb (status subscriber) unsubscribed
        then (st, reply 200 None
                    (Some "You are already unsubscribed from our newsletter."))
        else
          let subscriber :=
            {| _id := _id subscriber;
               email := email subscriber;
               source := source subscriber;
               subscribedAt := subscribedAt subscriber;
               unsubscribedAt := Some (now rt);
               status := unsubscribed |} in
          match NewsletterSubscriber_save (subscribers st) subscriber with
          | inl _ => (st, fail 500 "UNSUBSCRIBE_ERROR"
                            "Failed to unsubscribe from newsletter. Please try again later.")
          | inr db' =>
              (send {| to := normalizedEmail;
                       subject := "You have been unsubscribed from Web3 Economy Newsletter" |}
                    (store db' st),
               reply 200 None (Some "Successfully unsubscribed from newsletter."))
          end
    end.

End NewsletterController.

(* ------------------------------------------------------------------------- *)
(** ** models/ContactSubmission.ts *)

Module Contact.

Record IContactSubmission : Type := {
  _id : ObjectId;
  fullName : string;
  email : string;
  company : option string;
  subject : string;
  message : string;
  subscribeNewsletter : bool;
  submittedAt : Z
}.

Definition Contacts : Type := list IContactSubmission.

(** [new ContactSubmission({ ... })]: the setters trim the text paths and
    lower-case the email; [submittedAt] defaults to the time of construction. *)
Definition newContactSubmission (rt : Runtime) (n e : string) (c : option string)
    (s m : string) (sub : bool) : IContactSubmission :=
  {| _id := newId rt;
     fullName := Js.trim n;
     email := Js.trim (Js.toLowerCase e);
     company := option_map Js.trim c;
     subject := Js.trim s;
     message := Js.trim m;
     subscribeNewsletter := sub;
     submittedAt := now rt |}.

Definition ContactSubmissionSchema_validate (c : IContactSubmission) : option Exception :=
  if negb (Js.truthy (fullName c)) then Some (ValidationError "fullName")
  else if negb (Js.truthy (email c)) || negb (emailRegexTest (email c))
  then Some (ValidationError "email")
  else if negb (Js.truthy (subject c)) then Some (ValidationError "subject")
  else if negb (Js.truthy (message c)) then Some (ValidationError "message")
  else None.

(** [doc.save()] on a new submission; the collection has no unique index. *)
Definition ContactSubmission_insert (db : Contacts) (c : IContactSubmission)
    : Exception + Contacts :=
  match ContactSubmissionSchema_validate c with
  | Some e => inl e
  | None => inr (db ++ [c])
  end.

End Contact.

(* ------------------------------------------------------------------------- *)
(** ** controllers/contactController.ts *)

Module ContactController.
Import Contact.

Record IContactSubmissionRequest : Type := {
  c_fullName : option string;
  c_email : option string;
  c_company : option string;
  c_subject : option string;
  c_message : option string;
  c_subscribeNewsletter : option bool
}.

(** The part of [process.env] the handler reads. *)
Record MailEnv : Type := { CONTACT_EMAIL : option string; SMTP_USER : option string }.

(** The two collections the handler writes, and the mail service. *)
Record State : Type := { contacts : Contacts; newsletter : Newsletter.State }.

(** The newsletter step of the handler, for the email as typed.  It runs in
    a [try] whose [catch] only logs, so a failed write leaves the collection
    as it was. *)
Definition addToNewsletter (rt : Runtime) (db : Newsletter.Subscribers) (e : string)
    : Newsletter.Subscribers :=
  match Newsletter.NewsletterSubscriber_findOne db (Js.toLowerCase e) with
  | None =>
      let subscriber :=
        Newsletter.newSubscriber rt (Js.toLowerCase e) "contact_form" Newsletter.active in
      match Newsletter.NewsletterSubscriber_insert db subscriber with
      | inl _ => db
      | inr db' => db'
      end
  | Some existingSubscriber =>
      if Newsletter.status_eqb (Newsletter.status existingSubscriber) Newsletter.unsubscribed
      then
        let existingSubscriber :=
          {| Newsletter._id := Newsletter._id existingSubscriber;
             Newsletter.email := Newsletter.email existingSubscriber;
             Newsletter.source := Newsletter.source existingSubscriber;
             Newsletter.subscribedAt := now rt;
             Newsletter.unsubscribedAt := None;
             Newsletter.status := Newsletter.active |} in
        match Newsletter.NewsletterSubscriber_save db existingSubscriber with
        | inl _ => db
        | inr db' => db'
        end
      else db
  end.

(** [submitContactForm].  [rt] is the runtime of the submission document and
    [rtSub] that of the newsletter step, which constructs its own document
    and reads the clock again.  A recipient that is [undefined] is recorded
    as the empty string. *)
Definition submitContactForm (env : MailEnv) (rt rtSub : Runtime) (st : State)
    (reqBody : IContactSubmissionRequest) : State * Response unit :=
  let fullName_ := c_fullName reqBody in
  let email_ := c_email reqBody in
  let subject_ := c_subject reqBody in
  let message_ := c_message reqBody in
  let subscribeNewsletter_ := orDefault (c_subscribeNewsletter reqBody) false in
  if negb (Js.present fullName_) || negb (Js.present email_)
     || negb (Js.present subject_) || negb (Js.present message_)
  then (st, fail 400 "VALIDATION_ERROR"
              "Full name, email, subject, and message are required.")
  else if negb (emailRegexTest (field email_))
  then (st, fail 400 "VALIDATION_ERROR" "Please provide a valid email address.")
  else
    let contactSubmission :=
      newContactSubmission rt (field fullName_) (Js.toLowerCase (field email_))
        (c_company reqBody) (field subject_) (field message_) subscribeNewsletter_ in
    match ContactSubmission_insert (contacts st) contactSubmission with
    | inl _ => (st, fail 500 "SUBMIT_ERROR"
                      "Failed to submit contact form. Please try again later.")
    | inr contacts' =>
        let subscribers' :=
          if subscribeNewsletter_
          then addToNewsletter rtSub (Newsletter.subscribers (newsletter st)) (field email_)
          else Newsletter.subscribers (newsletter st) in
        let notification :=
          {| Newsletter.to := orElse (CONTACT_EMAIL env) (field (SMTP_USER env));
             Newsletter.subject :=
               ("New Contact Form Submission: " ++ field subject_)%string |} in
        let confirmation :=
          {| Newsletter.to := field email_;
             Newsletter.subject := "Thank you for contacting Web3 Economy" |} in
        ({| contacts := contacts';
            newsletter :=
              NewsletterController.send confirmation
                (NewsletterController.send notification
                   (NewsletterController.store subscribers' (newsletter st))) |},
         reply 201 None
           (Some "Contact form submitted successfully. We will get back to you soon!"))
    end.

End ContactController.

(* ------------------------------------------------------------------------- *)
(** ** middleware/cors.ts and middleware/errorHandler.ts *)

Module Middleware.

(** The part of [process.env] these middlewares read. *)
Record AppEnv : Type := { NODE_ENV : option string; FRONTEND_URL : option string }.

Definition envIs (o : option string) (v : string) : bool :=
  match o with
  | Some s => String.eqb s v
  | None => false
  end.

Definition allowedOrigins (env : AppEnv) : list string :=
  (if envIs (NODE_ENV env) "production"
   then ["https://web3economy.xyz"; "https://www.web3economy.xyz"]
   else ["http://localhost:8081"; "http://localhost:8080"; "http://localhost:5173";
         "http://127.0.0.1:8080"; "http://127.0.0.1:5173"])
  ++ (if Js.present (FRONTEND_URL env) then [field (FRONTEND_URL env)] else []).

(** An error object as [errorHandler] reads it; [err_keyPattern] holds the
    keys of [error.keyPattern]. *)
Record MongoError : Type := {
  err_name : string;
  err_message : string;
  err_code : option Z;
  err_keyPattern : option (list string);
  err_keyValue : option (list (string * string))
}.

(** [new Error(msg)] *)
Definition plainError (msg : string) : MongoError :=
  {| err_name := "Error"; err_message := msg; err_code := None;
     err_keyPattern := None; err_keyValue := None |}.

(** [corsOptions.origin]: the argument handed to the callback. *)
Definition corsOrigin (env : AppEnv) (origin : option string) : MongoError + bool :=
  if negb (Js.present origin) then inr true
  else if existsb (String.eqb (field origin)) (allowedOrigins env) then inr true
  else inl (plainError "Not allowed by CORS").

(** The body [errorHandler] sends, with [error.details] when there is one. *)
Record ErrorReply : Type := {
  er_status : nat;
  er_code : string;
  er_message : string;
  er_details : option (list (string * string))
}.

Definition errorHandler (env : AppEnv) (error_ : MongoError) : ErrorReply :=
  if String.eqb (err_name error_) "ValidationError"
  then {| er_status := 400; er_code := "VALIDATION_ERROR";
          er_message := err_message error_; er_details := None |}
  else if match err_code error_ with
          | Some c => (c =? 11000)%Z
          | None => false
          end
  then
    let field_ := match err_keyPattern error_ with
                  | Some (k :: _) => k
                  | Some [] => "undefined"
                  | None => "field"
                  end in
    {| er_status := 409; er_code := "DUPLICATE_ENTRY";
       er_message := ("A record with this " ++ field_ ++ " already exists.")%string;
       er_details := err_keyValue error_ |}
  else if String.eqb (err_name error_) "CastError"
  then {| er_status := 400; er_code := "INVALID_ID";
          er_message := "Invalid ID format."; er_details := None |}
  else {| er_status := 500; er_code := "INTERNAL_ERROR";
          er_message := if envIs (NODE_ENV env) "development"
                        then err_message error_
                        else "An unexpected error occurred. Please try again later.";
          er_details := None |}.

(** [app.use(corsMiddleware)] followed, at the end of the stack, by
    [app.use(errorHandler)]: the cors package hands the callback's error to
    [next], and the request is answered by the error handler; [None] when the
    request goes on to the routes. *)
Definition corsMiddleware (env : AppEnv) (origin : option string) : option ErrorReply :=
  match corsOrigin env origin with
  | inl e => Some (errorHandler env e)
  | inr _ => None
  end.

End Middleware.

(* ------------------------------------------------------------------------- *)
(** ** services/emailService.ts *)

Module EmailService.

(** [html.replace(/<[^>]*>/g, '')]: a [<] opens a match when a [>] follows
    somewhere, and the match ends at the first one; [inTag] records that the
    scan is inside a match. *)
Fixpoint stripTags (inTag : bool) (l : list ascii) : list ascii :=
  match l with
  | [] => []
  | c :: r =>
      if inTag
      then (if Ascii.eqb c ">" then stripTags false r else stripTags true r)
      else if Ascii.eqb c "<" && existsb (Ascii.eqb ">") r
           then stripTags true r
           else c :: stripTags false r
  end.

Record EmailOptions : Type := {
  to : string;
  subject : string;
  html : string;
  text : option string
}.

(** The [text] property of [mailOptions]:
    [options.text || options.html.replace(/<[^>]*>/g, '')]. *)
Definition mailText (options : EmailOptions) : string :=
  orElse (text options) (Js.str (stripTags false (Js.chars (html options)))).

End EmailService.

(* ------------------------------------------------------------------------- *)
(** ** routes: the public detail routes of blogs and showcase projects

    [router.get('/:id', generalLimiter, idParamValidation,
    handleValidationErrors, getBlogById)] and its showcase twin: the chain
    holds the rate limiter and the id validator and no authentication
    middleware.  [hits] is the count the limiter holds for the client address
    when the request reaches the chain; the id validator admits every
    [ObjectId]. *)

Module Routes.

Definition generalLimiterMax : nat := 100.

(** express-rate-limit: the request passes while the count, this request
    included, does not exceed [max]. *)
Definition generalLimiter {T : Type} (hits : nat) (next : Response T) : Response T :=
  if S hits <=? generalLimiterMax then next
  else fail 429 "RATE_LIMIT_EXCEEDED"
         "Too many requests from this IP, please try again later.".

Definition GET_blogs_id (hits : nat) (db : Blog.Blogs) (req : AuthRequest)
    (id : ObjectId) : Response Blog.IBlog :=
  generalLimiter hits (BlogController.getBlogById db id).

Definition GET_blogs_slug (hits : nat) (rt : Runtime) (db : Blog.Blogs)
    (req : AuthRequest) (slug_ : string) : Blog.Blogs * Response Blog.IBlog :=
  if S hits <=? generalLimiterMax
  then BlogController.getBlogBySlug rt db slug_
  else (db, fail 429 "RATE_LIMIT_EXCEEDED"
              "Too many requests from this IP, please try again later.").

Definition GET_showcase_id (hits : nat) (db : Showcase.Projects) (req : AuthRequest)
    (id : ObjectId) : Response Showcase.IShowcase :=
  generalLimiter hits (ShowcaseController.getShowcaseById db id).

Definition GET_showcase_slug (hits : nat) (db : Showcase.Projects) (req : AuthRequest)
    (slug_ : string) : Response Showcase.IShowcase :=
  generalLimiter hits (ShowcaseController.getShowcaseBySlug db slug_).

(** [router.put('/:id', authenticateAdmin, ..., updateBlog)]: an admin route
    of the same router, for contrast. *)
Definition PUT_blogs_id {J : JsonWebToken} (env : Env) (rt : Runtime) (admins : Admins)
    (db : Blog.Blogs) (req : AuthRequest) (id : ObjectId) (reqBody : Blog.BlogBody)
    : Blog.Blogs * (Response json + Response Blog.IBlog) :=
  match authenticateAdmin env rt admins req with
  | Sent r => (db, inl r)
  | Next _ =>
      let (db', r) := BlogController.updateBlog rt db id reqBody in (db', inr r)
  end.

End Routes.

(* ------------------------------------------------------------------------- *)
(** ** routes/blogRoutes.ts: the chain of [POST /api/blogs]

    [router.post('/', authenticateAdmin, blogValidation,
    handleValidationErrors, createBlog)].  The validation chains run every
    validator of a field and collect the failures; a field that is absent is
    validated as the empty string unless its chain is [optional()].  The
    typed body makes [isString], [isArray] and [isBoolean] hold. *)

Module BlogRoutes.
Import Blog.

(** validator.js *)
Class Validator : Type := { isURL : string -> bool }.

Record FieldError : Type := { fe_path : string; fe_msg : string }.

Definition check (ok : bool) (path msg : string) : list FieldError :=
  if ok then [] else [{| fe_path := path; fe_msg := msg |}].

Definition notEmpty (v : string) : bool := negb (String.eqb v "").

(** [matches(/^(from-|bg-)/)] *)
Definition matchesTailwind (v : string) : bool :=
  Js.startsWith v "from-" || Js.startsWith v "bg-".

Definition routeCategories : list string :=
  ["News"; "Tutorial"; "Guide"; "Industry News"; "Analysis"; "Updates"].

Definition blogValidation {V : Validator} (d : BlogBody) : list FieldError :=
  let authorName := match b_author d with
                    | Some a => author_name a
                    | None => ""
                    end in
  let authorAvatar := match b_author d with
                      | Some a => author_avatar a
                      | None => None
                      end in
  check (notEmpty (field (b_title d))) "title" "Title is required"
  ++ check (String.length (field (b_title d)) <=? 200) "title"
       "Title must be less than 200 characters"
  ++ check (notEmpty (field (b_excerpt d))) "excerpt" "Excerpt is required"
  ++ check (String.length (field (b_excerpt d)) <=? 500) "excerpt"
       "Excerpt must be less than 500 characters"
  ++ check (notEmpty (field (b_content d))) "content" "Content is required"
  ++ check (notEmpty authorName) "author.name" "Author name is required"
  ++ match authorAvatar with
     | Some u => check (isURL u) "author.avatar" "Author avatar must be a valid URL"
     | None => []
     end
  ++ check (notEmpty (field (b_category d))) "category" "Category is required"
  ++ check (oneOf (field (b_category d)) routeCategories) "category" "Invalid category"
  ++ check (notEmpty (field (b_image d))) "image" "Image is required"
  ++ check (isURL (field (b_image d))) "image" "Image must be a valid URL"
  ++ match b_color d with
     | Some c => check (matchesTailwind c) "color"
                   "Color must be a valid Tailwind gradient or background class"
     | None => []
     end.

(** [handleValidationErrors]: the details of the 400 answer, or [None] when
    the request goes on. *)
Definition handleValidationErrors (errors : list FieldError) : option (list string) :=
  match errors with
  | [] => None
  | _ => Some (map (fun e => (fe_path e ++ ": " ++ fe_msg e)%string) errors)
  end.

(** How the chain ends: the answer of the authentication middleware, the
    400 VALIDATION_ERROR answer with its details, or the handler's answer. *)
Inductive Answer : Type :=
| Unauthenticated (r : Response json)
| ValidationFailed (details : list string)
| Handled (r : Response IBlog).

Definition POST_blogs {J : JsonWebToken} {V : Validator} (env : Env) (rt : Runtime)
    (admins : Admins) (db : Blogs) (req : AuthRequest) (reqBody : BlogBody)
    : Blogs * Answer :=
  match authenticateAdmin env rt admins req with
  | Sent r => (db, Unauthenticated r)
  | Next _ =>
      match handleValidationErrors (blogValidation reqBody) with
      | Some details => (db, ValidationFailed details)
      | None =>
          let (db', r) := BlogController.createBlog rt db reqBody in
          (db', Handled r)
      end
  end.

End BlogRoutes.

(* ------------------------------------------------------------------------- *)
(** ** Transparent instances of the package interfaces

    They make the handlers run on concrete requests.  The digest is the
    29-character salt followed by the password; a token spells out its key
    and claims as [key|id|iat|exp|email]. *)

Module Transparent.

Definition bcrypt : Bcrypt :=
  {| bcrypt_hash := fun password salt_ => (salt_ ++ password)%string;
     bcrypt_compare := fun password digest =>
                         String.eqb (Js.substringFrom 29 digest) password |}.

Fixpoint cut (sep : ascii) (l : list ascii) : list ascii * option (list ascii) :=
  match l with
  | [] => ([], None)
  | c :: r =>
      if Ascii.eqb c sep then ([], Some r)
      else let (a, b) := cut sep r in (c :: a, b)
  end.

Definition readNat (l : list ascii) : option nat :=
  match NilZero.uint_of_string (Js.str l) with
  | Some d => Some (Nat.of_uint d)
  | None => None
  end.

Definition readZ (l : list ascii) : option Z :=
  match NilZero.int_of_string (Js.str l) with
  | Some d => Some (Z.of_int d)
  | None => None
  end.

Definition bar : ascii := "|"%char.

Definition encode (k : string) (c : Claims) : string :=
  (k ++ "|" ++ Js.natToString (claim_id c)
     ++ "|" ++ Js.toString (iat c)
     ++ "|" ++ Js.toString (exp c)
     ++ "|" ++ claim_email c)%string.

Definition decode (s : string) : Decoded :=
  match cut bar (Js.chars s) with
  | (k, Some r1) =>
      match cut bar r1 with
      | (i, Some r2) =>
          match cut bar r2 with
          | (t1, Some r3) =>
              match cut bar r3 with
              | (t2, Some e) =>
                  match readNat i, readZ t1, readZ t2 with
                  | Some i', Some t1', Some t2' =>
                      Signed (Js.str k)
                             {| claim_id := i'; claim_email := Js.str e;
                                iat := t1'; exp := t2' |}
                  | _, _, _ => Malformed
                  end
              | _ => Malformed
              end
          | _ => Malformed
          end
      | _ => Malformed
      end
  | _ => Malformed
  end.

Definition jwt : JsonWebToken :=
  {| jwt_encode := encode; jwt_decode := decode; jwt_decode_empty := eq_refl |}.

(** A text index that matches every document. *)
Definition anyText (A : Type) : TextIndex A := {| text_search := fun _ _ => true |}.

(** An engine for request text without metacharacters: the anchored,
    case-insensitive expression compares the lower-cased strings. *)
Definition literal : RegExp :=
  {| regexp_anchored_i :=
       fun s => Some (fun t => String.eqb (Js.toLowerCase t) (Js.toLowerCase s)) |}.

(** A URL check that asks for the scheme prefix only. *)
Definition validator : BlogRoutes.Validator :=
  {| BlogRoutes.isURL := fun s => Js.startsWith s "http" |}.

End Transparent.

(* ------------------------------------------------------------------------- *)
(** ** scripts/seed.ts: the administrator created by the seed script, and a
    deployment to run requests against *)

Module Seed.

Definition seedSalt : string := "$2a$12$abcdefghijklmnopqrstuv".

Definition admin : IAdmin :=
  {| admin_id := 1;
     email := "admin@web3economy.com";
     passwordHash := @bcrypt_hash Transparent.bcrypt "Admin123!" seedSalt;
     name := "Admin User";
     role := "superadmin";
     createdAt := 1700000000000;
     updatedAt := 1700000000000;
     lastLoginAt := None |}.

Definition admins : Admins := [admin].

Definition env : Env := {| JWT_SECRET := Some "s3cret" |}.

Definition noSecret : Env := {| JWT_SECRET := None |}.

Definition rt : Runtime :=
  {| now := 1700000100000; newId := 2; salt := seedSalt |}.

(** Eight days after [rt]. *)
Definition later : Runtime :=
  {| now := 1700000100000 + 8 * 24 * 60 * 60 * 1000; newId := 3; salt := seedSalt |}.

Definition bearer (token : string) : AuthRequest :=
  {| authorization := Some ("Bearer " ++ token)%string; req_admin := None |}.

Definition anonymous : AuthRequest := {| authorization := None; req_admin := None |}.

(** The token [loginAdmin] issues to the seeded administrator at [rt]. *)
Definition issued : string := Transparent.encode "s3cret" (issuedClaims admin (now rt)).

(** A token signed for an administrator id that is not in the collection. *)
Definition orphan : string :=
  Transparent.encode "s3cret"
    {| claim_id := 7; claim_email := "gone@web3economy.com";
       iat := 1700000100; exp := 1700000100 + 604800 |}.

(** A token signed under another key. *)
Definition forged : string := Transparent.encode "other" (issuedClaims admin (now rt)).

(** A newsletter subscriber, a published and a draft blog post, a showcase
    project and a resource. *)
Definition reader : Newsletter.INewsletterSubscriber :=
  {| Newsletter._id := 11;
     Newsletter.email := "reader@example.com";
     Newsletter.source := Some "footer";
     Newsletter.subscribedAt := 1700000000000;
     Newsletter.unsubscribedAt := None;
     Newsletter.status := Newsletter.active |}.

Definition newsletter : Newsletter.State :=
  {| Newsletter.subscribers := [reader]; Newsletter.outbox := [] |}.

Definition writer : Blog.IBlogAuthor :=
  {| Blog.author_name := "Ada"; Blog.author_role := None;
     Blog.author_bio := None; Blog.author_avatar := None |}.

Definition post (id : ObjectId) (t s : string) (pub : bool) (day : Z) : Blog.IBlog :=
  {| Blog._id := id;
     Blog.title := t;
     Blog.slug := s;
     Blog.excerpt := "An excerpt";
     Blog.content := "Some content";
     Blog.author := writer;
     Blog.publishedDate := day;
     Blog.readTime := "1 min read";
     Blog.category := "News";
     Blog.image := "https://example.com/a.png";
     Blog.tags := ["web3"];
     Blog.featured := false;
     Blog.published := pub;
     Blog.stats := {| Blog.likes := 0; Blog.comments := 0;
                      Blog.bookmarks := 0; Blog.views := 0 |};
     Blog.color := None;
     Blog.createdAt := day;
     Blog.updatedAt := day |}.

Definition helloWorld : Blog.IBlog := post 21 "Hello World" "hello-world" true 1700000000000.
Definition draft : Blog.IBlog := post 22 "Work in progress" "work-in-progress" false 1700000001000.
Definition third : Blog.IBlog := post 23 "Third post" "third-post" true 1700000002000.

Definition blogs : Blog.Blogs := [helloWorld; draft; third].

Definition blogBody (t : string) : Blog.BlogBody :=
  {| Blog.b_title := Some t;
     Blog.b_slug := Some "placeholder";
     Blog.b_excerpt := Some "An excerpt";
     Blog.b_content := Some "Some content";
     Blog.b_author := Some writer;
     Blog.b_publishedDate := None;
     Blog.b_readTime := Some "1 min read";
     Blog.b_category := Some "News";
     Blog.b_image := Some "https://example.com/a.png";
     Blog.b_tags := None;
     Blog.b_featured := None;
     Blog.b_published := Some true;
     Blog.b_color := None |}.

(** An update payload that carries only a title. *)
Definition retitle (t : string) : Blog.BlogBody :=
  {| Blog.b_title := Some t; Blog.b_slug := None; Blog.b_excerpt := None;
     Blog.b_content := None; Blog.b_author := None; Blog.b_publishedDate := None;
     Blog.b_readTime := None; Blog.b_category := None; Blog.b_image := None;
     Blog.b_tags := None; Blog.b_featured := None; Blog.b_published := None;
     Blog.b_color := None |}.

Definition allBlogs (pg lim : Z) : BlogController.IBlogQueryParams :=
  {| BlogController.q_category := None; BlogController.q_tag := None;
     BlogController.q_search := None; BlogController.q_featured := None;
     BlogController.q_page := Some pg; BlogController.q_limit := Some lim |}.

Definition project (id : ObjectId) (pub : bool) : Showcase.IShowcase :=
  {| Showcase._id := id;
     Showcase.title := "Swap Engine";
     Showcase.slug := "swap-engine";
     Showcase.description := "A decentralized exchange";
     Showcase.category := "DeFi";
     Showcase.creator := "Grace";
     Showcase.image := "https://example.com/p.png";
     Showcase.tags := ["dex"];
     Showcase.stats := {| Showcase.stars := 0; Showcase.users := "0";
                          Showcase.tvl := "$0" |};
     Showcase.links := Showcase.noLinks;
     Showcase.featured := false;
     Showcase.trending := false;
     Showcase.recentlyAdded := true;
     Showcase.color := "mint";
     Showcase.published := pub;
     Showcase.createdAt := 1700000000000;
     Showcase.updatedAt := 1700000000000 |}.

Definition projects : Showcase.Projects := [project 31 false].

Definition projectBody (t : string) : Showcase.ShowcaseBody :=
  {| Showcase.s_title := Some t; Showcase.s_slug := None;
     Showcase.s_description := Some "A decentralized exchange";
     Showcase.s_category := Some "DeFi"; Showcase.s_creator := Some "Grace";
     Showcase.s_image := Some "https://example.com/p.png";
     Showcase.s_tags := None; Showcase.s_stats := None; Showcase.s_links := None;
     Showcase.s_featured := None; Showcase.s_trending := None;
     Showcase.s_recentlyAdded := None; Showcase.s_color := None;
     Showcase.s_published := Some true |}.

Definition retitleProject (t : string) : Showcase.ShowcaseBody :=
  {| Showcase.s_title := Some t; Showcase.s_slug := None;
     Showcase.s_description := None; Showcase.s_category := None;
     Showcase.s_creator := None; Showcase.s_image := None;
     Showcase.s_tags := None; Showcase.s_stats := None; Showcase.s_links := None;
     Showcase.s_featured := None; Showcase.s_trending := None;
     Showcase.s_recentlyAdded := None; Showcase.s_color := None;
     Showcase.s_published := None |}.

Definition resource (id : ObjectId) (t s : string) : Resource.IResource :=
  {| Resource._id := id;
     Resource.title := t;
     Resource.description := "A first course";
     Resource.type := "Tutorial";
     Resource.category := "Development";
     Resource.level := "Beginner";
     Resource.duration := "2 hours";
     Resource.author := "Linus";
     Resource.downloads := 0;
     Resource.rating := Some 5%Z;
     Resource.students := Some 10%Z;
     Resource.image := "https://example.com/r.png";
     Resource.resourceUrl := "https://example.com/r";
     Resource.provider := "Web3 Economy";
     Resource.tags := [];
     Resource.slug := s;
     Resource.featured := false;
     Resource.createdAt := 1700000000000;
     Resource.updatedAt := 1700000000000 |}.

Definition resources : Resource.Resources :=
  [resource 41 "Introduction to Solidity" "introduction-to-solidity";
   resource 42 "Introduction to Solidity II" "introduction-to-solidity-1"].

Definition resourceBody (t : string) (s : option string) : Resource.ResourceBody :=
  {| Resource.r_title := Some t;
     Resource.r_description := Some "A first course";
     Resource.r_type := Some "Tutorial";
     Resource.r_category := Some "Development";
     Resource.r_level := Some "Beginner";
     Resource.r_duration := Some "2 hours";
     Resource.r_author := Some "Linus";
     Resource.r_rating := Some 5%Z;
     Resource.r_students := Some 10%Z;
     Resource.r_image := Some "https://example.com/r.png";
     Resource.r_resourceUrl := Some "https://example.com/r";
     Resource.r_provider := Some "Web3 Economy";
     Resource.r_tags := Some [];
     Resource.r_slug := s;
     Resource.r_featured := None |}.

(** A create payload that sets a Tailwind class as [color]. *)
Definition tinted : Blog.BlogBody :=
  {| Blog.b_title := Some "Tinted";
     Blog.b_slug := Some "tinted";
     Blog.b_excerpt := Some "An excerpt";
     Blog.b_content := Some "Some content";
     Blog.b_author := Some writer;
     Blog.b_publishedDate := None;
     Blog.b_readTime := Some "1 min read";
     Blog.b_category := Some "News";
     Blog.b_image := Some "https://example.com/a.png";
     Blog.b_tags := None;
     Blog.b_featured := None;
     Blog.b_published := Some true;
     Blog.b_color := Some "from-blue-500" |}.

Definition retitleResource (t : string) : Resource.ResourceBody :=
  {| Resource.r_title := Some t; Resource.r_description := None;
     Resource.r_type := None; Resource.r_category := None; Resource.r_level := None;
     Resource.r_duration := None; Resource.r_author := None;
     Resource.r_rating := None; Resource.r_students := None;
     Resource.r_image := None; Resource.r_resourceUrl := None;
     Resource.r_provider := None; Resource.r_tags := None; Resource.r_slug := None;
     Resource.r_featured := None |}.

End Seed.

(* ========================================================================= *)
(** * Properties *)

Unset Implicit Arguments.

(* ------------------------------------------------------------------------- *)
(** ** Strings *)

Lemma chars_str (l : list ascii) : Js.chars (Js.str l) = l.
Proof. apply list_ascii_of_string_of_list_ascii. Qed.

Lemma str_chars (s : string) : Js.str (Js.chars s) = s.
Proof. apply string_of_list_ascii_of_string. Qed.

Lemma lowerChar_idem (c : ascii) : Js.lowerChar (Js.lowerChar c) = Js.lowerChar c.
Proof.
  destruct c as [[] [] [] [] [] [] [] []]; reflexivity.
Qed.

Lemma toLowerCase_idem (s : string) :
  Js.toLowerCase (Js.toLowerCase s) = Js.toLowerCase s.
Proof.
  unfold Js.toLowerCase. rewrite chars_str, map_map. f_equal.
  apply map_ext. intro c. apply lowerChar_idem.
Qed.

Lemma truthy_iff (s : string) : Js.truthy s = true <-> s <> "".
Proof.
  unfold Js.truthy. rewrite negb_true_iff. split.
  - intros H E. subst. discriminate.
  - intro H. apply String.eqb_neq. exact H.
Qed.

Lemma present_Some (s : string) : Js.present (Some s) = Js.truthy s.
Proof. reflexivity. Qed.

(* ------------------------------------------------------------------------- *)
(** ** slugify *)

Module SlugifyFacts.
Import Js Slugify.

Lemma collapse_kept (l : list ascii) :
  Forall (fun c => strictKeep c = true) l ->
  forall inRun, Forall (fun c => keptChar c = true) (collapse inRun l).
Proof.
  induction 1 as [|c r Hc _ IH]; intro inRun; simpl.
  - constructor.
  - destruct (isSpace c) eqn:Hs.
    + destruct inRun.
      * apply IH.
      * constructor; [reflexivity | apply IH].
    + constructor; [| apply IH].
      unfold strictKeep in Hc. rewrite Hs, orb_false_r in Hc.
      unfold keptChar. rewrite Hc. reflexivity.
Qed.

Lemma dropWhile_Forall (P : ascii -> Prop) (p : ascii -> bool) (l : list ascii) :
  Forall P l -> Forall P (dropWhile p l).
Proof.
  induction 1 as [|c r Hc Hr IH]; simpl.
  - constructor.
  - destruct (p c); [exact IH | constructor; assumption].
Qed.

Lemma trimEnd_Forall (P : ascii -> Prop) (l : list ascii) :
  Forall P l -> Forall P (trimEnd l).
Proof.
  unfold trimEnd. induction 1 as [|c r Hc Hr IH]; simpl.
  - constructor.
  - destruct (fold_right _ [] r) eqn:E.
    + destruct (isSpace c); constructor; [assumption | constructor].
    + constructor; assumption.
Qed.

Lemma trimChars_Forall (P : ascii -> Prop) (l : list ascii) :
  Forall P l -> Forall P (trimChars l).
Proof.
  intro H. unfold trimChars, trimStart.
  apply trimEnd_Forall, dropWhile_Forall, H.
Qed.

Lemma cleaned_strict (l : list ascii) :
  Forall (fun c => strictKeep c = true) (cleaned l).
Proof.
  unfold cleaned. apply Forall_forall. intros c Hc.
  apply filter_In in Hc. apply Hc.
Qed.

Lemma lower_kept_url (c : ascii) : keptChar c = true -> urlChar (lowerChar c) = true.
Proof.
  destruct c as [[] [] [] [] [] [] [] []]; vm_compute; intro H;
    first [reflexivity | discriminate H].
Qed.

Lemma url_lower_fixed (c : ascii) : urlChar c = true -> lowerChar c = c.
Proof.
  destruct c as [[] [] [] [] [] [] [] []]; vm_compute; intro H;
    first [reflexivity | discriminate H].
Qed.

Lemma slugChars_url (l : list ascii) : Forall (fun c => urlChar c = true) (slugChars l).
Proof.
  unfold slugChars.
  assert (H : Forall (fun c => keptChar c = true)
                (collapse false (trimChars (cleaned l)))).
  { apply collapse_kept, trimChars_Forall, cleaned_strict. }
  induction H as [|c r Hc _ IH]; simpl; constructor.
  - apply lower_kept_url, Hc.
  - exact IH.
Qed.

(** The output of [slugify] holds only lower-case letters, digits and [-]. *)
Lemma slugify_urlSafe (t : string) : urlSafe (slugify t) = true.
Proof.
  unfold urlSafe, slugify. rewrite chars_str.
  apply forallb_forall. apply Forall_forall. apply slugChars_url.
Qed.

(** Lower-casing a slug leaves it as it is: the [lowercase] setter of the
    schemas has no effect on a value made by [slugify]. *)
Lemma slugify_lower (t : string) : toLowerCase (slugify t) = slugify t.
Proof.
  unfold toLowerCase, slugify. rewrite chars_str. f_equal.
  pose proof (slugChars_url (chars t)) as H.
  induction H as [|c r Hc _ IH]; simpl.
  - reflexivity.
  - rewrite (url_lower_fixed c Hc), IH. reflexivity.
Qed.

Lemma appendChar_space (c : ascii) : isSpace c = true -> appendChar c = [c].
Proof.
  destruct c as [[] [] [] [] [] [] [] []]; vm_compute; intro H;
    first [reflexivity | discriminate H].
Qed.

Lemma cleaned_app (a b : list ascii) : cleaned (a ++ b) = cleaned a ++ cleaned b.
Proof. unfold cleaned. rewrite flat_map_app, filter_app. reflexivity. Qed.

Lemma cleaned_cons_space (c : ascii) (r : list ascii) :
  isSpace c = true -> cleaned (c :: r) = c :: cleaned r.
Proof.
  intro H. change (c :: r) with ([c] ++ r). rewrite cleaned_app.
  unfold cleaned at 1. simpl. rewrite app_nil_r, (appendChar_space c H). simpl.
  unfold strictKeep. rewrite H, orb_true_r. reflexivity.
Qed.

Lemma cleaned_spaces (ws : list ascii) : spaces ws -> cleaned ws = ws.
Proof.
  induction 1 as [|c r Hc _ IH].
  - reflexivity.
  - rewrite (cleaned_cons_space c r Hc), IH. reflexivity.
Qed.

Lemma trimStart_cleaned (l : list ascii) :
  trimStart (cleaned l) = trimStart (cleaned (trimStart l)).
Proof.
  induction l as [|c r IH].
  - reflexivity.
  - unfold trimStart at 3. simpl. destruct (isSpace c) eqn:Hs.
    + rewrite (cleaned_cons_space c r Hs). unfold trimStart at 1. simpl.
      rewrite Hs. exact IH.
    + reflexivity.
Qed.

Lemma trimEnd_spaces (ws : list ascii) : spaces ws -> trimEnd ws = [].
Proof.
  unfold trimEnd. induction 1 as [|c r Hc _ IH]; simpl.
  - reflexivity.
  - rewrite IH, Hc. reflexivity.
Qed.

Lemma trimEnd_app_spaces (z ws : list ascii) :
  spaces ws -> trimEnd (z ++ ws) = trimEnd z.
Proof.
  intro H. unfold trimEnd. rewrite fold_right_app.
  fold (trimEnd ws). rewrite (trimEnd_spaces ws H). reflexivity.
Qed.

Lemma trimEnd_split (l : list ascii) :
  exists ws, spaces ws /\ l = trimEnd l ++ ws.
Proof.
  induction l as [|c r [ws [Hws Hr]]].
  - exists []. split; [constructor | reflexivity].
  - unfold trimEnd. simpl. fold (trimEnd r).
    destruct (trimEnd r) as [|d t] eqn:E.
    + simpl in Hr. subst r. destruct (isSpace c) eqn:Hs.
      * exists (c :: ws). split; [constructor; assumption | reflexivity].
      * exists ws. split; [assumption | reflexivity].
    + exists ws. split; [assumption |].
      simpl. f_equal. exact Hr.
Qed.

Lemma trimStart_spaces (ws : list ascii) : spaces ws -> trimStart ws = [].
Proof.
  unfold trimStart. induction 1 as [|c r Hc _ IH]; simpl.
  - reflexivity.
  - rewrite Hc. exact IH.
Qed.

Lemma trimStart_app_spaces (y ws : list ascii) :
  spaces ws -> exists ws', spaces ws' /\ trimStart (y ++ ws) = trimStart y ++ ws'.
Proof.
  intro H. induction y as [|c r IH].
  - exists []. split; [constructor |]. simpl. apply trimStart_spaces, H.
  - unfold trimStart. simpl. destruct (isSpace c).
    + exact IH.
    + exists ws. split; [exact H | reflexivity].
Qed.

Lemma trimChars_app_spaces (y ws : list ascii) :
  spaces ws -> trimChars (y ++ ws) = trimChars y.
Proof.
  intro H. unfold trimChars.
  destruct (trimStart_app_spaces y ws H) as [ws' [H' E]].
  rewrite E. apply trimEnd_app_spaces, H'.
Qed.

Lemma trimChars_cleaned (l : list ascii) :
  trimChars (cleaned (trimChars l)) = trimChars (cleaned l).
Proof.
  transitivity (trimChars (cleaned (trimStart l))).
  - unfold trimChars at 2.
    destruct (trimEnd_split (trimStart l)) as [ws [Hws E]].
    rewrite E at 2. rewrite cleaned_app, (cleaned_spaces ws Hws).
    symmetry. apply trimChars_app_spaces, Hws.
  - unfold trimChars. rewrite <- trimStart_cleaned. reflexivity.
Qed.

(** The [trim] setter of the title paths does not change the slug. *)
Lemma slugify_trim (t : string) : slugify (trim t) = slugify t.
Proof.
  unfold slugify, trim, slugChars. rewrite chars_str, trimChars_cleaned.
  reflexivity.
Qed.

End SlugifyFacts.

(* ------------------------------------------------------------------------- *)
(** ** Lookups in collections with a unique key *)

Lemma find_by_key {A : Type} (key : A -> string) (l : list A) (a : A) :
  NoDup (map key l) -> In a l ->
  find (fun b => String.eqb (key b) (key a)) l = Some a.
Proof.
  induction l as [|b r IH]; intros Hnd Hin.
  - contradiction.
  - simpl in Hnd. inversion Hnd as [|x xs Hnotin Hnd']; subst.
    simpl. destruct Hin as [-> | Hin].
    + rewrite String.eqb_refl. reflexivity.
    + destruct (String.eqb (key b) (key a)) eqn:E.
      * apply String.eqb_eq in E. exfalso. apply Hnotin. rewrite E.
        apply in_map, Hin.
      * apply IH; assumption.
Qed.

Lemma find_by_id {A : Type} (key : A -> nat) (l : list A) (a : A) :
  NoDup (map key l) -> In a l ->
  find (fun b => key b =? key a) l = Some a.
Proof.
  induction l as [|b r IH]; intros Hnd Hin.
  - contradiction.
  - simpl in Hnd. inversion Hnd as [|x xs Hnotin Hnd']; subst.
    simpl. destruct Hin as [-> | Hin].
    + rewrite Nat.eqb_refl. reflexivity.
    + destruct (key b =? key a) eqn:E.
      * apply Nat.eqb_eq in E. exfalso. apply Hnotin. rewrite E.
        apply in_map, Hin.
      * apply IH; assumption.
Qed.

Lemma find_none_key {A : Type} (key : A -> string) (l : list A) (k : string) :
  ~ In k (map key l) -> find (fun b => String.eqb (key b) k) l = None.
Proof.
  induction l as [|b r IH]; intro H.
  - reflexivity.
  - simpl. destruct (String.eqb (key b) k) eqn:E.
    + apply String.eqb_eq in E. exfalso. apply H. left. exact E.
    + apply IH. intro Hin. apply H. right. exact Hin.
Qed.

Lemma find_none_id {A : Type} (key : A -> nat) (l : list A) (k : nat) :
  ~ In k (map key l) -> find (fun b => key b =? k) l = None.
Proof.
  induction l as [|b r IH]; intro H.
  - reflexivity.
  - simpl. destruct (key b =? k) eqn:E.
    + apply Nat.eqb_eq in E. exfalso. apply H. left. exact E.
    + apply IH. intro Hin. apply H. right. exact Hin.
Qed.

(* ------------------------------------------------------------------------- *)
(** ** Admin login *)

Lemma admin_valid_email (a : IAdmin) :
  AdminSchema_validate a = None -> Js.truthy (email a) = true.
Proof.
  unfold AdminSchema_validate. intro H.
  destruct (negb (Js.truthy (email a)) || negb (emailRegexTest (email a))) eqn:E;
    [discriminate H |].
  apply orb_false_iff in E. destruct E as [E _].
  apply negb_false_iff in E. exact E.
Qed.

Lemma admins_lookup (db : Admins) (a : IAdmin) :
  AdminsInvariant db -> In a db ->
  Js.present (Some (email a)) = true
  /\ Admin_findOne db (Js.toLowerCase (email a)) = Some a
  /\ AdminSchema_validate a = None.
Proof.
  intros [Hnd Hall] Hin.
  rewrite Forall_forall in Hall. destruct (Hall a Hin) as [Hv Hl].
  split; [exact (admin_valid_email a Hv) |]. split; [| exact Hv].
  rewrite Hl. unfold Admin_findOne. apply find_by_key; assumption.
Qed.

Lemma configured_secret (env : Env) :
  configured env = true ->
  exists k, JWT_SECRET env = Some k /\ Js.truthy k = true.
Proof.
  unfold configured. destruct (JWT_SECRET env) as [k|]; simpl; intro H.
  - exists k. split; [reflexivity | exact H].
  - discriminate.
Qed.

Lemma loginAdmin_match (B : Bcrypt) (J : JsonWebToken)
    (env : Env) (rt : Runtime) (db : Admins) (a : IAdmin) (password k : string) :
  AdminsInvariant db -> In a db ->
  JWT_SECRET env = Some k -> Js.truthy k = true ->
  Js.truthy password = true ->
  bcrypt_compare password (passwordHash a) = true ->
  snd (loginAdmin env rt db
         {| login_email := Some (email a); login_password := Some password |})
  = reply 200
      (Some (JObj [("token", JStr (jwt_encode k (issuedClaims a (now rt))));
                   ("admin", JObj [("id", JStr (idString (admin_id a)));
                                   ("email", JStr (email a));
                                   ("name", JStr (name a));
                                   ("role", JStr (role a))])]))
      None.
Proof.
  intros Hinv Hin Hk Hkt Hp Hc.
  destruct (admins_lookup db a Hinv Hin) as [He [Hf Hv]].
  unfold loginAdmin. cbv zeta. cbn [login_email login_password].
  rewrite He, present_Some, Hp. cbn [negb orb field].
  rewrite Hf, Hc. cbn [negb]. unfold Admin_save.
  change (AdminSchema_validate _) with (AdminSchema_validate a). rewrite Hv.
  cbn [admin_id email name role].
  unfold jwt_sign. rewrite Hk, Hkt. reflexivity.
Qed.

Lemma loginAdmin_mismatch (B : Bcrypt) (J : JsonWebToken)
    (env : Env) (rt : Runtime) (db : Admins) (a : IAdmin) (password : string) :
  AdminsInvariant db -> In a db ->
  Js.truthy password = true ->
  bcrypt_compare password (passwordHash a) = false ->
  loginAdmin env rt db
    {| login_email := Some (email a); login_password := Some password |}
  = (db, fail 401 "INVALID_CREDENTIALS" "Invalid email or password.").
Proof.
  intros Hinv Hin Hp Hc.
  destruct (admins_lookup db a Hinv Hin) as [He [Hf _]].
  unfold loginAdmin. cbv zeta. cbn [login_email login_password].
  rewrite He, present_Some, Hp. cbn [negb orb field].
  rewrite Hf, Hc. reflexivity.
Qed.

Lemma seed_invariant : AdminsInvariant Seed.admins.
Proof.
  split.
  - repeat constructor. simpl. intros [].
  - repeat constructor.
Qed.



(* ------------------------------------------------------------------------- *)
(** ** The authorization middleware *)

Lemma startsWith_truthy (h p : string) :
  Js.truthy p = true -> Js.startsWith h p = true -> Js.truthy h = true.
Proof.
  intros Hp H. destruct h; [| reflexivity].
  destruct p; [discriminate Hp | discriminate H].
Qed.

Lemma authenticate_bearer (J : JsonWebToken) (env : Env) (rt : Runtime)
    (db : Admins) (req : AuthRequest) (h k : string) :
  authorization req = Some h ->
  Js.startsWith h "Bearer " = true ->
  JWT_SECRET env = Some k -> Js.truthy k = true ->
  authenticateAdmin env rt db req
  = match jwt_verify (Js.substringFrom 7 h) k (now rt) with
    | inl e =>
        if isTokenExpiredError e
        then Sent (fail 401 "TOKEN_EXPIRED"
                     "Your session has expired. Please log in again.")
        else if isJsonWebTokenError e
        then Sent (fail 401 "INVALID_TOKEN" "Invalid authentication token.")
        else Sent (fail 500 "AUTH_ERROR" "An error occurred during authentication.")
    | inr decoded =>
        match Admin_findById db (claim_id decoded) with
        | None => Sent (fail 401 "ADMIN_NOT_FOUND"
                          "Admin account not found or has been deleted.")
        | Some admin => Next {| authorization := authorization req;
                                req_admin := Some admin |}
        end
    end.
Proof.
  intros Hh Hb Hk Hkt.
  unfold authenticateAdmin. cbv zeta. rewrite Hh, Hb, Hk.
  rewrite !present_Some, Hkt, (startsWith_truthy h "Bearer " eq_refl Hb).
  cbn [negb orb].
  destruct (jwt_verify (Js.substringFrom 7 h) k (now rt)) as [e|c].
  - reflexivity.
  - destruct (Admin_findById db (claim_id c)); reflexivity.
Qed.

Lemma authenticate_no_bearer (J : JsonWebToken) (env : Env) (rt : Runtime)
    (db : Admins) (req : AuthRequest) :
  (authorization req = None
   \/ exists h, authorization req = Some h /\ Js.startsWith h "Bearer " = false) ->
  authenticateAdmin env rt db req
  = Sent (fail 401 "AUTH_REQUIRED"
            "Authentication required. Please provide a valid token.").
Proof.
  intros [Hn | [h [Hh Hb]]]; unfold authenticateAdmin; cbv zeta.
  - rewrite Hn. reflexivity.
  - rewrite Hh, Hb. cbn [negb]. rewrite orb_true_r. reflexivity.
Qed.

Lemma verify_expired (J : JsonWebToken) (token k : string) (c : Claims) (ms : Z) :
  jwt_decode token = Signed k c ->
  (exp c <= clockTimestamp ms)%Z ->
  jwt_verify token k ms = inl TokenExpiredError.
Proof.
  intros Hd He. unfold jwt_verify.
  destruct (Js.truthy token) eqn:Ht.
  - cbn [negb]. rewrite Hd, String.eqb_refl. cbn [negb].
    apply Z.leb_le in He. rewrite He. reflexivity.
  - exfalso. unfold Js.truthy in Ht. apply negb_false_iff, String.eqb_eq in Ht.
    subst token. rewrite jwt_decode_empty in Hd. discriminate.
Qed.

Lemma verify_invalid (J : JsonWebToken) (token k : string) (ms : Z) :
  (jwt_decode token = Malformed
   \/ exists k' c, jwt_decode token = Signed k' c /\ k' <> k) ->
  exists msg, jwt_verify token k ms = inl (JsonWebTokenError msg).
Proof.
  intro H. unfold jwt_verify. destruct (Js.truthy token); cbn [negb].
  - destruct H as [Hd | [k' [c [Hd Hne]]]]; rewrite Hd.
    + eexists. reflexivity.
    + apply String.eqb_neq in Hne. rewrite Hne. cbn [negb].
      eexists. reflexivity.
  - eexists. reflexivity.
Qed.

Lemma seven_days_later (ms0 ms1 : Z) :
  (ms0 + 604800 * 1000 < ms1)%Z ->
  (clockTimestamp ms0 + 604800 <= clockTimestamp ms1)%Z.
Proof.
  intro H. unfold clockTimestamp.
  rewrite <- (Z.div_add ms0 604800 1000) by lia.
  apply Z.div_le_mono; lia.
Qed.

(** C2: a token is signed with an expiry 604800 seconds (seven days) after
    its issue time; with the signing secret configured, the mandatory
    middleware answers a request that presents a token issued more than seven
    days ago with 401 TOKEN_EXPIRED, one whose token is malformed or carries a
    signature under another key with 401 INVALID_TOKEN, one whose verified
    token names an id with no administrator record with 401 ADMIN_NOT_FOUND;
    and a request without a Bearer header is answered 401 AUTH_REQUIRED. *)
Theorem token_lifetime_and_rejections (B : Bcrypt) (J : JsonWebToken)
    (env : Env) (rt : Runtime) (db : Admins) :
  (configured env = true ->
   (forall (a : IAdmin) (password : string) (rt0 : Runtime),
       AdminsInvariant db -> In a db -> Js.truthy password = true ->
       bcrypt_compare password (passwordHash a) = true ->
       exists k,
         JWT_SECRET env = Some k
         /\ data (body (snd (loginAdmin env rt0 db
                               {| login_email := Some (email a);
                                  login_password := Some password |})))
            = Some (JObj [("token", JStr (jwt_encode k (issuedClaims a (now rt0))));
                          ("admin", JObj [("id", JStr (idString (admin_id a)));
                                          ("email", JStr (email a));
                                          ("name", JStr (name a));
                                          ("role", JStr (role a))])])
         /\ (exp (issuedClaims a (now rt0)) - iat (issuedClaims a (now rt0))
             = 7 * 24 * 60 * 60)%Z)
   /\ (forall (req : AuthRequest) (h k : string),
          authorization req = Some h ->
          Js.startsWith h "Bearer " = true ->
          JWT_SECRET env = Some k ->
          let token := Js.substringFrom 7 h in
          (forall (a : IAdmin) (ms0 : Z),
              jwt_decode token = Signed k (issuedClaims a ms0) ->
              (ms0 + 604800 * 1000 < now rt)%Z ->
              authenticateAdmin env rt db req
              = Sent (fail 401 "TOKEN_EXPIRED"
                        "Your session has expired. Please log in again."))
          /\ ((jwt_decode token = Malformed
               \/ exists k' c, jwt_decode token = Signed k' c /\ k' <> k) ->
              authenticateAdmin env rt db req
              = Sent (fail 401 "INVALID_TOKEN" "Invalid authentication token."))
          /\ (forall c : Claims,
                 jwt_verify token k (now rt) = inr c ->
                 Admin_findById db (claim_id c) = None ->
                 authenticateAdmin env rt db req
                 = Sent (fail 401 "ADMIN_NOT_FOUND"
                           "Admin account not found or has been deleted."))))
  /\ (forall req : AuthRequest,
         (authorization req = None
          \/ exists h, authorization req = Some h
                       /\ Js.startsWith h "Bearer " = false) ->
         authenticateAdmin env rt db req
         = Sent (fail 401 "AUTH_REQUIRED"
                   "Authentication required. Please provide a valid token.")).
Proof.
  split.
  - intro Henv. destruct (configured_secret env Henv) as [k0 [Hk0 Hkt]]. split.
    + intros a password rt0 Hinv Hin Hp Hc. exists k0. split; [exact Hk0 |].
      rewrite (loginAdmin_match B J env rt0 db a password k0 Hinv Hin Hk0 Hkt Hp Hc).
      split; [reflexivity |]. unfold issuedClaims. cbn [exp iat]. lia.
    + intros req h k Hh Hb Hk token.
      assert (k = k0) by congruence. subst k0.
      pose proof (authenticate_bearer J env rt db req h k Hh Hb Hk Hkt) as Hauth.
      fold token in Hauth. split; [| split].
      * intros a ms0 Hd Hlate. rewrite Hauth.
        rewrite (verify_expired J token k (issuedClaims a ms0) (now rt) Hd).
        -- reflexivity.
        -- unfold issuedClaims. cbn [exp]. apply seven_days_later, Hlate.
      * intro Hbad. rewrite Hauth.
        destruct (verify_invalid J token k (now rt) Hbad) as [msg ->]. reflexivity.
      * intros c Hv Hnone. rewrite Hauth, Hv, Hnone. reflexivity.
  - intros req Hreq. apply authenticate_no_bearer, Hreq.
Qed.

Lemma token_lifetime_and_rejections_witness :
  configured Seed.env = true
  /\ authenticateAdmin (J := Transparent.jwt) Seed.env Seed.later Seed.admins
       (Seed.bearer Seed.issued)
     = Sent (fail 401 "TOKEN_EXPIRED" "Your session has expired. Please log in again.")
  /\ authenticateAdmin (J := Transparent.jwt) Seed.env Seed.later Seed.admins
       (Seed.bearer Seed.forged)
     = Sent (fail 401 "INVALID_TOKEN" "Invalid authentication token.")
  /\ authenticateAdmin (J := Transparent.jwt) Seed.env Seed.rt Seed.admins
       (Seed.bearer Seed.orphan)
     = Sent (fail 401 "ADMIN_NOT_FOUND" "Admin account not found or has been deleted.")
  /\ authenticateAdmin (J := Transparent.jwt) Seed.env Seed.later Seed.admins
       Seed.anonymous
     = Sent (fail 401 "AUTH_REQUIRED"
               "Authentication required. Please provide a valid token.").
Proof.
  pose proof (token_lifetime_and_rejections Transparent.bcrypt Transparent.jwt
                Seed.env Seed.later Seed.admins) as [Hconf Hnone].
  destruct (Hconf eq_refl) as [_ Hlater].
  pose proof (token_lifetime_and_rejections Transparent.bcrypt Transparent.jwt
                Seed.env Seed.rt Seed.admins) as [Hconf' _].
  destruct (Hconf' eq_refl) as [_ Hnow].
  split; [reflexivity |]. split; [| split; [| split]].
  - destruct (Hlater (Seed.bearer Seed.issued) _ "s3cret" eq_refl eq_refl eq_refl)
      as [Hexp _].
    apply (Hexp Seed.admin (now Seed.rt)); [reflexivity | reflexivity].
  - destruct (Hlater (Seed.bearer Seed.forged) _ "s3cret" eq_refl eq_refl eq_refl)
      as [_ [Hbad _]].
    apply Hbad. right. exists "other", (issuedClaims Seed.admin (now Seed.rt)).
    split; [reflexivity | discriminate].
  - destruct (Hnow (Seed.bearer Seed.orphan) _ "s3cret" eq_refl eq_refl eq_refl)
      as [_ [_ Hgone]].
    eapply Hgone; reflexivity.
  - apply Hnone. left. reflexivity.
Defined.

(* ------------------------------------------------------------------------- *)
(** ** Registration *)

Lemma findOne_hit (db : Admins) (a : IAdmin) :
  In a db -> exists b, Admin_findOne db (email a) = Some b.
Proof.
  intro Hin. unfold Admin_findOne.
  destruct (find (fun b => String.eqb (email b) (email a)) db) as [b|] eqn:E.
  - exists b. reflexivity.
  - pose proof (find_none _ _ E a Hin) as H. cbv beta in H.
    rewrite String.eqb_refl in H. discriminate.
Qed.

(** C3: a registration request carrying email, password and name whose
    lower-cased email is the email of an existing administrator record is
    answered 409 ADMIN_EXISTS and the collection is left as it was; whatever
    the other fields, a request with such an email never changes the
    collection, so no second record for that email appears. *)
Theorem register_existing_email (B : Bcrypt) (rt : Runtime) (db : Admins)
    (a : IAdmin) (reqBody : RegisterBody) :
  In a db ->
  Js.toLowerCase (field (reg_email reqBody)) = email a ->
  (Js.present (reg_email reqBody) = true ->
   Js.present (reg_password reqBody) = true ->
   Js.present (reg_name reqBody) = true ->
   registerAdmin rt db reqBody
   = (db, fail 409 "ADMIN_EXISTS" "An admin with this email already exists."))
  /\ fst (registerAdmin rt db reqBody) = db.
Proof.
  intros Hin He. destruct (findOne_hit db a Hin) as [b Hb].
  unfold registerAdmin. cbv zeta. rewrite He, Hb. split.
  - intros H1 H2 H3. rewrite H1, H2, H3. reflexivity.
  - destruct (negb (Js.present (reg_email reqBody))
              || negb (Js.present (reg_password reqBody))
              || negb (Js.present (reg_name reqBody))); reflexivity.
Qed.

Lemma register_existing_email_witness :
  let reqBody := {| reg_email := Some "Admin@Web3Economy.com";
                    reg_password := Some "Passw0rdX";
                    reg_name := Some "Eve";
                    reg_role := None |} in
  In Seed.admin Seed.admins
  /\ Js.toLowerCase (field (reg_email reqBody)) = email Seed.admin
  /\ registerAdmin (B := Transparent.bcrypt) Seed.rt Seed.admins reqBody
     = (Seed.admins,
        fail 409 "ADMIN_EXISTS" "An admin with this email already exists.").
Proof.
  cbv zeta. split; [left; reflexivity |]. split; [reflexivity |].
  apply (register_existing_email Transparent.bcrypt Seed.rt Seed.admins Seed.admin
           {| reg_email := Some "Admin@Web3Economy.com";
              reg_password := Some "Passw0rdX";
              reg_name := Some "Eve";
              reg_role := None |}
           (or_introl eq_refl) eq_refl);
    reflexivity.
Defined.

(* ------------------------------------------------------------------------- *)
(** ** Serialized administrators *)

Lemma jdelete_absent (k : string) (fs : list (string * json)) :
  jget k (JObj (jdelete k fs)) = None.
Proof.
  unfold jget, jdelete.
  destruct (find (fun kv => String.eqb k (fst kv))
              (filter (fun kv => negb (String.eqb k (fst kv))) fs)) as [kv|] eqn:E.
  - apply find_some in E. destruct E as [Hin Hk]. apply filter_In in Hin.
    destruct Hin as [_ Hn]. rewrite Hk in Hn. discriminate.
  - reflexivity.
Qed.


(* ------------------------------------------------------------------------- *)
(** ** Newsletter *)

Module NewsletterFacts.
Import Newsletter NewsletterController.

Lemma find_replaced (db : Subscribers) (e : string) (s s' : INewsletterSubscriber) :
  NewsletterSubscriber_findOne db e = Some s ->
  _id s' = _id s -> email s' = e ->
  NewsletterSubscriber_findOne (replaceDoc s' db) e = Some s'.
Proof.
  unfold NewsletterSubscriber_findOne, replaceDoc. intros Hf Hid He.
  induction db as [|o r IH]; [discriminate |].
  simpl in Hf |- *. destruct (String.eqb (email o) e) eqn:Eo.
  - injection Hf as ->. rewrite Hid, Nat.eqb_refl, He, String.eqb_refl. reflexivity.
  - destruct (_id o =? _id s') eqn:Ei.
    + rewrite He, String.eqb_refl. reflexivity.
    + rewrite Eo. apply IH, Hf.
Qed.

Lemma found_email (db : Subscribers) (e : string) (s : INewsletterSubscriber) :
  NewsletterSubscriber_findOne db e = Some s -> email s = e.
Proof.
  intro H. apply find_some in H. destruct H as [_ H].
  apply String.eqb_eq in H. exact H.
Qed.

(** Unsubscribing an active subscriber. *)
Lemma unsubscribe_active (rt : Runtime) (st : State) (e : string)
    (s : INewsletterSubscriber) :
  Js.truthy e = true ->
  NewsletterSubscriber_findOne (subscribers st) (Js.toLowerCase e) = Some s ->
  NewsletterSubscriberSchema_validate s = None ->
  status s = active ->
  let s' := {| _id := _id s; email := email s; source := source s;
               subscribedAt := subscribedAt s; unsubscribedAt := Some (now rt);
               status := unsubscribed |} in
  unsubscribe rt st {| unsub_email := Some e |}
  = (send {| to := Js.toLowerCase e;
             subject := "You have been unsubscribed from Web3 Economy Newsletter" |}
          (store (replaceDoc s' (subscribers st)) st),
     reply 200 None (Some "Successfully unsubscribed from newsletter.")).
Proof.
  intros He Hf Hv Hs s'. unfold unsubscribe. cbv zeta. cbn [unsub_email field].
  rewrite present_Some, He. cbn [negb]. rewrite Hf, Hs. cbn [status_eqb].
  unfold NewsletterSubscriber_save, NewsletterSubscriberSchema_validate.
  cbn [email]. unfold NewsletterSubscriberSchema_validate in Hv.
  destruct (negb (Js.truthy (email s)) || negb (emailRegexTest (email s)));
    [discriminate Hv |].
  reflexivity.
Qed.

(** Unsubscribing a subscriber whose status is already [unsubscribed]. *)
Lemma unsubscribe_again (rt : Runtime) (st : State) (e : string)
    (s : INewsletterSubscriber) :
  Js.truthy e = true ->
  NewsletterSubscriber_findOne (subscribers st) (Js.toLowerCase e) = Some s ->
  status s = unsubscribed ->
  unsubscribe rt st {| unsub_email := Some e |}
  = (st, reply 200 None (Some "You are already unsubscribed from our newsletter.")).
Proof.
  intros He Hf Hs. unfold unsubscribe. cbv zeta. cbn [unsub_email field].
  rewrite present_Some, He. cbn [negb]. rewrite Hf, Hs. reflexivity.
Qed.

Lemma lower_truthy (e : string) :
  Js.truthy (Js.toLowerCase e) = true -> Js.truthy e = true.
Proof. destruct e; [intro H; discriminate H | reflexivity]. Qed.

Lemma lowerChar_space (c : ascii) : Js.isSpace (Js.lowerChar c) = Js.isSpace c.
Proof. destruct c as [[] [] [] [] [] [] [] []]; reflexivity. Qed.

Lemma lowerChar_is (c x : ascii) :
  Js.isUpper x = false -> Js.isLower x = false ->
  Ascii.eqb (Js.lowerChar c) x = Ascii.eqb c x.
Proof.
  intros Hu Hl. unfold Js.lowerChar. destruct (Js.isUpper c) eqn:E; [| reflexivity].
  destruct (Ascii.eqb c x) eqn:Ec.
  - apply Ascii.eqb_eq in Ec. subst x. congruence.
  - apply Ascii.eqb_neq. intro H. subst x.
    revert E Hl. clear. destruct c as [[] [] [] [] [] [] [] []]; vm_compute; congruence.
Qed.

Lemma afterAt_lower (l : list ascii) :
  afterAt (map Js.lowerChar l) = option_map (map Js.lowerChar) (afterAt l).
Proof.
  induction l as [|c r IH]; simpl.
  - reflexivity.
  - rewrite (lowerChar_is c "@"%char eq_refl eq_refl).
    destruct (Ascii.eqb c "@"); [reflexivity | exact IH].
Qed.

Lemma removelast_map {A B : Type} (f : A -> B) (l : list A) :
  removelast (map f l) = map f (removelast l).
Proof.
  induction l as [|x r IH]; simpl.
  - reflexivity.
  - destruct r as [|y r']; [reflexivity |]. simpl in IH |- *. rewrite IH. reflexivity.
Qed.

Lemma emailRegexTest_lower (e : string) :
  emailRegexTest (Js.toLowerCase e) = emailRegexTest e.
Proof.
  unfold emailRegexTest, Js.toLowerCase. rewrite chars_str. cbv zeta. f_equal.
  - induction (Js.chars e) as [|c r IH]; simpl.
    + reflexivity.
    + rewrite lowerChar_space, IH. reflexivity.
  - destruct (Js.chars e) as [|c t]; simpl; [reflexivity |].
    rewrite afterAt_lower. destruct (afterAt t) as [[|d r]|]; simpl; try reflexivity.
    rewrite removelast_map.
    induction (removelast r) as [|x xs IH]; simpl.
    + reflexivity.
    + rewrite (lowerChar_is x "."%char eq_refl eq_refl), IH. reflexivity.
Qed.

Lemma valid_pattern (s : INewsletterSubscriber) :
  NewsletterSubscriberSchema_validate s = None -> emailRegexTest (email s) = true.
Proof.
  unfold NewsletterSubscriberSchema_validate. intro H.
  destruct (negb (Js.truthy (email s)) || negb (emailRegexTest (email s))) eqn:E;
    [discriminate H |].
  apply orb_false_iff in E. destruct E as [_ E].
  apply negb_false_iff in E. exact E.
Qed.

Lemma valid_email (s : INewsletterSubscriber) :
  NewsletterSubscriberSchema_validate s = None -> Js.truthy (email s) = true.
Proof.
  unfold NewsletterSubscriberSchema_validate. intro H.
  destruct (negb (Js.truthy (email s)) || negb (emailRegexTest (email s))) eqn:E;
    [discriminate H |].
  apply orb_false_iff in E. destruct E as [E _].
  apply negb_false_iff in E. exact E.
Qed.

End NewsletterFacts.



(* ------------------------------------------------------------------------- *)
(** ** Pagination of the blog list *)

Lemma insertBy_length {A : Type} (before : A -> A -> bool) (x : A) (l : list A) :
  length (insertBy before x l) = S (length l).
Proof.
  induction l as [|y r IH]; simpl.
  - reflexivity.
  - destruct (before y x); simpl; [rewrite IH |]; reflexivity.
Qed.

Lemma sortBy_length {A : Type} (before : A -> A -> bool) (l : list A) :
  length (sortBy before l) = length l.
Proof.
  induction l as [|x r IH]; simpl.
  - reflexivity.
  - unfold sortBy in *. simpl. rewrite insertBy_length, IH. reflexivity.
Qed.

Lemma page_length {A : Type} (l : list A) (skip limit : Z) :
  (0 <= skip)%Z -> (1 <= limit)%Z ->
  Z.of_nat (length (firstn (Z.to_nat limit) (skipn (Z.to_nat skip) l)))
  = Z.min limit (Z.max 0 (Z.of_nat (length l) - skip)).
Proof.
  intros Hs Hl. rewrite length_firstn, length_skipn. lia.
Qed.



(* ------------------------------------------------------------------------- *)
(** ** Showcase stars *)

Module ShowcaseFacts.
Import Showcase ShowcaseController.

Lemma findById_replaced (db : Projects) (id : ObjectId) (p p' : IShowcase) :
  Showcase_findById db id = Some p -> _id p' = id ->
  Showcase_findById (replaceDoc p' db) id = Some p'.
Proof.
  unfold Showcase_findById, replaceDoc. intros Hf <-.
  induction db as [|o r IH]; [discriminate |].
  simpl in Hf |- *. destruct (_id o =? _id p') eqn:Eo.
  - rewrite Nat.eqb_refl. reflexivity.
  - rewrite Eo. apply IH, Hf.
Qed.

Lemma found_id (db : Projects) (id : ObjectId) (p : IShowcase) :
  Showcase_findById db id = Some p -> _id p = id.
Proof.
  intro H. apply find_some in H. destruct H as [_ H].
  apply Nat.eqb_eq in H. exact H.
Qed.

(** One star on a stored project. *)
Lemma star_once (rt : Runtime) (db : Projects) (id : ObjectId) (p : IShowcase) :
  Showcase_findById db id = Some p ->
  starProject rt db id
  = (replaceDoc (withUpdatedAt (now rt) (incStars p)) db,
     reply 200 (Some (stars (stats p) + 1)%Z) (Some "Project starred")).
Proof.
  intro Hf. unfold starProject, Showcase_findByIdAndUpdate. rewrite Hf.
  cbn [slug withUpdatedAt incStars withStats]. rewrite String.eqb_refl.
  reflexivity.
Qed.

End ShowcaseFacts.

(** C8: for an id that resolves to a stored project, the star endpoint adds
    one to [stats.stars] in a single storage update and answers 200 with the
    value after the increment; the stored document then carries that value;
    two calls in a row on a project with no stars leave [stats.stars] at 2;
    and for an id that resolves to no project the answer is 404 and the
    collection is unchanged. *)
Theorem star_project (rt1 rt2 : Runtime) (db : Showcase.Projects) (id : ObjectId) :
  (forall p : Showcase.IShowcase,
      Showcase.Showcase_findById db id = Some p ->
      let first := ShowcaseController.starProject rt1 db id in
      let second := ShowcaseController.starProject rt2 (fst first) id in
      snd first
      = reply 200 (Some (Showcase.stars (Showcase.stats p) + 1)%Z)
          (Some "Project starred")
      /\ fst first
         = Showcase.replaceDoc
             (Showcase.withUpdatedAt (now rt1) (ShowcaseController.incStars p)) db
      /\ option_map (fun x => Showcase.stars (Showcase.stats x))
           (Showcase.Showcase_findById (fst first) id)
         = Some (Showcase.stars (Showcase.stats p) + 1)%Z
      /\ snd second
         = reply 200 (Some (Showcase.stars (Showcase.stats p) + 2)%Z)
             (Some "Project starred")
      /\ option_map (fun x => Showcase.stars (Showcase.stats x))
           (Showcase.Showcase_findById (fst second) id)
         = Some (Showcase.stars (Showcase.stats p) + 2)%Z
      /\ (Showcase.stars (Showcase.stats p) = 0%Z ->
          option_map (fun x => Showcase.stars (Showcase.stats x))
            (Showcase.Showcase_findById (fst second) id)
          = Some 2%Z))
  /\ (Showcase.Showcase_findById db id = None ->
      ShowcaseController.starProject rt1 db id
      = (db, fail 404 "NOT_FOUND" "Project not found.")).
Proof.
  split.
  - intros p Hf first second.
    set (p1 := Showcase.withUpdatedAt (now rt1) (ShowcaseController.incStars p)).
    assert (H1 : first
                 = (Showcase.replaceDoc p1 db,
                    reply 200 (Some (Showcase.stars (Showcase.stats p) + 1)%Z)
                      (Some "Project starred"))).
    { subst first. apply ShowcaseFacts.star_once, Hf. }
    assert (Hf1 : Showcase.Showcase_findById (fst first) id = Some p1).
    { rewrite H1. cbn [fst].
      apply ShowcaseFacts.findById_replaced with (p := p); [exact Hf |].
      apply (ShowcaseFacts.found_id db id p Hf). }
    set (p2 := Showcase.withUpdatedAt (now rt2) (ShowcaseController.incStars p1)).
    assert (H2 : second
                 = (Showcase.replaceDoc p2 (fst first),
                    reply 200 (Some (Showcase.stars (Showcase.stats p1) + 1)%Z)
                      (Some "Project starred"))).
    { subst second. apply ShowcaseFacts.star_once, Hf1. }
    assert (Hf2 : Showcase.Showcase_findById (fst second) id = Some p2).
    { rewrite H2. cbn [fst].
      apply ShowcaseFacts.findById_replaced with (p := p1); [exact Hf1 |].
      apply (ShowcaseFacts.found_id db id p Hf). }
    assert (Hs1 : Showcase.stars (Showcase.stats p1)
                  = (Showcase.stars (Showcase.stats p) + 1)%Z) by reflexivity.
    assert (Hs2 : Showcase.stars (Showcase.stats p2)
                  = (Showcase.stars (Showcase.stats p) + 2)%Z).
    { change (Showcase.stars (Showcase.stats p2))
        with (Showcase.stars (Showcase.stats p1) + 1)%Z. rewrite Hs1. lia. }
    split; [rewrite H1; reflexivity |].
    split; [rewrite H1; reflexivity |].
    split; [rewrite Hf1; cbn [option_map]; rewrite Hs1; reflexivity |].
    split.
    { rewrite H2. cbn [snd]. rewrite Hs1.
      replace (Showcase.stars (Showcase.stats p) + 1 + 1)%Z
        with (Showcase.stars (Showcase.stats p) + 2)%Z by lia.
      reflexivity. }
    split; [rewrite Hf2; cbn [option_map]; rewrite Hs2; reflexivity |].
    intro H0. rewrite Hf2. cbn [option_map]. rewrite Hs2, H0. reflexivity.
  - intro Hn. unfold ShowcaseController.starProject,
      Showcase.Showcase_findByIdAndUpdate. rewrite Hn. reflexivity.
Qed.

Lemma star_project_witness :
  Showcase.Showcase_findById Seed.projects 31 = Some (Seed.project 31 false)
  /\ option_map (fun x => Showcase.stars (Showcase.stats x))
       (Showcase.Showcase_findById
          (fst (ShowcaseController.starProject Seed.later
                  (fst (ShowcaseController.starProject Seed.rt Seed.projects 31)) 31))
          31)
     = Some 2%Z
  /\ ShowcaseController.starProject Seed.rt Seed.projects 99
     = (Seed.projects, fail 404 "NOT_FOUND" "Project not found.").
Proof.
  pose proof (star_project Seed.rt Seed.later Seed.projects 31) as [H _].
  pose proof (star_project Seed.rt Seed.later Seed.projects 99) as [_ H404].
  specialize (H (Seed.project 31 false) eq_refl). cbv zeta in H.
  destruct H as [_ [_ [_ [_ [_ H2]]]]].
  split; [reflexivity |]. split; [exact (H2 eq_refl) | exact (H404 eq_refl)].
Defined.

(* ------------------------------------------------------------------------- *)
(** ** Blog detail routes *)

Lemma unique_key_inj {A K : Type} (key : A -> K) (l : list A) (x y : A) :
  NoDup (map key l) -> In x l -> In y l -> key x = key y -> x = y.
Proof.
  induction l as [|a r IH]; intros Hnd Hx Hy Hk; [contradiction |].
  simpl in Hnd. inversion Hnd as [|k ks Hnotin Hnd']; subst.
  destruct Hx as [-> | Hx], Hy as [-> | Hy].
  - reflexivity.
  - exfalso. apply Hnotin. rewrite Hk. apply in_map, Hy.
  - exfalso. apply Hnotin. rewrite <- Hk. apply in_map, Hx.
  - apply IH; assumption.
Qed.

Module BlogFacts.
Import Blog BlogController.

Ltac split_validate H :=
  repeat match type of H with
         | (if ?c then _ else _) = None =>
             let E := fresh "V" in destruct c eqn:E; [discriminate H |]
         end.

Lemma validate_slug (b : IBlog) :
  BlogSchema_validate b = None -> Js.truthy (slug b) = true.
Proof.
  unfold BlogSchema_validate. intro H. split_validate H.
  apply negb_false_iff. assumption.
Qed.

Lemma validate_readTime (b : IBlog) :
  BlogSchema_validate b = None -> Js.truthy (readTime b) = true.
Proof.
  unfold BlogSchema_validate. intro H. split_validate H.
  apply negb_false_iff. assumption.
Qed.

Lemma validate_views (b : IBlog) :
  BlogSchema_validate b = None ->
  BlogSchema_validate (withStats (withViews (views (stats b) + 1)%Z (stats b)) b) = None.
Proof.
  unfold BlogSchema_validate. intro H. split_validate H.
  cbn [title slug excerpt content author readTime category image color stats
         withStats withViews likes comments bookmarks views].
  repeat match goal with V : _ = false |- _ => rewrite V; clear V end.
  match goal with
  | V : (_ || _ || _ || (views (stats b) <? 0)%Z) = false |- _ =>
      apply orb_false_iff in V; destruct V as [V1 V2];
      rewrite V1; apply Z.ltb_ge in V2
  end.
  cbn [orb]. destruct (views (stats b) + 1 <? 0)%Z eqn:E; [| reflexivity].
  apply Z.ltb_lt in E. lia.
Qed.

Lemma findById_member (db : Blogs) (b : IBlog) :
  NoDup (map _id db) -> In b db -> Blog_findById db (_id b) = Some b.
Proof. intros Hnd Hin. unfold Blog_findById. apply find_by_id; assumption. Qed.

(** The save issued by the detail fetch: only [stats.views] was assigned. *)
Lemma save_view (rt : Runtime) (db : Blogs) (b : IBlog) :
  NoDup (map _id db) -> In b db -> BlogSchema_validate b = None ->
  let b1 := withStats (withViews (views (stats b) + 1)%Z (stats b)) b in
  Blog_save rt db false b1
  = inr (replaceDoc (withUpdatedAt (now rt) b1) db, withUpdatedAt (now rt) b1).
Proof.
  intros Hnd Hin Hv. cbv zeta. unfold Blog_save.
  rewrite (validate_views b Hv).
  set (b1 := withStats (withViews (views (stats b) + 1)%Z (stats b)) b).
  assert (Hs : pre_save_slug false b1 = b1).
  { unfold pre_save_slug. change (slug b1) with (slug b).
    rewrite (validate_slug b Hv). reflexivity. }
  rewrite Hs.
  assert (Hr : pre_save_readTime b1 = b1).
  { unfold pre_save_readTime. change (readTime b1) with (readTime b).
    rewrite (validate_readTime b Hv). reflexivity. }
  rewrite Hr. cbv zeta.
  unfold slugChanged. change (_id (withUpdatedAt (now rt) b1)) with (_id b).
  rewrite (findById_member db b Hnd Hin).
  change (slug (withUpdatedAt (now rt) b1)) with (slug b).
  rewrite String.eqb_refl. reflexivity.
Qed.

Lemma unpublished_slug_hidden (db : Blogs) (b : IBlog) :
  NoDup (map slug db) -> In b db -> published b = false ->
  Blog_findOne db (fun o => String.eqb (slug o) (slug b) && published o) = None.
Proof.
  intros Hnd Hin Hp. unfold Blog_findOne.
  destruct (find _ db) as [o|] eqn:E; [| reflexivity].
  apply find_some in E. destruct E as [Ho Hq].
  apply andb_true_iff in Hq. destruct Hq as [Hs Hpub].
  apply String.eqb_eq in Hs.
  rewrite (unique_key_inj slug db o b Hnd Ho Hin Hs) in Hpub. congruence.
Qed.

End BlogFacts.




(* ------------------------------------------------------------------------- *)
(** ** Unpublished documents on the public detail routes *)

Lemma project_unpublished_slug_hidden (db : Showcase.Projects) (p : Showcase.IShowcase) :
  NoDup (map Showcase.slug db) -> In p db -> Showcase.published p = false ->
  Showcase.Showcase_findOne db
    (fun o => String.eqb (Showcase.slug o) (Showcase.slug p) && Showcase.published o)
  = None.
Proof.
  intros Hnd Hin Hp. unfold Showcase.Showcase_findOne.
  destruct (find _ db) as [o|] eqn:E; [| reflexivity].
  apply find_some in E. destruct E as [Ho Hq].
  apply andb_true_iff in Hq. destruct Hq as [Hs Hpub].
  apply String.eqb_eq in Hs.
  rewrite (unique_key_inj Showcase.slug db o p Hnd Ho Hin Hs) in Hpub. congruence.
Qed.

(** C10: for a blog or a showcase project with [published = false], the
    public get-by-id handler answers 200 with the whole document while the
    get-by-slug handler answers 404 for the slug of the same document; and
    the public route by id, whose chain holds the rate limiter and no
    authentication middleware, gives the same 200 to any request under the
    rate limit, whatever its Authorization header (none included). *)
Theorem unpublished_reachable_by_id (rt : Runtime)
    (blogs : Blog.Blogs) (projects : Showcase.Projects) :
  (forall b : Blog.IBlog,
      Blog.BlogsInvariant blogs -> In b blogs -> Blog.published b = false ->
      BlogController.getBlogById blogs (Blog._id b) = reply 200 (Some b) None
      /\ BlogController.getBlogBySlug rt blogs (Blog.slug b)
         = (blogs, fail 404 "NOT_FOUND" "Blog post not found.")
      /\ forall (hits : nat) (req : AuthRequest),
           hits < Routes.generalLimiterMax ->
           Routes.GET_blogs_id hits blogs req (Blog._id b) = reply 200 (Some b) None
           /\ Routes.GET_blogs_slug hits rt blogs req (Blog.slug b)
              = (blogs, fail 404 "NOT_FOUND" "Blog post not found."))
  /\ (forall p : Showcase.IShowcase,
         Showcase.ProjectsInvariant projects -> In p projects ->
         Showcase.published p = false ->
         ShowcaseController.getShowcaseById projects (Showcase._id p)
         = reply 200 (Some p) None
         /\ ShowcaseController.getShowcaseBySlug projects (Showcase.slug p)
            = fail 404 "NOT_FOUND" "Project not found."
         /\ forall (hits : nat) (req : AuthRequest),
              hits < Routes.generalLimiterMax ->
              Routes.GET_showcase_id hits projects req (Showcase._id p)
              = reply 200 (Some p) None
              /\ Routes.GET_showcase_slug hits projects req (Showcase.slug p)
                 = fail 404 "NOT_FOUND" "Project not found.").
Proof.
  assert (Hlim : forall hits, hits < Routes.generalLimiterMax ->
                              (S hits <=? Routes.generalLimiterMax) = true)
    by (intros hits H; apply Nat.leb_le; lia).
  split.
  - intros b [Hid Hslug] Hin Hp.
    assert (H1 : BlogController.getBlogById blogs (Blog._id b) = reply 200 (Some b) None).
    { unfold BlogController.getBlogById.
      rewrite (BlogFacts.findById_member blogs b Hid Hin). reflexivity. }
    assert (H2 : BlogController.getBlogBySlug rt blogs (Blog.slug b)
                 = (blogs, fail 404 "NOT_FOUND" "Blog post not found.")).
    { unfold BlogController.getBlogBySlug.
      rewrite (BlogFacts.unpublished_slug_hidden blogs b Hslug Hin Hp). reflexivity. }
    split; [exact H1 |]. split; [exact H2 |]. intros hits req Hhits. split.
    + unfold Routes.GET_blogs_id, Routes.generalLimiter.
      rewrite (Hlim hits Hhits). exact H1.
    + unfold Routes.GET_blogs_slug. rewrite (Hlim hits Hhits). exact H2.
  - intros p [Hid Hslug] Hin Hp.
    assert (H1 : ShowcaseController.getShowcaseById projects (Showcase._id p)
                 = reply 200 (Some p) None).
    { unfold ShowcaseController.getShowcaseById, Showcase.Showcase_findById.
      rewrite (find_by_id Showcase._id projects p Hid Hin). reflexivity. }
    assert (H2 : ShowcaseController.getShowcaseBySlug projects (Showcase.slug p)
                 = fail 404 "NOT_FOUND" "Project not found.").
    { unfold ShowcaseController.getShowcaseBySlug.
      rewrite (project_unpublished_slug_hidden projects p Hslug Hin Hp). reflexivity. }
    split; [exact H1 |]. split; [exact H2 |]. intros hits req Hhits. split.
    + unfold Routes.GET_showcase_id, Routes.generalLimiter.
      rewrite (Hlim hits Hhits). exact H1.
    + unfold Routes.GET_showcase_slug, Routes.generalLimiter.
      rewrite (Hlim hits Hhits). exact H2.
Qed.

Lemma unpublished_reachable_by_id_witness :
  Routes.GET_blogs_id 0 Seed.blogs Seed.anonymous 22 = reply 200 (Some Seed.draft) None
  /\ Routes.GET_blogs_slug 0 Seed.rt Seed.blogs Seed.anonymous "work-in-progress"
     = (Seed.blogs, fail 404 "NOT_FOUND" "Blog post not found.")
  /\ Routes.GET_showcase_id 0 Seed.projects Seed.anonymous 31
     = reply 200 (Some (Seed.project 31 false)) None
  /\ Routes.GET_showcase_slug 0 Seed.projects Seed.anonymous "swap-engine"
     = fail 404 "NOT_FOUND" "Project not found.".
Proof.
  assert (Hlim : 0 < Routes.generalLimiterMax) by (unfold Routes.generalLimiterMax; lia).
  pose proof (unpublished_reachable_by_id Seed.rt Seed.blogs Seed.projects) as [Hb Hp].
  assert (Hbi : Blog.BlogsInvariant Seed.blogs).
  { split; repeat constructor; cbn; intuition discriminate. }
  assert (Hpi : Showcase.ProjectsInvariant Seed.projects).
  { split; repeat constructor; cbn; intuition discriminate. }
  destruct (Hb Seed.draft Hbi (or_intror (or_introl eq_refl)) eq_refl) as [_ [_ Hr]].
  destruct (Hr 0 Seed.anonymous Hlim) as [H1 H2].
  destruct (Hp (Seed.project 31 false) Hpi (or_introl eq_refl) eq_refl) as [_ [_ Hr']].
  destruct (Hr' 0 Seed.anonymous Hlim) as [H3 H4].
  split; [exact H1 |]. split; [exact H2 |]. split; [exact H3 | exact H4].
Defined.

(* ------------------------------------------------------------------------- *)
(** ** The suffix loop of [createResource] *)

Module ResourceFacts.
Import Resource ResourceController.

Lemma natToString_inj (j k : nat) : Js.natToString j = Js.natToString k -> j = k.
Proof.
  assert (R : forall n,
             option_map Nat.of_uint (NilZero.uint_of_string (Js.natToString n))
             = Some n).
  { intro n. unfold Js.natToString.
    pose proof (DecimalNat.Unsigned.of_to n) as Hn.
    destruct (Nat.to_uint n) eqn:E;
      try (rewrite NilZero.usu by discriminate; cbn [option_map]; rewrite Hn;
           reflexivity).
    cbn in Hn. subst n. reflexivity. }
  intro H. pose proof (R j) as Hj. rewrite H, R in Hj. congruence.
Qed.

Lemma append_cancel (a b c : string) : (a ++ b)%string = (a ++ c)%string -> b = c.
Proof.
  induction a as [|x a IH]; simpl; intro H.
  - exact H.
  - injection H as H. apply IH, H.
Qed.

Lemma append_self (a b : string) : a = (a ++ b)%string -> b = "".
Proof.
  induction a as [|x a IH]; simpl; intro H.
  - symmetry. exact H.
  - injection H as H. apply IH, H.
Qed.

Lemma candidate_inj (o : string) (j k : nat) :
  candidate o j = candidate o k -> j = k.
Proof.
  unfold candidate, suffixed. destruct j as [|j], k as [|k]; intro H.
  - reflexivity.
  - apply append_self in H. discriminate.
  - symmetry in H. apply append_self in H. discriminate.
  - apply append_cancel in H. injection H as H.
    apply natToString_inj in H. exact H.
Qed.

Lemma slugExists_In (db : Resources) (s : string) :
  slugExists db s = true <-> In s (map slug db).
Proof.
  unfold slugExists, Resource_findOne. split.
  - destruct (find _ db) as [r|] eqn:E; [| discriminate]. intros _.
    apply find_some in E. destruct E as [Hin He].
    apply String.eqb_eq in He. subst s. apply in_map, Hin.
  - intro Hin. apply in_map_iff in Hin. destruct Hin as [r [Hs Hin]].
    destruct (find _ db) as [r'|] eqn:E; [reflexivity |].
    pose proof (find_none _ _ E r Hin) as H. cbv beta in H.
    rewrite Hs, String.eqb_refl in H. discriminate.
Qed.

(** What the loop returns when entered with the [c]-th candidate: the first
    free candidate from [c] on, or nothing when the next [fuel] candidates are
    all taken. *)
Lemma ensureUnique_spec (db : Resources) (o : string) (fuel c : nat) :
  match ensureUnique fuel db o (S c) (candidate o c) with
  | Some u =>
      exists k, c <= k < c + fuel /\ u = candidate o k
                /\ slugExists db u = false
                /\ forall j, c <= j < k -> slugExists db (candidate o j) = true
  | None => forall j, c <= j < c + fuel -> slugExists db (candidate o j) = true
  end.
Proof.
  revert c. induction fuel as [|fuel IH]; intro c; simpl.
  - intros j Hj. lia.
  - destruct (slugExists db (candidate o c)) eqn:E.
    + specialize (IH (S c)). change (suffixed o (S c)) with (candidate o (S c)).
      destruct (ensureUnique fuel db o (S (S c)) (candidate o (S c))) as [u|].
      * destruct IH as [k [Hk [Hu [Hfree Hbefore]]]].
        exists k. split; [lia |]. split; [exact Hu |]. split; [exact Hfree |].
        intros j Hj. destruct (Nat.eq_dec j c) as [-> | Hne];
          [exact E | apply Hbefore; lia].
      * intros j Hj. destruct (Nat.eq_dec j c) as [-> | Hne];
          [exact E | apply IH; lia].
    + exists c. split; [lia |]. split; [reflexivity |]. split; [exact E |].
      intros j Hj. lia.
Qed.

(** With one lookup more than there are documents the loop always finds a
    free slug. *)
Lemma ensureUnique_total (db : Resources) (o : string) :
  exists u, ensureUnique (S (length db)) db o 1 o = Some u.
Proof.
  pose proof (ensureUnique_spec db o (S (length db)) 0) as H.
  change (candidate o 0) with o in H.
  destruct (ensureUnique (S (length db)) db o 1 o) as [u|]; [exists u; reflexivity |].
  exfalso.
  assert (Hincl : incl (map (candidate o) (seq 0 (S (length db)))) (map slug db)).
  { intros s Hs. apply in_map_iff in Hs. destruct Hs as [j [<- Hj]].
    apply in_seq in Hj. apply slugExists_In, H. lia. }
  assert (Hnd : NoDup (map (candidate o) (seq 0 (S (length db))))).
  { apply Injective_map_NoDup; [| apply seq_NoDup].
    intros j k. apply candidate_inj. }
  pose proof (NoDup_incl_length Hnd Hincl) as Hlen.
  rewrite !length_map, length_seq in Hlen. lia.
Qed.

End ResourceFacts.

(* ------------------------------------------------------------------------- *)
(** ** Slugs at creation and at a change of title *)

Lemma slug_of_trimmed (t : string) :
  Js.toLowerCase (Slugify.slugify (Js.trim t)) = Slugify.slugify t.
Proof.
  rewrite SlugifyFacts.slugify_lower. apply SlugifyFacts.slugify_trim.
Qed.

Lemma title_given (o : option string) :
  Js.truthy (Js.trim (field o)) = true ->
  match o with Some _ => true | None => false end = true.
Proof. destruct o; [reflexivity | intro H; discriminate H]. Qed.

Module BlogSlugFacts.
Import Blog BlogController.

Lemma blog_validate_title (b : IBlog) :
  BlogSchema_validate b = None -> Js.truthy (title b) = true.
Proof.
  unfold BlogSchema_validate. intro H. BlogFacts.split_validate H.
  match goal with
  | V : (negb (Js.truthy (title b)) || _) = false |- _ =>
      apply orb_false_iff in V; destruct V as [V _];
      apply negb_false_iff in V; exact V
  end.
Qed.

Lemma createBlog_slug (rt : Runtime) (db : Blogs) (blogData : BlogBody) :
  status (snd (createBlog rt db blogData)) = 201 ->
  exists doc,
    createBlog rt db blogData
    = (db ++ [doc], reply 201 (Some doc) (Some "Blog post created successfully"))
    /\ slug doc = Slugify.slugify (field (b_title blogData)).
Proof.
  unfold createBlog, Blog_insert. cbv zeta.
  destruct (BlogSchema_validate (newBlog rt blogData)) eqn:Hv;
    [intro H; discriminate H |].
  pose proof (blog_validate_title _ Hv) as Ht. cbn [title newBlog] in Ht.
  rewrite (title_given _ Ht).
  destruct (existsb _ db); [intro H; discriminate H |]. intros _.
  eexists. split; [reflexivity |].
  unfold pre_save_readTime.
  destruct (negb (Js.truthy _) && _); cbn [slug withReadTime];
    unfold pre_save_slug; rewrite orb_true_r; cbn [slug withSlug title newBlog];
    apply slug_of_trimmed.
Qed.

Lemma updateBlog_slug (rt : Runtime) (db : Blogs) (id : ObjectId)
    (reqBody : BlogBody) (t : string) :
  b_title reqBody = Some t -> Js.truthy t = true ->
  status (snd (updateBlog rt db id reqBody)) = 200 ->
  exists b doc,
    Blog_findById db id = Some b
    /\ updateBlog rt db id reqBody
       = (replaceDoc doc db,
          reply 200 (Some doc) (Some "Blog post updated successfully"))
    /\ _id doc = _id b
    /\ slug doc = Slugify.slugify t.
Proof.
  intros Ht Htt. unfold updateBlog. cbv zeta. rewrite Ht, present_Some, Htt.
  cbn [field].
  destruct (validateSet _); [intro H; discriminate H |].
  unfold Blog_findByIdAndUpdate.
  destruct (Blog_findById db id) as [b|]; [| intro H; discriminate H].
  destruct (negb _ && existsb _ db); [intro H; discriminate H |]. intros _.
  exists b. eexists. split; [reflexivity |]. split; [reflexivity |].
  split; [reflexivity |].
  cbn [slug withUpdatedAt applySet withBodySlug b_slug].
  apply SlugifyFacts.slugify_lower.
Qed.

Lemma blog_old_slug_gone (db : Blogs) (b doc : IBlog) :
  BlogsInvariant db -> In b db -> _id doc = _id b -> slug doc <> slug b ->
  Blog_findOne (replaceDoc doc db)
    (fun o => String.eqb (slug o) (slug b) && published o) = None.
Proof.
  intros [Hid Hslug] Hin Hsame Hne. unfold Blog_findOne, replaceDoc.
  destruct (find _ (map _ db)) as [o'|] eqn:E; [| reflexivity].
  apply find_some in E. destruct E as [Ho' Hq].
  apply andb_true_iff in Hq. destruct Hq as [Hs _]. apply String.eqb_eq in Hs.
  apply in_map_iff in Ho'. destruct Ho' as [o [Ho Hino]].
  destruct (_id o =? _id doc) eqn:Ei.
  - subst o'. contradiction.
  - subst o'. apply Nat.eqb_neq in Ei.
    rewrite (unique_key_inj slug db o b Hslug Hino Hin Hs) in Ei. congruence.
Qed.

End BlogSlugFacts.

Module ShowcaseSlugFacts.
Import Showcase ShowcaseController.

Ltac split_validate H :=
  repeat match type of H with
         | (if ?c then _ else _) = None =>
             let E := fresh "V" in destruct c eqn:E; [discriminate H |]
         end.

Lemma project_validate_title (p : IShowcase) :
  showcaseSchema_validate p = None -> Js.truthy (title p) = true.
Proof.
  unfold showcaseSchema_validate. intro H. split_validate H.
  match goal with
  | V : (negb (Js.truthy (title p)) || _) = false |- _ =>
      apply orb_false_iff in V; destruct V as [V _];
      apply negb_false_iff in V; exact V
  end.
Qed.

Lemma createShowcaseProject_slug (rt : Runtime) (db : Projects)
    (projectData : ShowcaseBody) :
  status (snd (createShowcaseProject rt db projectData)) = 201 ->
  exists doc,
    createShowcaseProject rt db projectData
    = (db ++ [doc],
       reply 201 (Some doc) (Some "Showcase project created successfully"))
    /\ slug doc = Slugify.slugify (field (s_title projectData)).
Proof.
  unfold createShowcaseProject, Showcase_insert. cbv zeta.
  destruct (showcaseSchema_validate (newShowcase rt projectData)) eqn:Hv;
    [intro H; discriminate H |].
  pose proof (project_validate_title _ Hv) as Ht. cbn [title newShowcase] in Ht.
  rewrite (title_given _ Ht).
  destruct (existsb _ db); [intro H; discriminate H |]. intros _.
  eexists. split; [reflexivity |].
  unfold pre_save. cbn [orb].
  destruct (createdAt _ <? _)%Z; cbn [slug withRecentlyAdded withSlug title newShowcase];
    apply slug_of_trimmed.
Qed.

Lemma updateShowcaseProject_slug (rt : Runtime) (db : Projects) (id : ObjectId)
    (reqBody : ShowcaseBody) (t : string) :
  s_title reqBody = Some t -> Js.truthy t = true ->
  status (snd (updateShowcaseProject rt db id reqBody)) = 200 ->
  exists p doc,
    Showcase_findById db id = Some p
    /\ updateShowcaseProject rt db id reqBody
       = (replaceDoc doc db,
          reply 200 (Some doc) (Some "Showcase project updated successfully"))
    /\ _id doc = _id p
    /\ slug doc = Slugify.slugify t.
Proof.
  intros Ht Htt. unfold updateShowcaseProject. cbv zeta.
  rewrite Ht, present_Some, Htt. cbn [field].
  destruct (validateSet _); [intro H; discriminate H |].
  unfold Showcase_findByIdAndUpdate.
  destruct (Showcase_findById db id) as [p|]; [| intro H; discriminate H].
  destruct (negb _ && existsb _ db); [intro H; discriminate H |]. intros _.
  exists p. eexists. split; [reflexivity |]. split; [reflexivity |].
  split; [reflexivity |].
  cbn [slug withUpdatedAt applySet withBodySlug s_slug].
  apply SlugifyFacts.slugify_lower.
Qed.

Lemma project_old_slug_gone (db : Projects) (p doc : IShowcase) :
  ProjectsInvariant db -> In p db -> _id doc = _id p -> slug doc <> slug p ->
  Showcase_findOne (replaceDoc doc db)
    (fun o => String.eqb (slug o) (slug p) && published o) = None.
Proof.
  intros [Hid Hslug] Hin Hsame Hne. unfold Showcase_findOne, replaceDoc.
  destruct (find _ (map _ db)) as [o'|] eqn:E; [| reflexivity].
  apply find_some in E. destruct E as [Ho' Hq].
  apply andb_true_iff in Hq. destruct Hq as [Hs _]. apply String.eqb_eq in Hs.
  apply in_map_iff in Ho'. destruct Ho' as [o [Ho Hino]].
  destruct (_id o =? _id doc) eqn:Ei.
  - subst o'. contradiction.
  - subst o'. apply Nat.eqb_neq in Ei.
    rewrite (unique_key_inj slug db o p Hslug Hino Hin Hs) in Ei. congruence.
Qed.

End ShowcaseSlugFacts.

Module ResourceSlugFacts.
Import Resource ResourceController.

Ltac split_validate H :=
  repeat match type of H with
         | (if ?c then _ else _) = None =>
             let E := fresh "V" in destruct c eqn:E; [discriminate H |]
         end.

Lemma resource_validate_title (r : IResource) :
  ResourceSchema_validate r = None -> Js.truthy (title r) = true.
Proof.
  unfold ResourceSchema_validate. intro H. split_validate H.
  apply negb_false_iff. assumption.
Qed.

Lemma createResource_slug (rt : Runtime) (db : Resources) (reqBody : ResourceBody) :
  status (snd (createResource rt db reqBody)) = 201 ->
  exists doc,
    createResource rt db reqBody
    = (db ++ [doc], reply 201 (Some doc) (Some "Resource created successfully"))
    /\ slug doc = Slugify.slugify (field (r_title reqBody)).
Proof.
  unfold createResource. cbv zeta.
  set (resourceData := if negb (Js.present (r_slug reqBody)) then _ else reqBody).
  assert (Htitle : forall u, r_title (withBodySlug u resourceData) = r_title reqBody).
  { intro u. subst resourceData.
    destruct (negb (Js.present (r_slug reqBody))); reflexivity. }
  destruct (ensureUnique _ db _ 1 _) as [unique|]; [| intro H; discriminate H].
  unfold Resource_insert.
  destruct (ResourceSchema_validate _) eqn:Hv; [intro H; discriminate H |].
  pose proof (resource_validate_title _ Hv) as Ht. cbn [title newResource] in Ht.
  rewrite Htitle in Ht. rewrite Htitle, (title_given _ Ht).
  destruct (existsb _ db); [intro H; discriminate H |]. intros _.
  eexists. split; [reflexivity |].
  unfold pre_save_slug. rewrite orb_true_r. cbn [slug withSlug title newResource].
  rewrite Htitle. apply SlugifyFacts.slugify_trim.
Qed.

End ResourceSlugFacts.




(** Resource creation with a title whose slug is taken: the loop settles on
    [introduction-to-solidity-2], the schema's [pre('save')] hook derives the
    slug from the title again, and the insert fails on the unique index. *)
Example createResource_colliding_title :
  ResourceController.ensureUnique 3 Seed.resources "introduction-to-solidity" 1
    "introduction-to-solidity"
  = Some "introduction-to-solidity-2"
  /\ ResourceController.createResource Seed.rt Seed.resources
       (Seed.resourceBody "Introduction to Solidity" None)
     = (Seed.resources, fail 500 "CREATE_ERROR" "Failed to create resource.").
Proof. split; reflexivity. Qed.

Example createResource_fresh_title :
  option_map Resource.slug
    (data (body (snd (ResourceController.createResource Seed.rt Seed.resources
                        (Seed.resourceBody "Zero-Knowledge Proofs 101" None)))))
  = Some "zero-knowledge-proofs-101".
Proof. reflexivity. Qed.

Example slugify_hello : Slugify.slugify "  Hello,  World! " = "hello-world".
Proof. reflexivity. Qed.

Example slugify_amp : Slugify.slugify "DeFi & NFTs: a-z" = "defi-and-nfts-a-z".
Proof. reflexivity. Qed.

(* ------------------------------------------------------------------------- *)
(** ** Further runs on the sample deployment *)

Example email_pattern :
  map emailRegexTest ["a@b.c"; "admin@web3economy.com"; "a@b"; "a@.c"; "@b.c"; "a b@c.d"]
  = [true; true; false; false; false; false].
Proof. reflexivity. Qed.

Example trim_and_lower : Js.trim "  Ada Lovelace " = "Ada Lovelace"
                         /\ Js.toLowerCase "Admin@Web3Economy.COM" = "admin@web3economy.com".
Proof. split; reflexivity. Qed.

(** A blog body without a slug does not pass validation. *)
Example createBlog_without_slug :
  BlogController.createBlog Seed.rt Seed.blogs
    (Blog.withBodySlug None (Seed.blogBody "A new post"))
  = (Seed.blogs, fail 500 "CREATE_ERROR" "Failed to create blog post.").
Proof. reflexivity. Qed.

(** The admin route of the blog router turns an anonymous request away. *)
Example update_needs_token :
  Routes.PUT_blogs_id (J := Transparent.jwt) Seed.env Seed.rt Seed.admins Seed.blogs
    Seed.anonymous 22 (Seed.retitle "Published now")
  = (Seed.blogs,
     inl (fail 401 "AUTH_REQUIRED"
            "Authentication required. Please provide a valid token.")).
Proof. reflexivity. Qed.

(** Without a signing secret the middleware answers 500 to any Bearer token,
    and login cannot sign. *)
Example no_secret :
  authenticateAdmin (J := Transparent.jwt) Seed.noSecret Seed.rt Seed.admins
    (Seed.bearer Seed.issued)
  = Sent (fail 500 "AUTH_ERROR" "An error occurred during authentication.")
  /\ status (snd (loginAdmin (B := Transparent.bcrypt) (J := Transparent.jwt)
                    Seed.noSecret Seed.rt Seed.admins
                    {| login_email := Some "admin@web3economy.com";
                       login_password := Some "Admin123!" |})) = 500.
Proof. split; reflexivity. Qed.

(** An empty password is stopped by the presence check, before any lookup. *)
Example login_empty_password :
  snd (loginAdmin (B := Transparent.bcrypt) (J := Transparent.jwt)
         Seed.env Seed.rt Seed.admins
         {| login_email := Some "admin@web3economy.com"; login_password := Some "" |})
  = fail 400 "MISSING_CREDENTIALS" "Email and password are required.".
Proof. reflexivity. Qed.

(** The login of the seeded administrator, and the token presented back
    within its lifetime. *)
Example login_then_authenticate :
  exists token,
    option_map (jget "token")
         (data (body (snd (loginAdmin (B := Transparent.bcrypt) (J := Transparent.jwt)
                             Seed.env Seed.rt Seed.admins
                             {| login_email := Some "admin@web3economy.com";
                                login_password := Some "Admin123!" |}))))
       = Some (Some (JStr token))
    /\ token = Seed.issued
    /\ exists req,
        authenticateAdmin (J := Transparent.jwt) Seed.env Seed.rt Seed.admins
          (Seed.bearer token) = Next req
        /\ option_map admin_id (req_admin req) = Some 1.
Proof.
  eexists. split; [reflexivity |]. split; [reflexivity |].
  eexists. split; reflexivity.
Qed.

(* ========================================================================= *)
(** * Further properties of the handlers *)

(* ------------------------------------------------------------------------- *)
(** ** Administrator accounts *)

Lemma substring_full (s : string) : String.substring 0 (String.length s) s = s.
Proof. induction s as [|c s IH]; simpl; [reflexivity | rewrite IH; reflexivity]. Qed.

Lemma bearer_token (token : string) :
  Js.substringFrom 7 ("Bearer " ++ token) = token.
Proof.
  unfold Js.substringFrom. simpl. rewrite Nat.sub_0_r. apply substring_full.
Qed.

Lemma bearer_prefix (token : string) :
  Js.startsWith ("Bearer " ++ token) "Bearer " = true.
Proof. unfold Js.startsWith. simpl. destruct token; reflexivity. Qed.

Lemma findById_map (f : IAdmin -> IAdmin) (db : Admins) (i : ObjectId) :
  (forall b, admin_id (f b) = admin_id b) ->
  Admin_findById (map f db) i = option_map f (Admin_findById db i).
Proof.
  intro Hf. unfold Admin_findById. induction db as [|b r IH]; [reflexivity |].
  simpl. rewrite Hf. destruct (admin_id b =? i); [reflexivity | exact IH].
Qed.

(** The record [Admin_save] writes for [a]. *)
Lemma save_shape (db : Admins) (rt : Runtime) (a : IAdmin) :
  AdminSchema_validate a = None ->
  exists f, Admin_save db rt a = inr (map f db)
            /\ (forall b, admin_id (f b) = admin_id b)
            /\ (forall b, admin_id b = admin_id a ->
                  f b = {| admin_id := admin_id a; email := email a;
                           passwordHash := passwordHash a; name := name a;
                           role := role a; createdAt := createdAt a;
                           updatedAt := now rt; lastLoginAt := lastLoginAt a |})
            /\ (forall b, admin_id b <> admin_id a -> f b = b).
Proof.
  intro Hv. unfold Admin_save. rewrite Hv. eexists. split; [reflexivity |].
  split; [| split]; intros b.
  - destruct (admin_id b =? admin_id a) eqn:E; [| reflexivity].
    apply Nat.eqb_eq in E. symmetry. exact E.
  - intro E. apply Nat.eqb_eq in E. rewrite E. reflexivity.
  - intro E. apply Nat.eqb_neq in E. rewrite E. reflexivity.
Qed.

(** X1: the optional middleware attaches an administrator exactly when the
    mandatory one lets the request through, and then attaches the same one;
    whenever the mandatory middleware answers the request itself (no or
    malformed header, bad or expired token, unknown administrator, missing
    secret), the optional one passes the request on unchanged. *)
Theorem optional_auth_follows_mandatory (J : JsonWebToken) (env : Env) (rt : Runtime)
    (db : Admins) (req : AuthRequest) :
  match authenticateAdmin env rt db req with
  | Next r => optionalAuth env rt db req = r
  | Sent _ => optionalAuth env rt db req = req
  end.
Proof.
  unfold authenticateAdmin, optionalAuth. cbv zeta.
  destruct (authorization req) as [h|]; [| reflexivity].
  rewrite present_Some.
  destruct (Js.truthy h); cbn [negb orb]; [| reflexivity].
  destruct (Js.startsWith h "Bearer "); cbn [negb]; [| reflexivity].
  destruct (JWT_SECRET env) as [k|]; [| reflexivity].
  rewrite present_Some.
  destruct (Js.truthy k); cbn [negb]; [| reflexivity].
  destruct (jwt_verify (Js.substringFrom 7 h) k (now rt)) as [e|c].
  - destruct (isTokenExpiredError e); [reflexivity |].
    destruct (isJsonWebTokenError e); reflexivity.
  - destruct (Admin_findById db (claim_id c)); reflexivity.
Qed.

Lemma loginAdmin_pair (B : Bcrypt) (J : JsonWebToken)
    (env : Env) (rt : Runtime) (db : Admins) (a : IAdmin) (password k : string) :
  AdminsInvariant db -> In a db ->
  JWT_SECRET env = Some k -> Js.truthy k = true ->
  Js.truthy password = true ->
  bcrypt_compare password (passwordHash a) = true ->
  loginAdmin env rt db
    {| login_email := Some (email a); login_password := Some password |}
  = (map (fun b => if admin_id b =? admin_id a then withLastLogin (now rt) a else b) db,
     reply 200
       (Some (JObj [("token", JStr (jwt_encode k (issuedClaims a (now rt))));
                    ("admin", JObj [("id", JStr (idString (admin_id a)));
                                    ("email", JStr (email a));
                                    ("name", JStr (name a));
                                    ("role", JStr (role a))])]))
       None).
Proof.
  intros Hinv Hin Hk Hkt Hp Hc.
  destruct (admins_lookup db a Hinv Hin) as [He [Hf Hv]].
  unfold loginAdmin. cbv zeta. cbn [login_email login_password].
  rewrite He, present_Some, Hp. cbn [negb orb field].
  rewrite Hf, Hc. cbn [negb]. unfold Admin_save.
  change (AdminSchema_validate _) with (AdminSchema_validate a). rewrite Hv.
  cbn [admin_id email name role].
  unfold jwt_sign. rewrite Hk, Hkt. reflexivity.
Qed.

Lemma verify_fresh (J : JsonWebToken) (token k : string) (c : Claims) (ms : Z) :
  jwt_decode token = Signed k c ->
  (clockTimestamp ms < exp c)%Z ->
  jwt_verify token k ms = inr c.
Proof.
  intros Hd He. unfold jwt_verify.
  destruct (Js.truthy token) eqn:Ht.
  - cbn [negb]. rewrite Hd, String.eqb_refl. cbn [negb].
    apply Z.leb_gt in He. rewrite He. reflexivity.
  - exfalso. unfold Js.truthy in Ht. apply negb_false_iff, String.eqb_eq in Ht.
    subst token. rewrite jwt_decode_empty in Hd. discriminate.
Qed.

(** X2: the token a successful login returns is accepted by the mandatory
    middleware for the whole of its lifetime: presented as a Bearer header
    at any time before its expiry against the collection the login left, it
    lets the request through with the administrator's record attached, as
    the login saved it (last login and update time set to the login time).
    The signing secret is configured and jsonwebtoken decodes the token it
    signed. *)
Theorem issued_token_authenticates (B : Bcrypt) (J : JsonWebToken)
    (env : Env) (rt rt' : Runtime) (db : Admins) (a : IAdmin) (password k : string) :
  AdminsInvariant db -> In a db ->
  Admin_findById db (admin_id a) = Some a ->
  JWT_SECRET env = Some k -> Js.truthy k = true ->
  Js.truthy password = true ->
  bcrypt_compare password (passwordHash a) = true ->
  jwt_decode (jwt_encode k (issuedClaims a (now rt)))
  = Signed k (issuedClaims a (now rt)) ->
  (clockTimestamp (now rt') < clockTimestamp (now rt) + 604800)%Z ->
  let out := loginAdmin env rt db
               {| login_email := Some (email a); login_password := Some password |} in
  let token := jwt_encode k (issuedClaims a (now rt)) in
  option_map (jget "token") (data (body (snd out))) = Some (Some (JStr token))
  /\ authenticateAdmin env rt' (fst out)
       {| authorization := Some ("Bearer " ++ token)%string; req_admin := None |}
     = Next {| authorization := Some ("Bearer " ++ token)%string;
               req_admin := Some (withLastLogin (now rt) a) |}.
Proof.
  intros Hinv Hin Hid Hk Hkt Hp Hc Hd Hfresh out token. subst out.
  rewrite (loginAdmin_pair B J env rt db a password k Hinv Hin Hk Hkt Hp Hc).
  cbn [fst snd]. split; [reflexivity |].
  rewrite (authenticate_bearer J env rt' _
             {| authorization := Some ("Bearer " ++ token)%string; req_admin := None |}
             ("Bearer " ++ token)%string k eq_refl (bearer_prefix token) Hk Hkt).
  cbn [authorization].
  rewrite bearer_token.
  rewrite (verify_fresh J token k (issuedClaims a (now rt)) (now rt') Hd Hfresh).
  cbn [issuedClaims claim_id].
  rewrite findById_map.
  - rewrite Hid. cbn [option_map]. rewrite Nat.eqb_refl. reflexivity.
  - intro b. destruct (admin_id b =? admin_id a) eqn:E; [| reflexivity].
    apply Nat.eqb_eq in E. symmetry. exact E.
Qed.

Lemma issued_token_authenticates_witness :
  authenticateAdmin (J := Transparent.jwt) Seed.env Seed.rt
    (fst (loginAdmin (B := Transparent.bcrypt) (J := Transparent.jwt) Seed.env Seed.rt
            Seed.admins
            {| login_email := Some "admin@web3economy.com";
               login_password := Some "Admin123!" |}))
    {| authorization := Some ("Bearer " ++ Seed.issued)%string; req_admin := None |}
  = Next {| authorization := Some ("Bearer " ++ Seed.issued)%string;
            req_admin := Some (withLastLogin (now Seed.rt) Seed.admin) |}.
Proof.
  exact (proj2 (issued_token_authenticates Transparent.bcrypt Transparent.jwt
                  Seed.env Seed.rt Seed.rt Seed.admins Seed.admin "Admin123!" "s3cret"
                  seed_invariant (or_introl eq_refl) eq_refl eq_refl eq_refl eq_refl
                  eq_refl eq_refl eq_refl)).
Defined.

Lemma map_dropWhile (f : ascii -> ascii) (p : ascii -> bool) (l : list ascii) :
  (forall c, p (f c) = p c) ->
  map f (Js.dropWhile p l) = Js.dropWhile p (map f l).
Proof.
  intro Hp. induction l as [|c r IH]; [reflexivity |].
  simpl. rewrite Hp. destruct (p c); [exact IH | reflexivity].
Qed.

Lemma map_trimEnd (f : ascii -> ascii) (l : list ascii) :
  (forall c, Js.isSpace (f c) = Js.isSpace c) ->
  map f (Js.trimEnd l) = Js.trimEnd (map f l).
Proof.
  intro Hp. induction l as [|c r IH]; [reflexivity |].
  change (Js.trimEnd (c :: r))
    with (match Js.trimEnd r with
          | [] => if Js.isSpace c then [] else [c]
          | _ => c :: Js.trimEnd r
          end).
  change (Js.trimEnd (map f (c :: r)))
    with (match Js.trimEnd (map f r) with
          | [] => if Js.isSpace (f c) then [] else [f c]
          | _ => f c :: Js.trimEnd (map f r)
          end).
  rewrite <- IH, Hp. destruct (Js.trimEnd r) as [|d t].
  - simpl. destruct (Js.isSpace c); reflexivity.
  - reflexivity.
Qed.

(** Lower-casing and trimming commute, so the two schema setters of an email
    path can run in either order. *)
Lemma toLowerCase_trim (s : string) :
  Js.toLowerCase (Js.trim s) = Js.trim (Js.toLowerCase s).
Proof.
  unfold Js.toLowerCase, Js.trim, Js.trimChars, Js.trimStart.
  rewrite !chars_str. f_equal.
  rewrite (map_trimEnd Js.lowerChar _ NewsletterFacts.lowerChar_space).
  rewrite (map_dropWhile Js.lowerChar Js.isSpace _ NewsletterFacts.lowerChar_space).
  reflexivity.
Qed.

Lemma validate_withPasswordHash (a : IAdmin) (h : string) :
  AdminSchema_validate a = None -> Js.truthy h = true ->
  AdminSchema_validate (withPasswordHash h a) = None.
Proof.
  unfold AdminSchema_validate. cbn [withPasswordHash email passwordHash name role].
  intros Hv Hh. rewrite Hh. cbn [negb].
  destruct (negb (Js.truthy (email a)) || negb (emailRegexTest (email a)));
    [discriminate Hv |].
  destruct (negb (Js.truthy (passwordHash a))); [discriminate Hv |].
  exact Hv.
Qed.

(** Replacing the document of one administrator by a valid one with the
    same id and email keeps the collection well formed. *)
Lemma replace_keeps_invariant (db : Admins) (a a' : IAdmin) (f : IAdmin -> IAdmin) :
  AdminsInvariant db -> NoDup (map admin_id db) -> In a db ->
  admin_id a' = admin_id a -> email a' = email a ->
  AdminSchema_validate a' = None ->
  (forall b, admin_id b = admin_id a -> f b = a') ->
  (forall b, admin_id b <> admin_id a -> f b = b) ->
  AdminsInvariant (map f db) /\ In a' (map f db)
  /\ (forall b, In b db -> admin_id b <> admin_id a -> In b (map f db)).
Proof.
  intros [Hnd Hall] Hids Hin Hid He Hv Hsame Hother.
  rewrite Forall_forall in Hall.
  assert (Hem : forall b, In b db -> email (f b) = email b).
  { intros b Hb. destruct (Nat.eq_dec (admin_id b) (admin_id a)) as [E|E].
    - rewrite (Hsame b E), He.
      rewrite (unique_key_inj admin_id db b a Hids Hb Hin E). reflexivity.
    - rewrite (Hother b E). reflexivity. }
  split; [split |]; [| | split].
  - rewrite map_map. rewrite (map_ext_in _ email db Hem). exact Hnd.
  - rewrite Forall_forall. intros x Hx. apply in_map_iff in Hx.
    destruct Hx as [b [<- Hb]].
    destruct (Nat.eq_dec (admin_id b) (admin_id a)) as [E|E].
    + rewrite (Hsame b E). split; [exact Hv |].
      rewrite He. exact (proj2 (Hall a Hin)).
    + rewrite (Hother b E). exact (Hall b Hb).
  - apply in_map_iff. exists a. split; [apply Hsame; reflexivity | exact Hin].
  - intros b Hb E. apply in_map_iff. exists b. split; [apply Hother, E | exact Hb].
Qed.

Lemma changePassword_ok (B : Bcrypt) (rt : Runtime) (db : Admins) (req : AuthRequest)
    (a : IAdmin) (cur new : string) :
  req_admin req = Some a ->
  AdminSchema_validate a = None ->
  Js.truthy cur = true -> Js.truthy new = true ->
  bcrypt_compare cur (passwordHash a) = true ->
  Js.truthy (bcrypt_hash new (salt rt)) = true ->
  changePassword rt db req {| currentPassword := Some cur; newPassword := Some new |}
  = (map (fun b => if admin_id b =? admin_id a
                   then withDigest (bcrypt_hash new (salt rt)) (now rt) a else b) db,
     reply 200 None (Some "Password changed successfully")).
Proof.
  intros Hreq Hv Hc Hn Hcmp Hh.
  unfold changePassword. rewrite Hreq. cbn [currentPassword newPassword].
  rewrite !present_Some, Hc, Hn. cbn [negb orb field]. rewrite Hcmp. cbn [negb].
  cbv zeta. unfold Admin_save.
  rewrite (validate_withPasswordHash a _ Hv Hh). reflexivity.
Qed.

(** X3: a password change by an authenticated administrator.  With a
    wrong current password the answer is 401 INVALID_PASSWORD and the
    collection is untouched.  With the right one the answer is 200; the
    administrator's record carries the digest of the new password and the
    update time, and is otherwise as before; no other record changes; and
    from then on a login with that email succeeds exactly with the passwords
    bcrypt accepts for the new digest. *)
Theorem change_password (B : Bcrypt) (J : JsonWebToken) (env : Env) (rt rt' : Runtime)
    (db : Admins) (req : AuthRequest) (a : IAdmin) (cur new : string) :
  AdminsInvariant db -> NoDup (map admin_id db) -> In a db ->
  req_admin req = Some a ->
  Js.truthy cur = true -> Js.truthy new = true ->
  let out := changePassword rt db req
               {| currentPassword := Some cur; newPassword := Some new |} in
  (bcrypt_compare cur (passwordHash a) = false ->
   out = (db, fail 401 "INVALID_PASSWORD" "Current password is incorrect."))
  /\ (bcrypt_compare cur (passwordHash a) = true ->
      Js.truthy (bcrypt_hash new (salt rt)) = true ->
      snd out = reply 200 None (Some "Password changed successfully")
      /\ Admin_findOne (fst out) (email a)
         = Some (withDigest (bcrypt_hash new (salt rt)) (now rt) a)
      /\ (forall b, In b db -> admin_id b <> admin_id a -> In b (fst out))
      /\ length (fst out) = length db
      /\ (forall p, Js.truthy p = true -> configured env = true ->
            status (snd (loginAdmin env rt' (fst out)
                           {| login_email := Some (email a);
                              login_password := Some p |}))
            = if bcrypt_compare p (bcrypt_hash new (salt rt)) then 200 else 401)).
Proof.
  intros Hinv Hids Hin Hreq Hc Hn out. subst out. split.
  - intro Hcmp. unfold changePassword. rewrite Hreq.
    cbn [currentPassword newPassword].
    rewrite !present_Some, Hc, Hn. cbn [negb orb field]. rewrite Hcmp. reflexivity.
  - intros Hcmp Hh.
    destruct (admins_lookup db a Hinv Hin) as [_ [_ Hv]].
    rewrite (changePassword_ok B rt db req a cur new Hreq Hv Hc Hn Hcmp Hh).
    cbn [fst snd].
    set (a' := withDigest (bcrypt_hash new (salt rt)) (now rt) a).
    set (f := fun b => if admin_id b =? admin_id a then a' else b).
    assert (Hv' : AdminSchema_validate a' = None)
      by exact (validate_withPasswordHash a _ Hv Hh).
    destruct (replace_keeps_invariant db a a' f Hinv Hids Hin eq_refl eq_refl Hv')
      as [Hinv' [Hin' Hrest]].
    { intros b E. unfold f. apply Nat.eqb_eq in E. rewrite E. reflexivity. }
    { intros b E. unfold f. apply Nat.eqb_neq in E. rewrite E. reflexivity. }
    split; [reflexivity |]. split; [| split; [exact Hrest | split]].
    + destruct (admins_lookup (map f db) a' Hinv' Hin') as [_ [Hf _]].
      destruct Hinv as [_ Hall]. rewrite Forall_forall in Hall.
      rewrite <- (proj2 (Hall a Hin)). exact Hf.
    + apply length_map.
    + intros p Hp Henv. destruct (configured_secret env Henv) as [k [Hk Hkt]].
      change (Some (email a)) with (Some (email a')).
      destruct (bcrypt_compare p (bcrypt_hash new (salt rt))) eqn:E.
      * rewrite (loginAdmin_match B J env rt' (map f db) a' p k Hinv' Hin' Hk Hkt Hp E).
        reflexivity.
      * rewrite (loginAdmin_mismatch B J env rt' (map f db) a' p Hinv' Hin' Hp E).
        reflexivity.
Qed.

Lemma change_password_witness :
  let out := changePassword (B := Transparent.bcrypt) Seed.rt Seed.admins
               {| authorization := None; req_admin := Some Seed.admin |}
               {| currentPassword := Some "Admin123!";
                  newPassword := Some "N3wPassw0rd" |} in
  status (snd out) = 200
  /\ status (snd (loginAdmin (B := Transparent.bcrypt) (J := Transparent.jwt)
                    Seed.env Seed.later (fst out)
                    {| login_email := Some "admin@web3economy.com";
                       login_password := Some "N3wPassw0rd" |})) = 200
  /\ status (snd (loginAdmin (B := Transparent.bcrypt) (J := Transparent.jwt)
                    Seed.env Seed.later (fst out)
                    {| login_email := Some "admin@web3economy.com";
                       login_password := Some "Admin123!" |})) = 401.
Proof.
  pose proof (change_password Transparent.bcrypt Transparent.jwt Seed.env Seed.rt
                Seed.later Seed.admins
                {| authorization := None; req_admin := Some Seed.admin |}
                Seed.admin "Admin123!" "N3wPassw0rd" seed_invariant) as H.
  destruct H as [_ H].
  - repeat constructor. simpl. intros [].
  - left. reflexivity.
  - reflexivity.
  - reflexivity.
  - reflexivity.
  - destruct (H eq_refl eq_refl) as [H1 [_ [_ [_ H5]]]].
    cbv zeta. split; [rewrite H1; reflexivity |]. split.
    + exact (H5 "N3wPassw0rd" eq_refl eq_refl).
    + exact (H5 "Admin123!" eq_refl eq_refl).
Defined.

Lemma authenticate_map (J : JsonWebToken) (env : Env) (rt : Runtime) (db : Admins)
    (req : AuthRequest) (f : IAdmin -> IAdmin) :
  (forall b, admin_id (f b) = admin_id b) ->
  authenticateAdmin env rt (map f db) req
  = match authenticateAdmin env rt db req with
    | Next r => Next {| authorization := authorization r;
                        req_admin := option_map f (req_admin r) |}
    | Sent s => Sent s
    end.
Proof.
  intro Hf. unfold authenticateAdmin. cbv zeta.
  destruct (negb (Js.present (authorization req))
            || negb (Js.startsWith match authorization req with
                                   | Some h => h
                                   | None => ""
                                   end "Bearer ")); [reflexivity |].
  destruct (negb (Js.present (JWT_SECRET env))); [reflexivity |].
  destruct (jwt_verify _ _ _) as [e|c].
  - destruct (isTokenExpiredError e); [reflexivity |].
    destruct (isJsonWebTokenError e); reflexivity.
  - rewrite (findById_map f db _ Hf).
    destruct (Admin_findById db (claim_id c)); reflexivity.
Qed.

Lemma changePassword_store (B : Bcrypt) (rt : Runtime) (db : Admins)
    (req : AuthRequest) (reqBody : PasswordBody) :
  exists f, fst (changePassword rt db req reqBody) = map f db
            /\ forall b, admin_id (f b) = admin_id b.
Proof.
  assert (Hid : exists f : IAdmin -> IAdmin,
             db = map f db /\ forall b, admin_id (f b) = admin_id b).
  { exists (fun b => b). split; [symmetry; apply map_id | reflexivity]. }
  unfold changePassword.
  destruct (req_admin req) as [a|]; [| exact Hid].
  destruct (negb (Js.present (currentPassword reqBody))
            || negb (Js.present (newPassword reqBody))); [exact Hid |].
  destruct (negb (bcrypt_compare _ _)); [exact Hid |].
  cbv zeta. unfold Admin_save.
  destruct (AdminSchema_validate _); [exact Hid |].
  cbn [fst]. eexists. split; [reflexivity |].
  intro b. cbn beta.
  destruct (admin_id b =? admin_id (withPasswordHash _ a)) eqn:E; [| reflexivity].
  apply Nat.eqb_eq in E. cbn [admin_id]. symmetry. exact E.
Qed.

(** X4: a password change does not end the sessions of any administrator: a
    request that the mandatory middleware lets through before the change
    (whatever its outcome) is let through after it, at the same instant and
    with the same token, for the administrator with the same id. *)
Theorem password_change_keeps_tokens (B : Bcrypt) (J : JsonWebToken) (env : Env)
    (rt rt' : Runtime) (db : Admins) (req : AuthRequest) (reqBody : PasswordBody)
    (presented : AuthRequest) (r : AuthRequest) :
  authenticateAdmin env rt' db presented = Next r ->
  exists r',
    authenticateAdmin env rt' (fst (changePassword rt db req reqBody)) presented = Next r'
    /\ authorization r' = authorization r
    /\ option_map admin_id (req_admin r') = option_map admin_id (req_admin r).
Proof.
  intro H. destruct (changePassword_store B rt db req reqBody) as [f [-> Hf]].
  rewrite (authenticate_map J env rt' db presented f Hf), H.
  eexists. split; [reflexivity |]. split; [reflexivity |].
  cbn [req_admin]. destruct (req_admin r) as [x|]; [| reflexivity].
  cbn [option_map]. rewrite Hf. reflexivity.
Qed.

Lemma password_change_keeps_tokens_witness :
  exists r',
    authenticateAdmin (J := Transparent.jwt) Seed.env Seed.rt
      (fst (changePassword (B := Transparent.bcrypt) Seed.rt Seed.admins
              {| authorization := None; req_admin := Some Seed.admin |}
              {| currentPassword := Some "Admin123!";
                 newPassword := Some "N3wPassw0rd" |}))
      (Seed.bearer Seed.issued) = Next r'
    /\ option_map admin_id (req_admin r') = Some 1.
Proof.
  destruct (password_change_keeps_tokens Transparent.bcrypt Transparent.jwt Seed.env
              Seed.rt Seed.rt Seed.admins
              {| authorization := None; req_admin := Some Seed.admin |}
              {| currentPassword := Some "Admin123!";
                 newPassword := Some "N3wPassw0rd" |}
              (Seed.bearer Seed.issued)
              {| authorization := authorization (Seed.bearer Seed.issued);
                 req_admin := Some Seed.admin |} eq_refl) as [r' [H1 [_ H3]]].
  exists r'. split; [exact H1 | exact H3].
Defined.

Lemma existsb_email_false (db : Admins) (e : string) :
  existsb (fun b => String.eqb (email b) e) db = false -> ~ In e (map email db).
Proof.
  intros H Hin. apply in_map_iff in Hin. destruct Hin as [b [He Hb]].
  assert (existsb (fun b => String.eqb (email b) e) db = true) as Ht.
  { apply existsb_exists. exists b. split; [exact Hb |].
    rewrite He. apply String.eqb_refl. }
  rewrite Ht in H. discriminate.
Qed.

Lemma NoDup_snoc {A : Type} (l : list A) (x : A) :
  NoDup l -> ~ In x l -> NoDup (l ++ [x]).
Proof.
  intros Hnd Hx. induction l as [|y r IH]; simpl.
  - constructor; [intros [] | constructor].
  - inversion Hnd as [|z zs Hy Hr]; subst. constructor.
    + intro Hin. apply in_app_or in Hin. destruct Hin as [Hin | [-> | []]].
      * exact (Hy Hin).
      * apply Hx. left. reflexivity.
    + apply IH; [exact Hr |]. intro Hin. apply Hx. right. exact Hin.
Qed.

(** X5: registration followed by login.  When a registration is answered
    201, exactly one record is appended: its email is the request's email
    lower-cased and trimmed, its role the requested one or [admin] when none
    is given; the collection stays well formed (unique, valid, lower-case
    emails); and a login with the stored email and the registered password is
    answered 200 with that role.  The signing secret is configured and
    bcrypt accepts a password for its own digest. *)
Theorem registered_admin_can_login (B : Bcrypt) (J : JsonWebToken) (env : Env)
    (rt rt' : Runtime) (db : Admins) (reqBody : RegisterBody) :
  AdminsInvariant db -> configured env = true ->
  status (snd (registerAdmin rt db reqBody)) = 201 ->
  bcrypt_compare (field (reg_password reqBody))
    (bcrypt_hash (field (reg_password reqBody)) (salt rt)) = true ->
  exists a,
    fst (registerAdmin rt db reqBody) = db ++ [a]
    /\ email a = Js.trim (Js.toLowerCase (field (reg_email reqBody)))
    /\ role a = orElse (reg_role reqBody) "admin"
    /\ AdminsInvariant (db ++ [a])
    /\ let r := snd (loginAdmin env rt' (db ++ [a])
                       {| login_email := Some (email a);
                          login_password := reg_password reqBody |}) in
       status r = 200
       /\ option_map (jpath "admin" "role") (data (body r))
          = Some (Some (JStr (role a))).
Proof.
  intros Hinv Henv Hst Hcmp. revert Hst. unfold registerAdmin. cbv zeta.
  destruct (negb (Js.present (reg_email reqBody))
            || negb (Js.present (reg_password reqBody))
            || negb (Js.present (reg_name reqBody))) eqn:Hpres;
    [discriminate |].
  destruct (Admin_findOne db _); [discriminate |].
  set (a := newAdmin rt (Js.toLowerCase (field (reg_email reqBody)))
              (bcrypt_hash (field (reg_password reqBody)) (salt rt))
              (field (reg_name reqBody)) (orElse (reg_role reqBody) "admin")).
  unfold Admin_insert. destruct (AdminSchema_validate a) eqn:Hv; [discriminate |].
  destruct (existsb (fun b => String.eqb (email b) (email a)) db) eqn:Hex;
    [discriminate |].
  intros _. cbn [fst snd]. exists a.
  assert (Hemail : email a = Js.trim (Js.toLowerCase (field (reg_email reqBody)))).
  { unfold a, newAdmin. cbn [email]. rewrite toLowerCase_idem. reflexivity. }
  assert (Hinv' : AdminsInvariant (db ++ [a])).
  { destruct Hinv as [Hnd Hall]. split.
    - rewrite map_app. apply NoDup_snoc; [exact Hnd |].
      apply existsb_email_false, Hex.
    - apply Forall_app. split; [exact Hall |]. constructor; [| constructor].
      split; [exact Hv |].
      rewrite Hemail, toLowerCase_trim, toLowerCase_idem. reflexivity. }
  split; [reflexivity |]. split; [exact Hemail |]. split; [reflexivity |].
  split; [exact Hinv' |].
  apply orb_false_iff in Hpres. destruct Hpres as [Hpres _].
  apply orb_false_iff in Hpres. destruct Hpres as [_ Hpw].
  apply negb_false_iff in Hpw.
  destruct (reg_password reqBody) as [p|]; [| discriminate Hpw].
  cbn [field] in Hcmp. rewrite present_Some in Hpw.
  destruct (configured_secret env Henv) as [k [Hk Hkt]].
  assert (Hin : In a (db ++ [a])) by (apply in_or_app; right; left; reflexivity).
  cbv zeta.
  rewrite (loginAdmin_match B J env rt' (db ++ [a]) a p k Hinv' Hin Hk Hkt Hpw Hcmp).
  split; reflexivity.
Qed.

Lemma registered_admin_can_login_witness :
  let reqBody := {| reg_email := Some "Eve@Web3Economy.com";
                    reg_password := Some "Passw0rdX";
                    reg_name := Some " Eve ";
                    reg_role := None |} in
  let out := registerAdmin (B := Transparent.bcrypt) Seed.rt Seed.admins reqBody in
  status (snd out) = 201
  /\ map email (fst out) = ["admin@web3economy.com"; "eve@web3economy.com"]
  /\ status (snd (loginAdmin (B := Transparent.bcrypt) (J := Transparent.jwt)
                    Seed.env Seed.later (fst out)
                    {| login_email := Some "eve@web3economy.com";
                       login_password := Some "Passw0rdX" |})) = 200.
Proof.
  destruct (registered_admin_can_login Transparent.bcrypt Transparent.jwt Seed.env
              Seed.rt Seed.later Seed.admins
              {| reg_email := Some "Eve@Web3Economy.com";
                 reg_password := Some "Passw0rdX";
                 reg_name := Some " Eve ";
                 reg_role := None |}
              seed_invariant eq_refl eq_refl eq_refl)
    as [a [Hdb [He [_ [_ Hlogin]]]]].
  cbv zeta. split; [reflexivity |]. split; [reflexivity |].
  rewrite Hdb. cbv zeta in Hlogin.
  replace (email a) with "eve@web3economy.com" in Hlogin by (rewrite He; reflexivity).
  exact (proj1 Hlogin).
Defined.

(* ------------------------------------------------------------------------- *)
(** ** Sorted cursors and grouped counts *)

Lemma insertBy_perm {A : Type} (before : A -> A -> bool) (x : A) (l : list A) :
  Permutation (insertBy before x l) (x :: l).
Proof.
  induction l as [|y r IH]; simpl; [apply Permutation_refl |].
  destruct (before y x).
  - apply perm_trans with (y :: x :: r); [apply perm_skip, IH | apply perm_swap].
  - apply Permutation_refl.
Qed.

Lemma sortBy_perm {A : Type} (before : A -> A -> bool) (l : list A) :
  Permutation (sortBy before l) l.
Proof.
  induction l as [|x r IH]; simpl; [apply perm_nil |].
  apply perm_trans with (x :: sortBy before r);
    [apply insertBy_perm | apply perm_skip, IH].
Qed.

Lemma sortBy_In {A : Type} (before : A -> A -> bool) (l : list A) (x : A) :
  In x (sortBy before l) <-> In x l.
Proof.
  split; apply Permutation_in; [| apply Permutation_sym]; apply sortBy_perm.
Qed.

(** Documents in non-increasing order of a key. *)
Lemma insertBy_sorted {A : Type} (key : A -> Z) (x : A) (l : list A) :
  StronglySorted (fun a b => (key b <= key a)%Z) l ->
  StronglySorted (fun a b => (key b <= key a)%Z) (insertBy (descending key) x l).
Proof.
  induction l as [|y r IH]; intro Hs; simpl.
  - constructor; constructor.
  - inversion Hs as [|y' r' Hr Hy]; subst. unfold descending at 1.
    destruct (key x <? key y)%Z eqn:E.
    + apply Z.ltb_lt in E. constructor; [apply IH, Hr |].
      apply (Permutation_Forall (Permutation_sym (insertBy_perm _ x r))).
      constructor; [lia | exact Hy].
    + apply Z.ltb_ge in E. constructor; [exact Hs |].
      constructor; [exact E |].
      rewrite Forall_forall in Hy |- *. intros z Hz. specialize (Hy z Hz). lia.
Qed.

Lemma sortBy_sorted {A : Type} (key : A -> Z) (l : list A) :
  StronglySorted (fun a b => (key b <= key a)%Z) (sortBy (descending key) l).
Proof.
  induction l as [|x r IH]; simpl; [constructor | apply insertBy_sorted, IH].
Qed.

(** [findOne(query).sort({ key: -1 })] returns a match with the largest key,
    and nothing exactly when nothing matches. *)
Lemma findOneSorted_spec {A : Type} (key : A -> Z) (query : A -> bool) (l : list A) :
  match findOneSorted (descending key) query l with
  | Some b => In b l /\ query b = true
              /\ forall c, In c l -> query c = true -> (key c <= key b)%Z
  | None => forall c, In c l -> query c = false
  end.
Proof.
  unfold findOneSorted.
  pose proof (sortBy_sorted key (filter query l)) as Hs.
  pose proof (sortBy_In (descending key) (filter query l)) as Hin.
  destruct (sortBy (descending key) (filter query l)) as [|b r]; simpl.
  - intros c Hc. destruct (query c) eqn:E; [| reflexivity].
    exfalso. apply (proj2 (Hin c)). apply filter_In. split; assumption.
  - assert (Hb : In b (filter query l)) by (apply Hin; left; reflexivity).
    apply filter_In in Hb. destruct Hb as [Hb Hq].
    split; [exact Hb |]. split; [exact Hq |].
    intros c Hc Hqc.
    assert (Hc' : In c (b :: r)) by (apply Hin, filter_In; split; assumption).
    destruct Hc' as [<- | Hc']; [lia |].
    inversion Hs as [|b' r' _ Hall]; subst.
    rewrite Forall_forall in Hall. apply Hall, Hc'.
Qed.

(** In a sorted list, what a cut keeps is no smaller than what it leaves. *)
Lemma sorted_cut {A : Type} (key : A -> Z) (n : nat) (l : list A) (x y : A) :
  StronglySorted (fun a b => (key b <= key a)%Z) l ->
  In x (firstn n l) -> In y (skipn n l) -> (key y <= key x)%Z.
Proof.
  revert l. induction n as [|n IH]; intros l Hs Hx Hy; [contradiction |].
  destruct l as [|z r]; [contradiction |].
  inversion Hs as [|z' r' Hr Hz]; subst. simpl in Hx, Hy.
  destruct Hx as [<- | Hx].
  - rewrite Forall_forall in Hz. apply Hz.
    rewrite <- (firstn_skipn n r). apply in_or_app. right. exact Hy.
  - apply (IH r Hr Hx Hy).
Qed.

Lemma firstn_In {A : Type} (n : nat) (l : list A) (x : A) :
  In x (firstn n l) -> In x l.
Proof.
  intro H. rewrite <- (firstn_skipn n l). apply in_or_app. left. exact H.
Qed.

Lemma sorted_firstn {A : Type} (R : A -> A -> Prop) (n : nat) (l : list A) :
  StronglySorted R l -> StronglySorted R (firstn n l).
Proof.
  revert l. induction n as [|n IH]; intros l Hs; [constructor |].
  destruct l as [|z r]; [constructor |].
  inversion Hs as [|z' r' Hr Hz]; subst. simpl. constructor; [apply IH, Hr |].
  rewrite Forall_forall in Hz |- *. intros w Hw. apply Hz.
  rewrite <- (firstn_skipn n r). apply in_or_app. left. exact Hw.
Qed.

Lemma sorted_map {A B : Type} (f : A -> B) (R : B -> B -> Prop) (l : list A) :
  StronglySorted (fun a b => R (f a) (f b)) l -> StronglySorted R (map f l).
Proof.
  induction 1 as [|x r _ IH Hx]; simpl; constructor; [exact IH |].
  rewrite Forall_forall in Hx |- *. intros y Hy. apply in_map_iff in Hy.
  destruct Hy as [z [<- Hz]]. apply Hx, Hz.
Qed.

Lemma sumZ_perm (l l' : list Z) : Permutation l l' -> sumZ l = sumZ l'.
Proof.
  unfold sumZ. induction 1; simpl; try lia.
Qed.

Lemma occurrences_cons (k x : string) (l : list string) :
  occurrences k (x :: l)
  = ((if String.eqb k x then 1 else 0) + occurrences k l)%Z.
Proof.
  unfold occurrences. simpl. destruct (String.eqb k x); simpl length; lia.
Qed.

Lemma occurrences_pos (k : string) (l : list string) :
  In k l <-> (0 < occurrences k l)%Z.
Proof.
  induction l as [|x r IH].
  - unfold occurrences. simpl. split; [contradiction | lia].
  - rewrite occurrences_cons. split.
    + intros [-> | Hin].
      * rewrite String.eqb_refl. unfold occurrences. lia.
      * apply IH in Hin. destruct (String.eqb k x); lia.
    + intro H. destruct (String.eqb k x) eqn:E.
      * left. apply String.eqb_eq in E. symmetry. exact E.
      * right. apply IH. lia.
Qed.

(** The counts of the keys in a duplicate-free list that covers [l] add up
    to the length of [l]. *)
Lemma occurrences_sum (ks l : list string) :
  NoDup ks -> incl l ks ->
  sumZ (map (fun k => occurrences k l) ks) = Z.of_nat (length l).
Proof.
  intro Hnd. induction l as [|x r IH]; intro Hincl.
  - clear Hnd Hincl. induction ks as [|k ks' IHk]; [reflexivity |].
    unfold sumZ, occurrences in *. simpl in *. exact IHk.
  - assert (Hx : In x ks) by (apply Hincl; left; reflexivity).
    assert (Hr : incl r ks) by (intros y Hy; apply Hincl; right; exact Hy).
    specialize (IH Hr).
    assert (Hstep : forall ks', NoDup ks' ->
              sumZ (map (fun k => occurrences k (x :: r)) ks')
              = ((if in_dec string_dec x ks' then 1 else 0)
                 + sumZ (map (fun k => occurrences k r) ks'))%Z).
    { clear. intros ks' Hnd'. induction ks' as [|k ks'' IHk]; [reflexivity |].
      inversion Hnd' as [|k' ks3 Hk Hnd'']; subst.
      assert (Hone : ((if String.eqb k x then 1 else 0)
                      + (if in_dec string_dec x ks'' then 1 else 0)
                      = if in_dec string_dec x (k :: ks'') then 1 else 0)%Z).
      { destruct (String.eqb k x) eqn:E.
        - apply String.eqb_eq in E. subst x.
          destruct (in_dec string_dec k ks'') as [Hin|_]; [contradiction |].
          destruct (in_dec string_dec k (k :: ks'')) as [_|Hout]; [reflexivity |].
          exfalso. apply Hout. left. reflexivity.
        - apply String.eqb_neq in E.
          destruct (in_dec string_dec x ks'') as [Hin|Hout];
            destruct (in_dec string_dec x (k :: ks'')) as [Hin'|Hout'].
          + reflexivity.
          + exfalso. apply Hout'. right. exact Hin.
          + exfalso. destruct Hin' as [Heq | Hin']; [exact (E Heq) | exact (Hout Hin')].
          + reflexivity. }
      unfold sumZ in *. simpl map. simpl fold_right.
      rewrite (IHk Hnd''), occurrences_cons. lia. }
    rewrite (Hstep ks Hnd), IH.
    destruct (in_dec string_dec x ks); [| contradiction].
    simpl length. lia.
Qed.

Lemma groupCount_keys (l : list string) :
  map fst (groupCount l) = nodup string_dec l.
Proof.
  unfold groupCount. rewrite map_map. simpl. apply map_id.
Qed.

Lemma groupCount_In (l : list string) (g : string * Z) :
  In g (groupCount l) ->
  snd g = occurrences (fst g) l /\ In (fst g) l /\ (0 < snd g)%Z.
Proof.
  unfold groupCount. intro H. apply in_map_iff in H. destruct H as [k [<- Hk]].
  simpl. apply nodup_In in Hk. split; [reflexivity |]. split; [exact Hk |].
  apply occurrences_pos, Hk.
Qed.

Lemma groupCount_sum (l : list string) :
  sumZ (map snd (groupCount l)) = Z.of_nat (length l).
Proof.
  unfold groupCount. rewrite map_map. simpl.
  apply occurrences_sum; [apply NoDup_nodup |].
  intros x Hx. apply nodup_In, Hx.
Qed.

Lemma occurrences_map {A : Type} (f : A -> string) (k : string) (l : list A) :
  occurrences k (map f l) = Z.of_nat (length (filter (fun a => String.eqb k (f a)) l)).
Proof.
  unfold occurrences. f_equal. induction l as [|a r IH]; [reflexivity |].
  simpl. destruct (String.eqb k (f a)); simpl; rewrite IH; reflexivity.
Qed.

Lemma filter_filter {A : Type} (p q : A -> bool) (l : list A) :
  filter p (filter q l) = filter (fun a => q a && p a) l.
Proof.
  induction l as [|a r IH]; [reflexivity |].
  simpl. destruct (q a); simpl; [destruct (p a) |]; rewrite IH; reflexivity.
Qed.

(* ------------------------------------------------------------------------- *)
(** ** Blog queries *)

Section BlogQueries.
Import Blog BlogController.

(** X6: the featured-post endpoint.  It answers 404 exactly when the
    collection holds no published post, and 200 with a post otherwise.  The
    post it returns is published; it is featured whenever some published post
    is; and among the candidates (the published featured posts if there are
    any, all published posts if not) none has a later publication date. *)
Theorem featured_blog (db : Blogs) :
  let r := getFeaturedBlog db in
  (status r = 404 <-> forall b, In b db -> published b = false)
  /\ (status r = 200 <-> exists b, data (body r) = Some b)
  /\ (status r = 404 \/ status r = 200)
  /\ forall b, data (body r) = Some b ->
       In b db /\ published b = true
       /\ ((exists c, In c db /\ published c = true /\ featured c = true) ->
           featured b = true)
       /\ (forall c, In c db -> published c = true ->
             featured c = true \/ featured b = false ->
             (publishedDate c <= publishedDate b)%Z).
Proof.
  cbv zeta. unfold getFeaturedBlog.
  pose proof (findOneSorted_spec publishedDate (fun b => featured b && published b) db)
    as HF.
  pose proof (findOneSorted_spec publishedDate published db) as HP.
  destruct (findOneSorted (descending publishedDate)
              (fun b => featured b && published b) db) as [f|].
  - destruct HF as [Hin [Hq Hmax]]. apply andb_true_iff in Hq. destruct Hq as [Hf Hp].
    cbn [status body data reply]. split; [| split; [| split]].
    + split; [discriminate |]. intro Hall. rewrite (Hall f Hin) in Hp. discriminate.
    + split; [intros _; exists f; reflexivity | reflexivity].
    + right. reflexivity.
    + intros b Hb. injection Hb as <-.
      split; [exact Hin |]. split; [exact Hp |]. split; [intros _; exact Hf |].
      intros c Hc Hpc [Hfc | Hnf]; [| rewrite Hf in Hnf; discriminate].
      apply Hmax; [exact Hc |]. rewrite Hfc, Hpc. reflexivity.
  - destruct (findOneSorted (descending publishedDate) published db) as [p|].
    + destruct HP as [Hin [Hp Hmax]].
      cbn [status body data reply]. split; [| split; [| split]].
      * split; [discriminate |]. intro Hall. rewrite (Hall p Hin) in Hp. discriminate.
      * split; [intros _; exists p; reflexivity | reflexivity].
      * right. reflexivity.
      * intros b Hb. injection Hb as <-.
        split; [exact Hin |]. split; [exact Hp |]. split.
        -- intros [c [Hc [Hpc Hfc]]]. specialize (HF c Hc).
           rewrite Hfc, Hpc in HF. discriminate.
        -- intros c Hc Hpc _. apply Hmax; assumption.
    + cbn [status body data fail]. split; [| split; [| split]].
      * split; [intros _; exact HP | reflexivity].
      * split; [discriminate | intros [b Hb]; discriminate].
      * left. reflexivity.
      * intros b Hb. discriminate.
Qed.

Lemma relatedQuery_iff (current b : IBlog) :
  relatedQuery current b = true
  <-> _id b <> _id current /\ published b = true
      /\ (category b = category current
          \/ exists t, In t (tags b) /\ In t (tags current)).
Proof.
  unfold relatedQuery. rewrite !andb_true_iff, negb_true_iff, Nat.eqb_neq, orb_true_iff.
  rewrite String.eqb_eq, existsb_exists.
  split.
  - intros [[Hid Hp] [Hc | [t [Ht Hex]]]]; (split; [exact Hid |]; split; [exact Hp |]).
    + left. exact Hc.
    + right. apply existsb_exists in Hex. destruct Hex as [u [Hu E]].
      apply String.eqb_eq in E. subst u. exists t. split; assumption.
  - intros [Hid [Hp [Hc | [t [Ht Hu]]]]]; (split; [split; assumption |]).
    + left. exact Hc.
    + right. exists t. split; [exact Ht |]. apply existsb_exists.
      exists t. split; [exact Hu | apply String.eqb_refl].
Qed.

(** X7: the related-posts endpoint, for a slug that resolves to a post
    (published or not).  It answers 200 with the projections of at most
    [|limit|] posts, three when the parameter is absent, no number or zero.
    Each is a stored post other than the current one, published, and shares
    the current post's category or one of its tags; they come in
    non-increasing order of publication date; and a matching post that is
    left out is no newer than any post returned. *)
Theorem related_blogs (db : Blogs) (slug_ : string) (limitParam : option Z)
    (current : IBlog) :
  Blog_findOne db (fun b => String.eqb (slug b) slug_) = Some current ->
  let bound := match limitParam with
               | Some n => if (n =? 0)%Z then 3%Z else Z.abs n
               | None => 3%Z
               end in
  exists found,
    getRelatedBlogs db slug_ limitParam = reply 200 (Some (map selectRelated found)) None
    /\ (Z.of_nat (length found) <= bound)%Z
    /\ (forall b, In b found ->
          In b db /\ _id b <> _id current /\ published b = true
          /\ (category b = category current
              \/ exists t, In t (tags b) /\ In t (tags current)))
    /\ StronglySorted (fun a b => (publishedDate b <= publishedDate a)%Z) found
    /\ (forall c b, In c db -> _id c <> _id current -> published c = true ->
          (category c = category current
           \/ exists t, In t (tags c) /\ In t (tags current)) ->
          ~ In c found -> In b found ->
          (publishedDate c <= publishedDate b)%Z).
Proof.
  intros Hcur bound. unfold getRelatedBlogs. cbv zeta. rewrite Hcur.
  set (limit_ := match limitParam with
                 | Some n => if (n =? 0)%Z then 3%Z else n
                 | None => 3%Z
                 end).
  assert (Hl : limit_ <> 0%Z /\ Z.abs limit_ = bound).
  { unfold limit_, bound. destruct limitParam as [n|]; [| split; [lia | reflexivity]].
    destruct (n =? 0)%Z eqn:E; [split; [lia | reflexivity] |].
    apply Z.eqb_neq in E. split; [exact E | reflexivity]. }
  destruct Hl as [Hnz Habs].
  set (matches := sortBy (descending publishedDate) (filter (relatedQuery current) db)).
  assert (Hcut : cursorLimit limit_ matches = firstn (Z.to_nat bound) matches).
  { unfold cursorLimit. apply Z.eqb_neq in Hnz. rewrite Hnz, Habs. reflexivity. }
  rewrite Hcut. exists (firstn (Z.to_nat bound) matches).
  assert (Hbound : (0 <= bound)%Z) by (rewrite <- Habs; apply Z.abs_nonneg).
  assert (Hsorted : StronglySorted (fun a b => (publishedDate b <= publishedDate a)%Z)
                      matches) by apply sortBy_sorted.
  assert (Hmem : forall b, In b matches <-> In b db /\ relatedQuery current b = true).
  { intro b. unfold matches. rewrite sortBy_In. apply filter_In. }
  split; [reflexivity |]. split; [| split; [| split]].
  - pose proof (firstn_le_length (Z.to_nat bound) matches) as H1.
    rewrite length_firstn. lia.
  - intros b Hb. apply firstn_In, Hmem in Hb. destruct Hb as [Hb Hq].
    split; [exact Hb |]. apply relatedQuery_iff, Hq.
  - apply sorted_firstn, Hsorted.
  - intros c b Hc Hid Hp Hrel Hout Hb.
    assert (Hcm : In c matches).
    { apply Hmem. split; [exact Hc |]. apply relatedQuery_iff. auto. }
    rewrite <- (firstn_skipn (Z.to_nat bound) matches) in Hcm.
    apply in_app_or in Hcm. destruct Hcm as [Hcm | Hcm]; [contradiction |].
    apply (sorted_cut publishedDate (Z.to_nat bound) matches b c Hsorted Hb Hcm).
Qed.

Lemma related_blogs_witness :
  exists found,
    getRelatedBlogs Seed.blogs "work-in-progress" None
    = reply 200 (Some (map selectRelated found)) None
    /\ (Z.of_nat (length found) <= 3)%Z
    /\ forall b, In b found -> published b = true /\ _id b <> 22.
Proof.
  destruct (related_blogs Seed.blogs "work-in-progress" None Seed.draft eq_refl)
    as [found [H1 [H2 [H3 _]]]].
  exists found. split; [exact H1 |]. split; [exact H2 |].
  intros b Hb. destruct (H3 b Hb) as [_ [Hid [Hp _]]]. split; [exact Hp | exact Hid].
Defined.

(** X8: the category counts.  The answer is 200 with the entry [all] first,
    whose count is the number of published posts and equals the sum of the
    counts of the entries behind it.  Those entries name each category of a
    published post exactly once, with the number of published posts in it
    (never zero) and the id derived from the name, in non-increasing order of
    count. *)
Theorem blog_categories (db : Blogs) :
  exists cats,
    getBlogCategories db
    = reply 200
        (Some ({| cat_id := "all"; cat_name := "All Posts";
                  cat_count := countDocuments published db |} :: cats))
        None
    /\ sumZ (map cat_count cats) = countDocuments published db
    /\ NoDup (map cat_name cats)
    /\ (forall b, In b db -> published b = true -> In (category b) (map cat_name cats))
    /\ (forall c, In c cats ->
          cat_count c
          = countDocuments (fun b => published b && String.eqb (cat_name c) (category b)) db
          /\ (0 < cat_count c)%Z
          /\ cat_id c = categoryId (cat_name c))
    /\ StronglySorted (fun a b => (cat_count b <= cat_count a)%Z) cats.
Proof.
  unfold getBlogCategories. cbv zeta.
  set (keys := map category (filter published db)).
  set (groups := sortBy (descending (@snd string Z)) (groupCount keys)).
  set (fmt := fun cat : string * Z =>
                {| cat_id := categoryId (fst cat); cat_name := fst cat;
                   cat_count := snd cat |}).
  assert (Hperm : Permutation groups (groupCount keys)) by apply sortBy_perm.
  exists (map fmt groups). split; [reflexivity |].
  split; [| split; [| split; [| split]]].
  - rewrite map_map. change (fun x => cat_count (fmt x)) with (@snd string Z).
    rewrite (sumZ_perm _ _ (Permutation_map snd Hperm)), groupCount_sum.
    unfold keys, countDocuments. rewrite length_map. reflexivity.
  - rewrite map_map. change (fun x => cat_name (fmt x)) with (@fst string Z).
    apply (Permutation_NoDup (Permutation_sym (Permutation_map fst Hperm))).
    rewrite groupCount_keys. apply NoDup_nodup.
  - intros b Hb Hp. rewrite map_map.
    change (fun x => cat_name (fmt x)) with (@fst string Z).
    apply (Permutation_in _ (Permutation_sym (Permutation_map fst Hperm))).
    rewrite groupCount_keys. apply nodup_In. unfold keys. apply in_map.
    apply filter_In. split; assumption.
  - intros c Hc. apply in_map_iff in Hc. destruct Hc as [g [<- Hg]].
    apply (Permutation_in _ Hperm) in Hg.
    destruct (groupCount_In keys g Hg) as [Hn [_ Hpos]].
    cbn [fmt cat_count cat_name cat_id]. split; [| split; [exact Hpos | reflexivity]].
    rewrite Hn. unfold keys. rewrite occurrences_map, filter_filter. reflexivity.
  - apply sorted_map. apply (sortBy_sorted (@snd string Z)).
Qed.

(** X9: the trending topics.  The answer is 200 with at most ten topics.
    Each is a tag of some published post, listed once, with the number of
    times it occurs in the tag lists of the published posts; topics come in
    non-increasing order of that number, and a tag that is left out occurs no
    more often than any topic listed. *)
Theorem trending_topics (db : Blogs) :
  let occurring := flat_map tags (filter published db) in
  exists topics,
    getTrendingTopics db = reply 200 (Some topics) None
    /\ length topics <= 10
    /\ NoDup (map topic_name topics)
    /\ (forall t, In t topics ->
          topic_posts t = occurrences (topic_name t) occurring
          /\ (0 < topic_posts t)%Z
          /\ exists b, In b db /\ published b = true /\ In (topic_name t) (tags b))
    /\ StronglySorted (fun a b => (topic_posts b <= topic_posts a)%Z) topics
    /\ (forall k t, In k occurring -> ~ In k (map topic_name topics) -> In t topics ->
          (occurrences k occurring <= topic_posts t)%Z).
Proof.
  cbv zeta. unfold getTrendingTopics. cbv zeta.
  set (occurring := flat_map tags (filter published db)).
  set (groups := sortBy (descending (@snd string Z)) (groupCount occurring)).
  set (fmt := fun g : string * Z => {| topic_name := fst g; topic_posts := snd g |}).
  assert (Hperm : Permutation groups (groupCount occurring)) by apply sortBy_perm.
  assert (Hsorted : StronglySorted (fun a b : string * Z => (snd b <= snd a)%Z) groups)
    by apply (sortBy_sorted (@snd string Z)).
  assert (Hnd : NoDup (map fst groups)).
  { apply (Permutation_NoDup (Permutation_sym (Permutation_map fst Hperm))).
    rewrite groupCount_keys. apply NoDup_nodup. }
  exists (map fmt (firstn 10 groups)). split; [reflexivity |].
  split; [| split; [| split; [| split]]].
  - rewrite length_map. apply firstn_le_length.
  - rewrite map_map. change (fun x => topic_name (fmt x)) with (@fst string Z).
    rewrite <- (firstn_skipn 10 groups), map_app in Hnd.
    apply NoDup_app_remove_r in Hnd. exact Hnd.
  - intros t Ht. apply in_map_iff in Ht. destruct Ht as [g [<- Hg]].
    apply firstn_In in Hg. apply (Permutation_in _ Hperm) in Hg.
    destruct (groupCount_In occurring g Hg) as [Hn [Hin Hpos]].
    cbn [fmt topic_name topic_posts]. split; [exact Hn |]. split; [exact Hpos |].
    unfold occurring in Hin. apply in_flat_map in Hin. destruct Hin as [b [Hb Ht]].
    apply filter_In in Hb. destruct Hb as [Hb Hp]. exists b. auto.
  - apply sorted_map. apply sorted_firstn. exact Hsorted.
  - intros k t Hk Hout Ht. apply in_map_iff in Ht. destruct Ht as [g [<- Hg]].
    cbn [fmt topic_posts].
    assert (Hkg : In (k, occurrences k occurring) groups).
    { apply (Permutation_in _ (Permutation_sym Hperm)). unfold groupCount.
      apply in_map_iff. exists k. split; [reflexivity |]. apply nodup_In, Hk. }
    rewrite <- (firstn_skipn 10 groups) in Hkg. apply in_app_or in Hkg.
    destruct Hkg as [Hkg | Hkg].
    + exfalso. apply Hout. rewrite map_map.
      change (fun x => topic_name (fmt x)) with (@fst string Z).
      apply (in_map fst) in Hkg. exact Hkg.
    + apply (sorted_cut (@snd string Z) 10 groups g _ Hsorted Hg Hkg).
Qed.

End BlogQueries.

(* ------------------------------------------------------------------------- *)
(** ** Blog writes: delete, counters, create *)

Section BlogWrites.
Import Blog BlogController.

Lemma blog_found_id (db : Blogs) (id : ObjectId) (b : IBlog) :
  Blog_findById db id = Some b -> _id b = id /\ In b db.
Proof.
  unfold Blog_findById. intro H. apply find_some in H. destruct H as [Hin E].
  apply Nat.eqb_eq in E. split; assumption.
Qed.

Lemma deleteOne_other (db : Blogs) (id id' : ObjectId) :
  id' <> id ->
  Blog_findById (deleteOne (fun o => _id o =? id) db) id' = Blog_findById db id'.
Proof.
  intro Hne. unfold Blog_findById. induction db as [|x r IH]; [reflexivity |].
  simpl. destruct (_id x =? id) eqn:E.
  - apply Nat.eqb_eq in E. destruct (_id x =? id') eqn:E'; [| reflexivity].
    apply Nat.eqb_eq in E'. congruence.
  - simpl. rewrite IH. reflexivity.
Qed.

Lemma deleteOne_spec (db : Blogs) (id : ObjectId) (b : IBlog) :
  NoDup (map _id db) -> Blog_findById db id = Some b ->
  Blog_findById (deleteOne (fun o => _id o =? id) db) id = None
  /\ (forall c, In c (deleteOne (fun o => _id o =? id) db) <-> In c db /\ c <> b)
  /\ S (length (deleteOne (fun o => _id o =? id) db)) = length db.
Proof.
  unfold Blog_findById. induction db as [|x r IH]; intros Hnd Hf; [discriminate |].
  simpl in Hnd. inversion Hnd as [|i ids Hx Hr]; subst.
  simpl in Hf |- *. destruct (_id x =? id) eqn:E.
  - injection Hf as <-. apply Nat.eqb_eq in E. split; [| split].
    + apply find_none_id. rewrite <- E. exact Hx.
    + intro c. split.
      * intro Hc. split; [right; exact Hc |]. intros ->. apply Hx, in_map, Hc.
      * intros [[<- | Hc] Hne]; [contradiction | exact Hc].
    + reflexivity.
  - destruct (IH Hr Hf) as [H1 [H2 H3]]. simpl. rewrite E. split; [exact H1 |]. split.
    + intro c. split.
      * intros [<- | Hc].
        -- split; [left; reflexivity |]. intros ->.
           apply find_some in Hf. destruct Hf as [_ Hid]. rewrite Hid in E. discriminate.
        -- apply H2 in Hc. destruct Hc as [Hc Hne]. split; [right; exact Hc | exact Hne].
      * intros [[<- | Hc] Hne]; [left; reflexivity |]. right. apply H2. auto.
    + rewrite H3. reflexivity.
Qed.

(** X10: deleting a blog post.  For an id with no document the answer is 404
    and the collection is untouched.  For the id of a stored post the answer
    is 200; afterwards the post is gone (a fetch by its id answers 404 and so
    does a second delete), every other post is still stored and resolves by
    its id as before, and the collection is one document shorter. *)
Theorem delete_blog (db : Blogs) (id : ObjectId) :
  NoDup (map _id db) ->
  let out := deleteBlog db id in
  match Blog_findById db id with
  | None => out = (db, fail 404 "NOT_FOUND" "Blog post not found.")
  | Some b =>
      snd out = reply 200 None (Some "Blog post deleted successfully")
      /\ status (getBlogById (fst out) id) = 404
      /\ deleteBlog (fst out) id
         = (fst out, fail 404 "NOT_FOUND" "Blog post not found.")
      /\ (forall id', id' <> id -> getBlogById (fst out) id' = getBlogById db id')
      /\ (forall c, In c (fst out) <-> In c db /\ c <> b)
      /\ S (length (fst out)) = length db
  end.
Proof.
  intros Hnd out. subst out. unfold deleteBlog, Blog_findByIdAndDelete.
  destruct (Blog_findById db id) as [b|] eqn:Hf; [| reflexivity].
  destruct (deleteOne_spec db id b Hnd Hf) as [H1 [H2 H3]]. cbn [fst snd].
  split; [reflexivity |]. split; [| split; [| split; [| split]]].
  - unfold getBlogById. rewrite H1. reflexivity.
  - rewrite H1. reflexivity.
  - intros id' Hne. unfold getBlogById. rewrite (deleteOne_other db id id' Hne).
    reflexivity.
  - exact H2.
  - exact H3.
Qed.

Lemma delete_blog_witness :
  let out := deleteBlog Seed.blogs 22 in
  status (snd out) = 200
  /\ status (getBlogById (fst out) 22) = 404
  /\ getBlogById (fst out) 21 = getBlogById Seed.blogs 21
  /\ length (fst out) = 2.
Proof.
  assert (Hnd : NoDup (map _id Seed.blogs)).
  { repeat constructor; simpl; intuition discriminate. }
  pose proof (delete_blog Seed.blogs 22 Hnd) as H. cbv zeta in H.
  change (Blog_findById Seed.blogs 22) with (Some Seed.draft) in H.
  destruct H as [H1 [H2 [_ [H4 _]]]].
  cbv zeta. split; [rewrite H1; reflexivity |]. split; [exact H2 |].
  split; [apply H4; discriminate | reflexivity].
Defined.

Lemma findById_replaced_same (db : Blogs) (id : ObjectId) (b b' : IBlog) :
  Blog_findById db id = Some b -> _id b' = id ->
  Blog_findById (replaceDoc b' db) id = Some b'.
Proof.
  unfold Blog_findById, replaceDoc. intros Hf Hid. subst id.
  induction db as [|x r IH]; [discriminate |].
  simpl in Hf |- *. destruct (_id x =? _id b') eqn:E.
  - rewrite Nat.eqb_refl. reflexivity.
  - rewrite E. apply IH, Hf.
Qed.

Lemma findById_replaced_other (db : Blogs) (id' : ObjectId) (b' : IBlog) :
  id' <> _id b' ->
  Blog_findById (replaceDoc b' db) id' = Blog_findById db id'.
Proof.
  unfold Blog_findById, replaceDoc. intro Hne.
  induction db as [|x r IH]; [reflexivity |].
  simpl. destruct (_id x =? _id b') eqn:E.
  - apply Nat.eqb_eq in E.
    destruct (_id b' =? id') eqn:E1; [apply Nat.eqb_eq in E1; congruence |].
    destruct (_id x =? id') eqn:E2; [apply Nat.eqb_eq in E2; congruence |].
    exact IH.
  - destruct (_id x =? id'); [reflexivity | exact IH].
Qed.

Lemma replaceDoc_twice (db : Blogs) (x y : IBlog) :
  _id x = _id y -> replaceDoc y (replaceDoc x db) = replaceDoc y db.
Proof.
  intro Hid. unfold replaceDoc. rewrite map_map. apply map_ext. intro o.
  rewrite Hid. destruct (_id o =? _id y) eqn:E; [| rewrite E; reflexivity].
  rewrite Hid, Nat.eqb_refl. reflexivity.
Qed.

(** An update that keeps the slug cannot collide on the unique index. *)
Lemma update_keeping_slug (rt : Runtime) (db : Blogs) (id : ObjectId) (b : IBlog)
    (upd : IBlog -> IBlog) :
  Blog_findById db id = Some b -> slug (upd b) = slug b ->
  Blog_findByIdAndUpdate rt db id upd
  = inr (replaceDoc (withUpdatedAt (now rt) (upd b)) db,
         Some (withUpdatedAt (now rt) (upd b))).
Proof.
  intros Hf Hs. unfold Blog_findByIdAndUpdate. rewrite Hf. cbv zeta.
  cbn [withUpdatedAt slug]. rewrite Hs, String.eqb_refl. reflexivity.
Qed.

(** X11: the like and bookmark counters of a blog post, published or not.
    For the id of a stored post each endpoint answers 200 with its counter
    raised by one and stores the post with that counter and the update time,
    every other field as before; posts with other ids are untouched; and the
    two endpoints commute: like then bookmark leaves the collection that
    bookmark then like leaves, with both counters raised by one. *)
Theorem like_and_bookmark (rt : Runtime) (db : Blogs) (id : ObjectId) (b : IBlog) :
  Blog_findById db id = Some b ->
  let liked := likeBlog rt db id in
  let marked := bookmarkBlog rt db id in
  snd liked = reply 200 (Some (likes (stats b) + 1)%Z) (Some "Blog post liked")
  /\ Blog_findById (fst liked) id
     = Some (withUpdatedAt (now rt)
               (withStats (withLikes (likes (stats b) + 1)%Z (stats b)) b))
  /\ snd marked
     = reply 200 (Some (bookmarks (stats b) + 1)%Z) (Some "Blog post bookmarked")
  /\ Blog_findById (fst marked) id
     = Some (withUpdatedAt (now rt)
               (withStats (withBookmarks (bookmarks (stats b) + 1)%Z (stats b)) b))
  /\ (forall id', id' <> id ->
        Blog_findById (fst liked) id' = Blog_findById db id'
        /\ Blog_findById (fst marked) id' = Blog_findById db id')
  /\ fst (bookmarkBlog rt (fst liked) id) = fst (likeBlog rt (fst marked) id)
  /\ option_map stats (Blog_findById (fst (bookmarkBlog rt (fst liked) id)) id)
     = Some {| likes := (likes (stats b) + 1)%Z; comments := comments (stats b);
               bookmarks := (bookmarks (stats b) + 1)%Z; views := views (stats b) |}.
Proof.
  intros Hf liked marked. subst liked marked.
  destruct (blog_found_id db id b Hf) as [Hid _].
  unfold likeBlog, bookmarkBlog.
  set (like := fun x => withStats (withLikes (likes (stats x) + 1)%Z (stats x)) x).
  set (mark := fun x => withStats (withBookmarks (bookmarks (stats x) + 1)%Z (stats x)) x).
  rewrite (update_keeping_slug rt db id b like Hf eq_refl).
  rewrite (update_keeping_slug rt db id b mark Hf eq_refl). cbn [fst snd].
  set (bl := withUpdatedAt (now rt) (like b)).
  set (bm := withUpdatedAt (now rt) (mark b)).
  assert (Hl : Blog_findById (replaceDoc bl db) id = Some bl)
    by (apply (findById_replaced_same db id b bl Hf); exact Hid).
  assert (Hm : Blog_findById (replaceDoc bm db) id = Some bm)
    by (apply (findById_replaced_same db id b bm Hf); exact Hid).
  split; [reflexivity |]. split; [exact Hl |]. split; [reflexivity |].
  split; [exact Hm |]. split; [| split].
  - intros id' Hne.
    split; apply findById_replaced_other; unfold bl, bm, like, mark;
      cbn [withUpdatedAt withStats _id]; congruence.
  - rewrite (update_keeping_slug rt _ id bl mark Hl eq_refl).
    rewrite (update_keeping_slug rt _ id bm like Hm eq_refl). cbn [fst].
    rewrite !replaceDoc_twice by reflexivity. reflexivity.
  - rewrite (update_keeping_slug rt _ id bl mark Hl eq_refl). cbn [fst].
    rewrite (findById_replaced_same _ id bl _ Hl) by exact Hid. reflexivity.
Qed.

Lemma like_and_bookmark_witness :
  snd (likeBlog Seed.rt Seed.blogs 22) = reply 200 (Some 1%Z) (Some "Blog post liked")
  /\ fst (bookmarkBlog Seed.rt (fst (likeBlog Seed.rt Seed.blogs 22)) 22)
     = fst (likeBlog Seed.rt (fst (bookmarkBlog Seed.rt Seed.blogs 22)) 22).
Proof.
  destruct (like_and_bookmark Seed.rt Seed.blogs 22 Seed.draft eq_refl)
    as [H1 [_ [_ [_ [_ [H6 _]]]]]].
  split; [exact H1 | exact H6].
Defined.

End BlogWrites.

(* ------------------------------------------------------------------------- *)
(** ** The administrators' blog list, and blog creation *)

Section BlogAdmin.
Import Blog BlogController.

Lemma skipLimit_In {A : Type} (skip limit : Z) (l found : list A) :
  skipLimit skip limit l = inr found -> forall x, In x found -> In x l.
Proof.
  unfold skipLimit. destruct (skip <? 0)%Z; [discriminate |].
  intro H. injection H as <-. intros x Hx.
  assert (Hs : In x (skipn (Z.to_nat skip) l)).
  { destruct (limit =? 0)%Z; [exact Hx | exact (firstn_In _ _ _ Hx)]. }
  rewrite <- (firstn_skipn (Z.to_nat skip) l). apply in_or_app. right. exact Hs.
Qed.

Lemma countDocuments_ext {A : Type} (p q : A -> bool) (l : list A) :
  (forall x, p x = q x) -> countDocuments p l = countDocuments q l.
Proof.
  intro H. unfold countDocuments. rewrite (filter_ext p q H). reflexivity.
Qed.

Lemma filter_all {A : Type} (l : list A) : filter (fun _ => true) l = l.
Proof. induction l as [|x r IH]; simpl; [| rewrite IH]; reflexivity. Qed.

(** X12: the administrators' list and its [published] parameter, for a
    request without a category filter and with a page of at least one.  The
    answer is 200 with stored posts.  Without the parameter the total counts
    every post, drafts included; with the value [true] it counts the
    published posts and only those are listed; with any other value (also
    [1], [yes] or the empty string) it counts the unpublished posts and only
    those are listed. *)
Theorem admin_list_published_param (R : RegExp) (db : Blogs) (q : IBlogAdminQuery) :
  Js.present (aq_category q) = false \/ aq_category q = Some "all" ->
  (1 <= orDefault (aq_page q) 1)%Z -> (0 <= orDefault (aq_limit q) 20)%Z ->
  let r := getAllBlogsAdmin db q in
  exists l,
    status r = 200 /\ data (body r) = Some l
    /\ (forall b, In b (posts l) -> In b db)
    /\ match aq_published q with
       | None => total l = Z.of_nat (length db)
       | Some p =>
           if String.eqb p "true"
           then total l = countDocuments published db
                /\ forall b, In b (posts l) -> published b = true
           else total l = countDocuments (fun b => negb (published b)) db
                /\ forall b, In b (posts l) -> published b = false
       end.
Proof.
  intros Hcat Hpage Hlimit r. subst r. unfold getAllBlogsAdmin, adminQuery. cbv zeta.
  assert (Hc : Js.present (aq_category q)
               && negb (String.eqb (field (aq_category q)) "all") = false).
  { destruct Hcat as [-> | ->]; reflexivity. }
  rewrite Hc.
  set (query := fun b : IBlog =>
                  true && match aq_published q with
                          | Some p => Bool.eqb (published b) (String.eqb p "true")
                          | None => true
                          end).
  set (page_ := orDefault (aq_page q) 1%Z) in *.
  set (limit_ := orDefault (aq_limit q) 20%Z) in *.
  destruct (skipLimit ((page_ - 1) * limit_) limit_
              (sortBy (descending createdAt) (filter query db))) as [e|found] eqn:Hs.
  { exfalso. unfold skipLimit in Hs.
    destruct ((page_ - 1) * limit_ <? 0)%Z eqn:E; [| discriminate Hs].
    apply Z.ltb_lt in E. nia. }
  eexists. split; [reflexivity |]. split; [reflexivity |]. cbn [posts total].
  assert (Hfound : forall b, In b found -> In b db /\ query b = true).
  { intros b Hb. apply (skipLimit_In _ _ _ _ Hs), sortBy_In, filter_In in Hb. exact Hb. }
  split; [intros b Hb; exact (proj1 (Hfound b Hb)) |].
  destruct (aq_published q) as [p|] eqn:Hp.
  - destruct (String.eqb p "true") eqn:E.
    + split.
      * apply countDocuments_ext. intro b. unfold query.
        destruct (published b); reflexivity.
      * intros b Hb. destruct (Hfound b Hb) as [_ Hq]. unfold query in Hq.
        destruct (published b); [reflexivity | discriminate Hq].
    + split.
      * apply countDocuments_ext. intro b. unfold query.
        destruct (published b); reflexivity.
      * intros b Hb. destruct (Hfound b Hb) as [_ Hq]. unfold query in Hq.
        destruct (published b); [discriminate Hq | reflexivity].
  - unfold countDocuments. unfold query. cbn [andb]. rewrite filter_all. reflexivity.
Qed.

Lemma admin_list_published_param_witness :
  let q := {| aq_category := None; aq_published := Some "1";
              aq_page := None; aq_limit := None |} in
  exists l,
    data (body (getAllBlogsAdmin (R := Transparent.literal) Seed.blogs q)) = Some l
    /\ total l = 1%Z
    /\ forall b, In b (posts l) -> published b = false.
Proof.
  destruct (admin_list_published_param Transparent.literal Seed.blogs
              {| aq_category := None; aq_published := Some "1";
                 aq_page := None; aq_limit := None |})
    as [l [_ [Hd [_ [Ht Hp]]]]].
  - left. reflexivity.
  - simpl. lia.
  - simpl. lia.
  - exists l. split; [exact Hd |]. split; [rewrite Ht; reflexivity | exact Hp].
Defined.

Lemma absent_field (o : option string) : Js.present o = false -> field o = "".
Proof.
  destruct o as [s|]; [| reflexivity]. rewrite present_Some. unfold Js.truthy.
  intro H. apply negb_false_iff, String.eqb_eq in H. exact H.
Qed.

Lemma pre_save_slug_frame (t : bool) (b : IBlog) :
  _id (pre_save_slug t b) = _id b /\ readTime (pre_save_slug t b) = readTime b.
Proof.
  unfold pre_save_slug. destruct (negb (Js.truthy (slug b)) || t); split; reflexivity.
Qed.

(** After validation the read-time hook has nothing to do. *)
Lemma pre_save_readTime_idle (b : IBlog) :
  Js.truthy (readTime b) = true -> pre_save_readTime b = b.
Proof.
  intro H. unfold pre_save_readTime. rewrite H. reflexivity.
Qed.

(** X13: what blog creation requires and what it leaves.  A body without a
    slug, or without a read time, is answered 500 CREATE_ERROR: both paths
    are required and validation runs before the hooks that would derive
    them, so the read time is never computed from the content.  Any answer
    other than 201 leaves the collection untouched; a 201 appends exactly one
    post, the one returned, with the id of the new document and the read
    time of the body. *)
Theorem create_blog_requirements (rt : Runtime) (db : Blogs) (d : BlogBody) :
  let out := createBlog rt db d in
  (Js.present (b_slug d) = false \/ Js.present (b_readTime d) = false ->
   out = (db, fail 500 "CREATE_ERROR" "Failed to create blog post."))
  /\ (status (snd out) <> 201 -> fst out = db)
  /\ (status (snd out) = 201 ->
      exists blog,
        out = (db ++ [blog], reply 201 (Some blog) (Some "Blog post created successfully"))
        /\ _id blog = newId rt
        /\ readTime blog = field (b_readTime d)
        /\ Js.present (b_slug d) = true /\ Js.present (b_readTime d) = true).
Proof.
  cbv zeta. unfold createBlog, Blog_insert.
  destruct (BlogSchema_validate (newBlog rt d)) as [e|] eqn:Hv.
  - split; [reflexivity |]. split; [reflexivity | discriminate].
  - pose proof (BlogFacts.validate_slug _ Hv) as Hs.
    pose proof (BlogFacts.validate_readTime _ Hv) as Hr.
    cbn [newBlog slug readTime] in Hs, Hr.
    assert (Hps : Js.present (b_slug d) = true).
    { destruct (Js.present (b_slug d)) eqn:E; [reflexivity |].
      rewrite (absent_field _ E) in Hs. discriminate Hs. }
    assert (Hpr : Js.present (b_readTime d) = true).
    { destruct (Js.present (b_readTime d)) eqn:E; [reflexivity |].
      rewrite (absent_field _ E) in Hr. discriminate Hr. }
    split.
    { intros [H | H]; [rewrite H in Hps | rewrite H in Hpr]; discriminate. }
    cbv zeta.
    set (titleGiven := match b_title d with Some _ => true | None => false end).
    destruct (existsb _ db).
    + split; [reflexivity | discriminate].
    + split; [intro H; exfalso; apply H; reflexivity |].
      intros _. eexists. split; [reflexivity |].
      destruct (pre_save_slug_frame titleGiven (newBlog rt d)) as [Hid Hrt].
      rewrite pre_save_readTime_idle by (rewrite Hrt; exact Hr).
      rewrite Hid, Hrt. auto.
Qed.

End BlogAdmin.

(* ------------------------------------------------------------------------- *)
(** ** The chain of POST /api/blogs *)

Section BlogRoute.
Import Blog BlogRoutes.

Lemma validation_passes (errors : list FieldError) :
  handleValidationErrors errors = None -> errors = [].
Proof. destruct errors; [reflexivity | discriminate]. Qed.

Lemma check_nil (ok : bool) (path msg : string) : check ok path msg = [] -> ok = true.
Proof. unfold check. destruct ok; [reflexivity | discriminate]. Qed.

Lemma validate_color (b : IBlog) (c : string) :
  BlogSchema_validate b = None -> color b = Some c -> oneOf c ["mint"; "gold"] = true.
Proof.
  unfold BlogSchema_validate. intros H Hc. BlogFacts.split_validate H.
  rewrite Hc in *.
  match goal with V : negb (oneOf c _) = false |- _ => apply negb_false_iff in V; exact V end.
Qed.

Lemma validate_category (b : IBlog) :
  BlogSchema_validate b = None ->
  oneOf (category b) ["News"; "Tutorial"; "Guide"; "Industry News"] = true.
Proof.
  unfold BlogSchema_validate. intros H. BlogFacts.split_validate H.
  match goal with
  | V : negb (oneOf (category b) _) = false |- _ => apply negb_false_iff in V; exact V
  end.
Qed.

(** X14: the create route and the schema disagree on two fields.  A request
    to [POST /api/blogs] that sets [color] never creates a post: the route
    admits only values that start with [from-] or [bg-], the schema only
    [mint] and [gold], so the request ends in the 400 of the validators or
    the 500 of the handler (or is stopped by authentication).  Likewise a
    request with category [Analysis] or [Updates], which the route lists and
    the schema does not, never creates a post.  In all these cases the
    collection is untouched. *)
Theorem create_route_rejects_color (J : JsonWebToken) (V : Validator)
    (env : Env) (rt : Runtime) (admins : Admins) (db : Blogs) (req : AuthRequest)
    (reqBody : BlogBody) :
  (exists c, b_color reqBody = Some c)
  \/ b_category reqBody = Some "Analysis" \/ b_category reqBody = Some "Updates" ->
  let out := POST_blogs env rt admins db req reqBody in
  fst out = db
  /\ match snd out with
     | Handled r => r = fail 500 "CREATE_ERROR" "Failed to create blog post."
     | _ => True
     end.
Proof.
  intros Hbody out. subst out. unfold POST_blogs.
  destruct (authenticateAdmin env rt admins req) as [r|r]; [| split; [reflexivity | exact I]].
  destruct (handleValidationErrors (blogValidation reqBody)) as [details|] eqn:Hval;
    [split; [reflexivity | exact I] |].
  assert (Hbad : BlogSchema_validate (newBlog rt reqBody) <> None).
  { intro Hv. destruct Hbody as [[c Hc] | Hcat].
    - apply validation_passes in Hval. unfold blogValidation in Hval. rewrite Hc in Hval.
      repeat (apply app_eq_nil in Hval; destruct Hval as [? Hval]).
      apply check_nil in Hval.
      pose proof (validate_color (newBlog rt reqBody) c Hv) as Hm.
      cbn [newBlog color] in Hm. specialize (Hm Hc).
      unfold oneOf in Hm. cbn [existsb] in Hm. rewrite orb_false_r in Hm.
      apply orb_true_iff in Hm. unfold matchesTailwind in Hval.
      destruct Hm as [Hm | Hm]; apply String.eqb_eq in Hm; subst c; discriminate Hval.
    - pose proof (validate_category (newBlog rt reqBody) Hv) as Hm.
      cbn [newBlog category] in Hm.
      destruct Hcat as [Hc | Hc]; rewrite Hc in Hm; discriminate Hm. }
  unfold BlogController.createBlog, Blog_insert.
  destruct (BlogSchema_validate (newBlog rt reqBody)); [| contradiction].
  split; reflexivity.
Qed.

Lemma create_route_rejects_color_witness :
  let out := POST_blogs (J := Transparent.jwt) (V := Transparent.validator)
               Seed.env Seed.rt Seed.admins Seed.blogs (Seed.bearer Seed.issued)
               Seed.tinted in
  fst out = Seed.blogs
  /\ exists r, snd out = Handled r /\ status r = 500.
Proof.
  destruct (create_route_rejects_color Transparent.jwt Transparent.validator
              Seed.env Seed.rt Seed.admins Seed.blogs (Seed.bearer Seed.issued)
              Seed.tinted (or_introl (ex_intro _ "from-blue-500" eq_refl)))
    as [H1 H2].
  cbv zeta. split; [exact H1 |]. revert H2.
  destruct (snd (POST_blogs (J := Transparent.jwt) (V := Transparent.validator)
                   Seed.env Seed.rt Seed.admins Seed.blogs (Seed.bearer Seed.issued)
                   Seed.tinted)) as [r|details|r] eqn:E.
  - vm_compute in E. discriminate E.
  - vm_compute in E. discriminate E.
  - intro H2. exists r. split; [reflexivity | rewrite H2; reflexivity].
Defined.

End BlogRoute.

(* ------------------------------------------------------------------------- *)
(** ** Showcase highlights *)

Section ShowcaseHighlights.
Import Showcase ShowcaseController.

(** The [limit] most-starred matches of a query. *)
Lemma most_starred (query : IShowcase -> bool) (db : Projects) (limitParam : option Z) :
  let found := cursorLimit (limitOr 6 limitParam)
                 (sortBy (descending byStars) (filter query db)) in
  (Z.of_nat (length found)
   <= match limitParam with
      | Some n => if (n =? 0)%Z then 6 else Z.abs n
      | None => 6
      end)%Z
  /\ (forall p, In p found -> In p db /\ query p = true)
  /\ StronglySorted (fun a b => (stars (stats b) <= stars (stats a))%Z) found
  /\ (forall c p, In c db -> query c = true -> ~ In c found -> In p found ->
        (stars (stats c) <= stars (stats p))%Z).
Proof.
  cbv zeta.
  set (bound := match limitParam with
                | Some n => if (n =? 0)%Z then 6%Z else Z.abs n
                | None => 6%Z
                end).
  assert (Hl : limitOr 6 limitParam <> 0%Z /\ Z.abs (limitOr 6 limitParam) = bound).
  { unfold limitOr, bound. destruct limitParam as [n|]; [| split; [lia | reflexivity]].
    destruct (n =? 0)%Z eqn:E; [split; [lia | reflexivity] |].
    apply Z.eqb_neq in E. split; [exact E | reflexivity]. }
  destruct Hl as [Hnz Habs].
  set (matches := sortBy (descending byStars) (filter query db)).
  assert (Hcut : cursorLimit (limitOr 6 limitParam) matches
                 = firstn (Z.to_nat bound) matches).
  { unfold cursorLimit. apply Z.eqb_neq in Hnz. rewrite Hnz, Habs. reflexivity. }
  rewrite Hcut.
  assert (Hbound : (0 <= bound)%Z) by (rewrite <- Habs; apply Z.abs_nonneg).
  assert (Hsorted : StronglySorted (fun a b => (byStars b <= byStars a)%Z) matches)
    by apply sortBy_sorted.
  assert (Hmem : forall p, In p matches <-> In p db /\ query p = true).
  { intro p. unfold matches. rewrite sortBy_In. apply filter_In. }
  split; [| split; [| split]].
  - pose proof (firstn_le_length (Z.to_nat bound) matches) as H1.
    rewrite length_firstn. lia.
  - intros p Hp. apply Hmem. exact (firstn_In _ _ _ Hp).
  - apply sorted_firstn. exact Hsorted.
  - intros c p Hc Hq Hout Hp.
    assert (Hcm : In c matches) by (apply Hmem; split; assumption).
    rewrite <- (firstn_skipn (Z.to_nat bound) matches) in Hcm.
    apply in_app_or in Hcm. destruct Hcm as [Hcm | Hcm]; [contradiction |].
    apply (sorted_cut byStars (Z.to_nat bound) matches p c Hsorted Hp Hcm).
Qed.

(** X15: the featured and the trending projects.  Each endpoint answers 200
    with at most [|limit|] projects, six when the parameter is absent, no
    number or zero; every project returned is stored, published and carries
    the flag of the endpoint; projects come in non-increasing order of stars;
    and a published project with the flag that is left out has no more stars
    than any project returned. *)
Theorem highlighted_projects (db : Projects) (limitParam : option Z) :
  let bound := match limitParam with
               | Some n => if (n =? 0)%Z then 6%Z else Z.abs n
               | None => 6%Z
               end in
  (exists found,
      getFeaturedProjects db limitParam = reply 200 (Some found) None
      /\ (Z.of_nat (length found) <= bound)%Z
      /\ (forall p, In p found -> In p db /\ featured p = true /\ published p = true)
      /\ StronglySorted (fun a b => (stars (stats b) <= stars (stats a))%Z) found
      /\ (forall c p, In c db -> featured c = true -> published c = true ->
            ~ In c found -> In p found -> (stars (stats c) <= stars (stats p))%Z))
  /\ (exists found,
         getTrendingProjects db limitParam = reply 200 (Some found) None
         /\ (Z.of_nat (length found) <= bound)%Z
         /\ (forall p, In p found -> In p db /\ trending p = true /\ published p = true)
         /\ StronglySorted (fun a b => (stars (stats b) <= stars (stats a))%Z) found
         /\ (forall c p, In c db -> trending c = true -> published c = true ->
               ~ In c found -> In p found -> (stars (stats c) <= stars (stats p))%Z)).
Proof.
  cbv zeta. split.
  - destruct (most_starred (fun p => featured p && published p) db limitParam)
      as [H1 [H2 [H3 H4]]].
    eexists. split; [reflexivity |]. split; [exact H1 |].
    split; [| split; [exact H3 |]].
    + intros p Hp. destruct (H2 p Hp) as [Hin Hq]. apply andb_true_iff in Hq.
      destruct Hq. auto.
    + intros c p Hc Hf Hpub. apply H4; [exact Hc |]. rewrite Hf, Hpub. reflexivity.
  - destruct (most_starred (fun p => trending p && published p) db limitParam)
      as [H1 [H2 [H3 H4]]].
    eexists. split; [reflexivity |]. split; [exact H1 |].
    split; [| split; [exact H3 |]].
    + intros p Hp. destruct (H2 p Hp) as [Hin Hq]. apply andb_true_iff in Hq.
      destruct Hq. auto.
    + intros c p Hc Hf Hpub. apply H4; [exact Hc |]. rewrite Hf, Hpub. reflexivity.
Qed.

End ShowcaseHighlights.

(* ------------------------------------------------------------------------- *)
(** ** Resource downloads *)

Section Downloads.
Import Resource ResourceController.

Lemma resource_found_id (db : Resources) (id : ObjectId) (r : IResource) :
  Resource_findById db id = Some r -> _id r = id.
Proof.
  unfold Resource_findById. intro H. apply find_some in H. destruct H as [_ E].
  apply Nat.eqb_eq in E. exact E.
Qed.

Lemma resource_replaced_same (db : Resources) (id : ObjectId) (r r' : IResource) :
  Resource_findById db id = Some r -> _id r' = id ->
  Resource_findById (replaceDoc r' db) id = Some r'.
Proof.
  unfold Resource_findById, replaceDoc. intros Hf Hid. subst id.
  induction db as [|x rest IH]; [discriminate |].
  simpl in Hf |- *. destruct (_id x =? _id r') eqn:E.
  - rewrite Nat.eqb_refl. reflexivity.
  - rewrite E. apply IH, Hf.
Qed.

Lemma resource_replaced_other (db : Resources) (id' : ObjectId) (r' : IResource) :
  id' <> _id r' ->
  Resource_findById (replaceDoc r' db) id' = Resource_findById db id'.
Proof.
  unfold Resource_findById, replaceDoc. intro Hne.
  induction db as [|x rest IH]; [reflexivity |].
  simpl. destruct (_id x =? _id r') eqn:E.
  - apply Nat.eqb_eq in E.
    destruct (_id r' =? id') eqn:E1; [apply Nat.eqb_eq in E1; congruence |].
    destruct (_id x =? id') eqn:E2; [apply Nat.eqb_eq in E2; congruence |].
    exact IH.
  - destruct (_id x =? id'); [reflexivity | exact IH].
Qed.

Lemma trackDownload_found (rt : Runtime) (db : Resources) (id : ObjectId)
    (r : IResource) :
  Resource_findById db id = Some r ->
  trackDownload rt db id
  = (replaceDoc (withUpdatedAt (now rt) (incDownloads r)) db,
     reply 200 (Some (downloads r + 1)%Z) None).
Proof.
  intro Hf. unfold trackDownload, Resource_findByIdAndUpdate. rewrite Hf. cbv zeta.
  cbn [withUpdatedAt incDownloads slug]. rewrite String.eqb_refl. reflexivity.
Qed.

(** X16: download tracking adds up.  For the id of a stored resource, a
    sequence of [n] download requests is answered 200 each time with the
    running count (the stored count plus one, plus two, ...), and leaves the
    resource with its count raised by exactly [n] and its title and slug as
    they were, while resources with other ids are untouched.  For an id with
    no resource every request is answered 404 and nothing changes. *)
Theorem downloads_accumulate (rts : list Runtime) (db : Resources) (id : ObjectId) :
  let out := trackDownloads rts db id in
  match Resource_findById db id with
  | Some r =>
      snd out
      = map (fun k => reply 200 (Some (downloads r + Z.of_nat k)%Z) None)
          (seq 1 (length rts))
      /\ (exists r', Resource_findById (fst out) id = Some r'
                     /\ downloads r' = (downloads r + Z.of_nat (length rts))%Z
                     /\ title r' = title r /\ slug r' = slug r)
      /\ (forall id', id' <> id ->
            Resource_findById (fst out) id' = Resource_findById db id')
  | None =>
      out = (db, map (fun _ => fail 404 "NOT_FOUND" "Resource not found.") rts)
  end.
Proof.
  cbv zeta. destruct (Resource_findById db id) as [r|] eqn:Hf.
  - revert db r Hf. induction rts as [|rt rest IH]; intros db r Hf.
    + simpl. split; [reflexivity |]. split; [| reflexivity].
      exists r. split; [exact Hf |]. split; [lia | split; reflexivity].
    + simpl trackDownloads. rewrite (trackDownload_found rt db id r Hf).
      set (r1 := withUpdatedAt (now rt) (incDownloads r)).
      pose proof (resource_found_id db id r Hf) as Hid.
      assert (Hf1 : Resource_findById (replaceDoc r1 db) id = Some r1)
        by (apply (resource_replaced_same db id r r1 Hf); exact Hid).
      destruct (IH (replaceDoc r1 db) r1 Hf1) as [H1 [[r' [H2 [H3 [H4 H5]]]] H6]].
      destruct (trackDownloads rest (replaceDoc r1 db) id) as [db'' rs].
      cbn [fst snd] in *. split; [| split].
      * simpl length. simpl seq. simpl map. f_equal.
        rewrite H1. rewrite <- (seq_shift (length rest) 1), map_map.
        apply map_ext. intro k.
        change (downloads r1) with (downloads r + 1)%Z.
        f_equal. f_equal. lia.
      * exists r'. split; [exact H2 |]. split; [| split; [exact H4 | exact H5]].
        rewrite H3. change (downloads r1) with (downloads r + 1)%Z.
        simpl length. lia.
      * intros id' Hne. rewrite (H6 id' Hne).
        apply resource_replaced_other. change (_id r1) with (_id r). congruence.
  - revert db Hf. induction rts as [|rt rest IH]; intros db Hf; [reflexivity |].
    simpl. unfold trackDownload, Resource_findByIdAndUpdate. rewrite Hf.
    rewrite (IH db Hf). reflexivity.
Qed.

End Downloads.

(* ------------------------------------------------------------------------- *)
(** ** The subscriber collection *)

Section Subscriptions.
Import Newsletter NewsletterController.

Lemma trimEnd_nospace (l : list ascii) :
  forallb (fun c => negb (Js.isSpace c)) l = true -> Js.trimEnd l = l.
Proof.
  induction l as [|c r IH]; [reflexivity |].
  simpl forallb. intro H. apply andb_true_iff in H. destruct H as [Hc Hr].
  change (Js.trimEnd (c :: r))
    with (match Js.trimEnd r with
          | [] => if Js.isSpace c then [] else [c]
          | _ => c :: Js.trimEnd r
          end).
  rewrite (IH Hr). apply negb_true_iff in Hc. rewrite Hc.
  destruct r; reflexivity.
Qed.

(** Text without white space is its own trimmed form. *)
Lemma trim_nospace (s : string) :
  forallb (fun c => negb (Js.isSpace c)) (Js.chars s) = true -> Js.trim s = s.
Proof.
  intro H. unfold Js.trim, Js.trimChars, Js.trimStart.
  assert (Hd : Js.dropWhile Js.isSpace (Js.chars s) = Js.chars s).
  { destruct (Js.chars s) as [|c r]; [reflexivity |].
    simpl in H |- *. apply andb_true_iff in H. destruct H as [Hc _].
    apply negb_true_iff in Hc. rewrite Hc. reflexivity. }
  rewrite Hd, (trimEnd_nospace _ H). apply str_chars.
Qed.

Lemma regex_nospace (s : string) :
  emailRegexTest s = true ->
  forallb (fun c => negb (Js.isSpace c)) (Js.chars s) = true.
Proof.
  unfold emailRegexTest. cbv zeta. intro H. apply andb_true_iff in H. exact (proj1 H).
Qed.

(** The email a new subscriber document stores for a request email that
    passed the pattern: the lower-cased email. *)
Lemma stored_email (e : string) :
  emailRegexTest e = true ->
  Js.trim (Js.toLowerCase (Js.toLowerCase e)) = Js.toLowerCase e.
Proof.
  intro H. rewrite toLowerCase_idem. apply trim_nospace, regex_nospace.
  rewrite NewsletterFacts.emailRegexTest_lower. exact H.
Qed.

Lemma truthy_lower (e : string) : Js.truthy (Js.toLowerCase e) = Js.truthy e.
Proof. destruct e; reflexivity. Qed.

Lemma validate_by_email (s s' : INewsletterSubscriber) :
  email s' = email s ->
  NewsletterSubscriberSchema_validate s' = NewsletterSubscriberSchema_validate s.
Proof. intro H. unfold NewsletterSubscriberSchema_validate. rewrite H. reflexivity. Qed.

Lemma subscriber_found (db : Subscribers) (e : string) (s : INewsletterSubscriber) :
  NewsletterSubscriber_findOne db e = Some s -> In s db /\ email s = e.
Proof.
  unfold NewsletterSubscriber_findOne. intro H. apply find_some in H.
  destruct H as [Hin E]. apply String.eqb_eq in E. split; assumption.
Qed.

Lemma subscriber_absent (db : Subscribers) (e : string) :
  NewsletterSubscriber_findOne db e = None ->
  existsb (fun o => String.eqb (email o) e) db = false /\ ~ In e (map email db).
Proof.
  unfold NewsletterSubscriber_findOne. intro H.
  assert (Hn : forall o, In o db -> String.eqb (email o) e = false)
    by (intros o Ho; exact (find_none _ _ H o Ho)).
  split.
  - destruct (existsb (fun o => String.eqb (email o) e) db) eqn:E; [| reflexivity].
    apply existsb_exists in E. destruct E as [o [Ho E]]. rewrite (Hn o Ho) in E.
    discriminate.
  - intro Hin. apply in_map_iff in Hin. destruct Hin as [o [He Ho]].
    specialize (Hn o Ho). rewrite He, String.eqb_refl in Hn. discriminate.
Qed.

(** Replacing a stored subscriber by a document with the same id and email
    keeps the collection well formed and its size. *)
Lemma subscriber_replace (db : Subscribers) (s s' : INewsletterSubscriber) :
  SubscribersInvariant db -> In s db -> _id s' = _id s -> email s' = email s ->
  SubscribersInvariant (replaceDoc s' db)
  /\ length (replaceDoc s' db) = length db.
Proof.
  intros [Hids [Hem Hall]] Hin Hid He. rewrite Forall_forall in Hall.
  assert (Hsame : forall o, In o db -> _id o = _id s' -> o = s).
  { intros o Ho E. apply (unique_key_inj _id db o s Hids Ho Hin). congruence. }
  assert (Hk : forall o, In o db ->
             _id (if _id o =? _id s' then s' else o) = _id o
             /\ email (if _id o =? _id s' then s' else o) = email o).
  { intros o Ho. destruct (_id o =? _id s') eqn:E; [| split; reflexivity].
    apply Nat.eqb_eq in E. rewrite (Hsame o Ho E). split; assumption. }
  unfold replaceDoc. split; [split; [| split] | apply length_map].
  - rewrite map_map. rewrite (map_ext_in _ _id db (fun o Ho => proj1 (Hk o Ho))).
    exact Hids.
  - rewrite map_map. rewrite (map_ext_in _ email db (fun o Ho => proj2 (Hk o Ho))).
    exact Hem.
  - rewrite Forall_forall. intros x Hx. apply in_map_iff in Hx.
    destruct Hx as [o [<- Ho]]. destruct (_id o =? _id s') eqn:E.
    + rewrite (validate_by_email s s' He), He. exact (Hall s Hin).
    + exact (Hall o Ho).
Qed.

Lemma subscriber_append (db : Subscribers) (s : INewsletterSubscriber) :
  SubscribersInvariant db -> ~ In (_id s) (map _id db) -> ~ In (email s) (map email db) ->
  NewsletterSubscriberSchema_validate s = None -> Js.toLowerCase (email s) = email s ->
  SubscribersInvariant (db ++ [s]).
Proof.
  intros [Hids [Hem Hall]] Hid He Hv Hl. split; [| split].
  - rewrite map_app. apply NoDup_snoc; assumption.
  - rewrite map_app. apply NoDup_snoc; assumption.
  - apply Forall_app. split; [exact Hall |]. constructor; [split; assumption | constructor].
Qed.

Lemma save_subscriber (db : Subscribers) (s s' : INewsletterSubscriber) :
  SubscribersInvariant db -> In s db -> _id s' = _id s -> email s' = email s ->
  NewsletterSubscriber_save db s' = inr (replaceDoc s' db).
Proof.
  intros [_ [_ Hall]] Hin Hid He. rewrite Forall_forall in Hall.
  unfold NewsletterSubscriber_save.
  rewrite (validate_by_email s s' He), (proj1 (Hall s Hin)). reflexivity.
Qed.

(** X17: the newsletter handlers keep the subscriber collection well formed.
    From a collection with unique ids, unique emails and valid lower-case
    emails, and a fresh id for the document a request may create, every
    subscribe request and every unsubscribe request leaves such a collection
    again, whatever it carries; subscribe never removes a record and adds at
    most one, and unsubscribe keeps the number of records. *)
Theorem newsletter_keeps_invariant (rt : Runtime) (st : State)
    (reqS : INewsletterSubscribeRequest) (reqU : INewsletterUnsubscribeRequest) :
  SubscribersInvariant (subscribers st) ->
  ~ In (newId rt) (map _id (subscribers st)) ->
  let afterS := subscribers (fst (subscribe rt st reqS)) in
  let afterU := subscribers (fst (unsubscribe rt st reqU)) in
  SubscribersInvariant afterS
  /\ (length afterS = length (subscribers st)
      \/ length afterS = S (length (subscribers st)))
  /\ SubscribersInvariant afterU
  /\ length afterU = length (subscribers st).
Proof.
  intros Hinv Hfresh afterS afterU. subst afterS afterU.
  assert (HS : SubscribersInvariant (subscribers (fst (subscribe rt st reqS)))
               /\ (length (subscribers (fst (subscribe rt st reqS)))
                   = length (subscribers st)
                   \/ length (subscribers (fst (subscribe rt st reqS)))
                      = S (length (subscribers st)))).
  { unfold subscribe. cbv zeta.
    destruct (negb (Js.present (sub_email reqS))); [split; [exact Hinv | left; reflexivity] |].
    destruct (negb (emailRegexTest (field (sub_email reqS)))) eqn:Hre;
      [split; [exact Hinv | left; reflexivity] |].
    apply negb_false_iff in Hre.
    destruct (NewsletterSubscriber_findOne (subscribers st)
                (Js.toLowerCase (field (sub_email reqS)))) as [s|] eqn:Hf.
    - destruct (status_eqb (status s) active);
        [split; [exact Hinv | left; reflexivity] |].
      destruct (subscriber_found _ _ _ Hf) as [Hin _].
      match goal with
      | |- context [NewsletterSubscriber_save _ ?x] => set (s' := x)
      end.
      rewrite (save_subscriber (subscribers st) s s' Hinv Hin eq_refl eq_refl).
      cbn [fst send store subscribers].
      destruct (subscriber_replace (subscribers st) s s' Hinv Hin eq_refl eq_refl)
        as [H1 H2].
      split; [exact H1 | left; exact H2].
    - destruct (subscriber_absent _ _ Hf) as [Hex Hnot].
      match goal with
      | |- context [NewsletterSubscriber_insert _ ?x] => set (s' := x)
      end.
      assert (He : email s' = Js.toLowerCase (field (sub_email reqS)))
        by (unfold s', newSubscriber; cbn [email]; apply stored_email, Hre).
      unfold NewsletterSubscriber_insert.
      destruct (NewsletterSubscriberSchema_validate s') eqn:Hv;
        [split; [exact Hinv | left; reflexivity] |].
      rewrite He, Hex. cbn [fst send store subscribers]. split.
      + apply subscriber_append; [exact Hinv | exact Hfresh | | exact Hv |].
        * rewrite He. exact Hnot.
        * rewrite He. apply toLowerCase_idem.
      + right. rewrite length_app. simpl. lia. }
  split; [exact (proj1 HS) |]. split; [exact (proj2 HS) |].
  unfold unsubscribe. cbv zeta.
  destruct (negb (Js.present (unsub_email reqU))); [split; [exact Hinv | reflexivity] |].
  destruct (NewsletterSubscriber_findOne (subscribers st)
              (Js.toLowerCase (field (unsub_email reqU)))) as [s|] eqn:Hf;
    [| split; [exact Hinv | reflexivity]].
  destruct (status_eqb (status s) unsubscribed); [split; [exact Hinv | reflexivity] |].
  destruct (subscriber_found _ _ _ Hf) as [Hin _].
  match goal with
  | |- context [NewsletterSubscriber_save _ ?x] => set (s' := x)
  end.
  rewrite (save_subscriber (subscribers st) s s' Hinv Hin eq_refl eq_refl).
  cbn [fst send store subscribers].
  exact (subscriber_replace (subscribers st) s s' Hinv Hin eq_refl eq_refl).
Qed.

Lemma seed_subscribers : SubscribersInvariant (subscribers Seed.newsletter).
Proof.
  split; [| split].
  - repeat constructor. simpl. intros [].
  - repeat constructor. simpl. intros [].
  - repeat constructor.
Qed.

Lemma newsletter_keeps_invariant_witness :
  SubscribersInvariant
    (subscribers (fst (subscribe Seed.rt Seed.newsletter
                         {| sub_email := Some "New@Example.com";
                            sub_source := None |})))
  /\ SubscribersInvariant
       (subscribers (fst (unsubscribe Seed.rt Seed.newsletter
                            {| unsub_email := Some "reader@example.com" |}))).
Proof.
  destruct (newsletter_keeps_invariant Seed.rt Seed.newsletter
              {| sub_email := Some "New@Example.com"; sub_source := None |}
              {| unsub_email := Some "reader@example.com" |} seed_subscribers)
    as [H1 [_ [H3 _]]].
  - simpl. intros [H | []]. discriminate H.
  - split; [exact H1 | exact H3].
Defined.

(** Subscribing an email whose record is unsubscribed. *)
Lemma subscribe_inactive (rt : Runtime) (st : State) (e : string)
    (src : option string) (s : INewsletterSubscriber) :
  SubscribersInvariant (subscribers st) ->
  NewsletterSubscriber_findOne (subscribers st) (Js.toLowerCase e) = Some s ->
  status s = unsubscribed ->
  let s' := {| _id := _id s; email := email s;
               source := if Js.present src then Some (Js.trim (field src))
                         else source s;
               subscribedAt := now rt; unsubscribedAt := None; status := active |} in
  subscribe rt st {| sub_email := Some e; sub_source := src |}
  = (send {| to := Js.toLowerCase e;
             subject := "Welcome back to Web3 Economy Newsletter!" |}
          (store (replaceDoc s' (subscribers st)) st),
     reply 200 None (Some "Successfully re-subscribed to newsletter.")).
Proof.
  intros Hinv Hf Hst s'. destruct (subscriber_found _ _ _ Hf) as [Hin He].
  pose proof Hinv as [_ [_ Hall]]. rewrite Forall_forall in Hall.
  destruct (Hall s Hin) as [Hv _].
  pose proof (NewsletterFacts.valid_email s Hv) as Ht.
  pose proof (NewsletterFacts.valid_pattern s Hv) as Hp.
  rewrite He in Ht, Hp. rewrite truthy_lower in Ht.
  rewrite NewsletterFacts.emailRegexTest_lower in Hp.
  unfold subscribe. cbv zeta. cbn [sub_email sub_source field].
  rewrite present_Some, Ht, Hp. cbn [negb]. rewrite Hf, Hst. cbn [status_eqb].
  fold s'. rewrite (save_subscriber (subscribers st) s s' Hinv Hin eq_refl eq_refl).
  reflexivity.
Qed.

(** X18: leaving and coming back.  For an email whose record is active, an
    unsubscribe request followed by a subscribe request are answered 200
    (unsubscribed, then re-subscribed); afterwards the same record (same id
    and email) is active again with no unsubscription date, subscribed at the
    time of the second request, with the source of that request when it
    carries one; the collection has as many records as before and stays well
    formed; and exactly two messages were handed to the mail service, both to
    the lower-cased email: the confirmation, then the welcome back. *)
Theorem resubscribe_restores (rt1 rt2 : Runtime) (st : State) (e : string)
    (src : option string) (s : INewsletterSubscriber) :
  SubscribersInvariant (subscribers st) ->
  NewsletterSubscriber_findOne (subscribers st) (Js.toLowerCase e) = Some s ->
  status s = active ->
  let left_ := unsubscribe rt1 st {| unsub_email := Some e |} in
  let back := subscribe rt2 (fst left_) {| sub_email := Some e; sub_source := src |} in
  snd left_ = reply 200 None (Some "Successfully unsubscribed from newsletter.")
  /\ snd back = reply 200 None (Some "Successfully re-subscribed to newsletter.")
  /\ NewsletterSubscriber_findOne (subscribers (fst back)) (Js.toLowerCase e)
     = Some {| _id := _id s; email := email s;
               source := if Js.present src then Some (Js.trim (field src))
                         else source s;
               subscribedAt := now rt2; unsubscribedAt := None; status := active |}
  /\ length (subscribers (fst back)) = length (subscribers st)
  /\ SubscribersInvariant (subscribers (fst back))
  /\ outbox (fst back)
     = outbox st
       ++ [{| to := Js.toLowerCase e;
              subject := "You have been unsubscribed from Web3 Economy Newsletter" |};
           {| to := Js.toLowerCase e;
              subject := "Welcome back to Web3 Economy Newsletter!" |}].
Proof.
  intros Hinv Hf Hst left_ back. subst left_ back.
  destruct (subscriber_found _ _ _ Hf) as [Hin He].
  pose proof Hinv as [_ [_ Hall]]. rewrite Forall_forall in Hall.
  destruct (Hall s Hin) as [Hv _].
  pose proof (NewsletterFacts.valid_email s Hv) as Ht.
  rewrite He, truthy_lower in Ht.
  rewrite (NewsletterFacts.unsubscribe_active rt1 st e s Ht Hf Hv Hst).
  cbn [fst snd].
  set (s1 := {| _id := _id s; email := email s; source := source s;
                subscribedAt := subscribedAt s; unsubscribedAt := Some (now rt1);
                status := unsubscribed |}).
  set (st1 := send _ (store (replaceDoc s1 (subscribers st)) st)).
  destruct (subscriber_replace (subscribers st) s s1 Hinv Hin eq_refl eq_refl)
    as [Hinv1 Hlen1].
  assert (Hf1 : NewsletterSubscriber_findOne (subscribers st1) (Js.toLowerCase e)
                = Some s1)
    by (apply (NewsletterFacts.find_replaced _ _ s s1 Hf eq_refl); exact He).
  rewrite (subscribe_inactive rt2 st1 e src s1 Hinv1 Hf1 eq_refl).
  cbn [fst snd]. set (s2 := {| _id := _id s1 |}).
  destruct (subscriber_found _ _ _ Hf1) as [Hin1 _].
  destruct (subscriber_replace (subscribers st1) s1 s2 Hinv1 Hin1 eq_refl eq_refl)
    as [Hinv2 Hlen2].
  split; [reflexivity |]. split; [reflexivity |]. split; [| split; [| split]].
  - cbn [send store subscribers].
    apply (NewsletterFacts.find_replaced _ _ s1 s2 Hf1 eq_refl). exact He.
  - cbn [send store subscribers]. rewrite Hlen2. exact Hlen1.
  - exact Hinv2.
  - cbn [send store outbox st1]. rewrite <- app_assoc. reflexivity.
Qed.

Lemma resubscribe_restores_witness :
  let left_ := unsubscribe Seed.rt Seed.newsletter
                 {| unsub_email := Some "Reader@Example.com" |} in
  let back := subscribe Seed.later (fst left_)
                {| sub_email := Some "Reader@Example.com";
                   sub_source := Some " popup " |} in
  snd back = reply 200 None (Some "Successfully re-subscribed to newsletter.")
  /\ option_map status
       (NewsletterSubscriber_findOne (subscribers (fst back)) "reader@example.com")
     = Some active
  /\ length (outbox (fst back)) = 2.
Proof.
  destruct (resubscribe_restores Seed.rt Seed.later Seed.newsletter
              "Reader@Example.com" (Some " popup ") Seed.reader
              seed_subscribers eq_refl eq_refl) as [_ [H2 [H3 [_ [_ H6]]]]].
  cbv zeta. split; [exact H2 |].
  split; [| rewrite H6; reflexivity].
  change "reader@example.com" with (Js.toLowerCase "Reader@Example.com").
  rewrite H3. reflexivity.
Defined.

End Subscriptions.

(* ------------------------------------------------------------------------- *)
(** ** The contact form *)

Section ContactForm.
Import ContactController.

Lemma contact_validate (rt : Runtime) (n e : string) (c : option string)
    (s m : string) (sub : bool) :
  emailRegexTest e = true -> Js.truthy e = true ->
  Contact.ContactSubmissionSchema_validate
    (Contact.newContactSubmission rt n (Js.toLowerCase e) c s m sub) = None
  <-> Js.truthy (Js.trim n) && Js.truthy (Js.trim s) && Js.truthy (Js.trim m) = true.
Proof.
  intros Hre Ht. unfold Contact.ContactSubmissionSchema_validate.
  cbn [Contact.newContactSubmission Contact.fullName Contact.email Contact.subject
         Contact.message].
  rewrite (stored_email e Hre), truthy_lower, Ht,
    NewsletterFacts.emailRegexTest_lower, Hre.
  cbn [negb orb].
  destruct (Js.truthy (Js.trim n)); cbn [negb andb]; [| split; discriminate].
  destruct (Js.truthy (Js.trim s)); cbn [negb andb]; [| split; discriminate].
  destruct (Js.truthy (Js.trim m)); cbn [negb]; split; try discriminate; reflexivity.
Qed.

Lemma find_appended (db : Newsletter.Subscribers) (s : Newsletter.INewsletterSubscriber) :
  Newsletter.NewsletterSubscriber_findOne db (Newsletter.email s) = None ->
  Newsletter.NewsletterSubscriber_findOne (db ++ [s]) (Newsletter.email s) = Some s.
Proof.
  unfold Newsletter.NewsletterSubscriber_findOne. intro H.
  induction db as [|x r IH]; simpl in *.
  - rewrite String.eqb_refl. reflexivity.
  - destruct (String.eqb (Newsletter.email x) (Newsletter.email s));
      [discriminate H | exact (IH H)].
Qed.

(** The newsletter step leaves the email actively subscribed. *)
Lemma addToNewsletter_active (rt : Runtime) (db : Newsletter.Subscribers) (e : string) :
  Newsletter.SubscribersInvariant db ->
  ~ In (newId rt) (map Newsletter._id db) ->
  emailRegexTest e = true -> Js.truthy e = true ->
  Newsletter.SubscribersInvariant (addToNewsletter rt db e)
  /\ exists s,
       Newsletter.NewsletterSubscriber_findOne (addToNewsletter rt db e)
         (Js.toLowerCase e) = Some s
       /\ Newsletter.status s = Newsletter.active.
Proof.
  intros Hinv Hfresh Hre Ht. unfold addToNewsletter.
  destruct (Newsletter.NewsletterSubscriber_findOne db (Js.toLowerCase e))
    as [s|] eqn:Hf.
  - destruct (subscriber_found _ _ _ Hf) as [Hin He].
    destruct (Newsletter.status s) eqn:Hst; cbn [Newsletter.status_eqb].
    + split; [exact Hinv |]. exists s. split; assumption.
    + match goal with
      | |- context [Newsletter.NewsletterSubscriber_save _ ?x] => set (s' := x)
      end.
      rewrite (save_subscriber db s s' Hinv Hin eq_refl eq_refl).
      split; [exact (proj1 (subscriber_replace db s s' Hinv Hin eq_refl eq_refl)) |].
      exists s'. split; [| reflexivity].
      apply (NewsletterFacts.find_replaced _ _ s s' Hf eq_refl). exact He.
  - destruct (subscriber_absent _ _ Hf) as [Hex Hnot].
    cbv zeta.
    set (s' := Newsletter.newSubscriber rt (Js.toLowerCase e) "contact_form"
                 Newsletter.active).
    assert (He : Newsletter.email s' = Js.toLowerCase e)
      by (unfold s', Newsletter.newSubscriber; cbn [Newsletter.email];
          apply stored_email, Hre).
    assert (Hv : Newsletter.NewsletterSubscriberSchema_validate s' = None).
    { unfold Newsletter.NewsletterSubscriberSchema_validate.
      rewrite He, truthy_lower, Ht, NewsletterFacts.emailRegexTest_lower, Hre.
      reflexivity. }
    unfold Newsletter.NewsletterSubscriber_insert. rewrite Hv, He, Hex. split.
    + apply subscriber_append; [exact Hinv | exact Hfresh | | exact Hv |].
      * rewrite He. exact Hnot.
      * rewrite He. apply toLowerCase_idem.
    + exists s'. split; [| reflexivity]. rewrite <- He. apply find_appended.
      rewrite He. exact Hf.
Qed.

(** X19: the contact form.  A request that lacks the full name, email,
    subject or message, or whose email fails the pattern, is answered 400;
    one whose name, subject or message is white space only passes these
    checks and is answered 500 SUBMIT_ERROR; in both cases nothing is written
    and no mail is sent.  Otherwise the answer is 201: exactly one submission
    is stored, with the new document's id and the lower-cased email, and
    exactly two messages are handed to the mail service, the notification to
    the configured address and the confirmation to the email as typed.
    Without the newsletter option the subscriber collection is untouched;
    with it, the collection stays well formed and the lower-cased email ends
    up with an active record, whether it had none, an unsubscribed one or an
    active one. *)
Theorem contact_form (env : MailEnv) (rt rtSub : Runtime) (st : State)
    (reqBody : IContactSubmissionRequest) :
  let out := submitContactForm env rt rtSub st reqBody in
  let e := field (c_email reqBody) in
  let complete :=
    Js.present (c_fullName reqBody) && Js.present (c_email reqBody)
    && Js.present (c_subject reqBody) && Js.present (c_message reqBody)
    && emailRegexTest e in
  let filled :=
    Js.truthy (Js.trim (field (c_fullName reqBody)))
    && Js.truthy (Js.trim (field (c_subject reqBody)))
    && Js.truthy (Js.trim (field (c_message reqBody))) in
  status (snd out) = (if complete then if filled then 201 else 500 else 400)
  /\ (status (snd out) <> 201 -> fst out = st)
  /\ (status (snd out) = 201 ->
      exists c,
        contacts (fst out) = contacts st ++ [c]
        /\ Contact._id c = newId rt
        /\ Contact.email c = Js.toLowerCase e
        /\ Newsletter.outbox (newsletter (fst out))
           = Newsletter.outbox (newsletter st)
             ++ [{| Newsletter.to := orElse (CONTACT_EMAIL env) (field (SMTP_USER env));
                    Newsletter.subject :=
                      ("New Contact Form Submission: "
                         ++ field (c_subject reqBody))%string |};
                 {| Newsletter.to := e;
                    Newsletter.subject := "Thank you for contacting Web3 Economy" |}]
        /\ (c_subscribeNewsletter reqBody <> Some true ->
            Newsletter.subscribers (newsletter (fst out))
            = Newsletter.subscribers (newsletter st))
        /\ (c_subscribeNewsletter reqBody = Some true ->
            Newsletter.SubscribersInvariant (Newsletter.subscribers (newsletter st)) ->
            ~ In (newId rtSub)
                (map Newsletter._id (Newsletter.subscribers (newsletter st))) ->
            Newsletter.SubscribersInvariant
              (Newsletter.subscribers (newsletter (fst out)))
            /\ exists s,
                 Newsletter.NewsletterSubscriber_findOne
                   (Newsletter.subscribers (newsletter (fst out)))
                   (Js.toLowerCase e) = Some s
                 /\ Newsletter.status s = Newsletter.active)).
Proof.
  cbv zeta. unfold submitContactForm. cbv zeta.
  destruct (Js.present (c_fullName reqBody)); cbn [negb orb andb];
    [| split; [reflexivity | split; [reflexivity | discriminate]]].
  destruct (Js.present (c_email reqBody)) eqn:Hpe; cbn [negb orb andb];
    [| split; [reflexivity | split; [reflexivity | discriminate]]].
  destruct (Js.present (c_subject reqBody)); cbn [negb orb andb];
    [| split; [reflexivity | split; [reflexivity | discriminate]]].
  destruct (Js.present (c_message reqBody)); cbn [negb orb andb];
    [| split; [reflexivity | split; [reflexivity | discriminate]]].
  destruct (emailRegexTest (field (c_email reqBody))) eqn:Hre; cbn [negb];
    [| split; [reflexivity | split; [reflexivity | discriminate]]].
  assert (Ht : Js.truthy (field (c_email reqBody)) = true).
  { destruct (c_email reqBody) as [x|]; [exact Hpe | discriminate Hpe]. }
  set (c := Contact.newContactSubmission rt (field (c_fullName reqBody))
              (Js.toLowerCase (field (c_email reqBody))) (c_company reqBody)
              (field (c_subject reqBody)) (field (c_message reqBody))
              (orDefault (c_subscribeNewsletter reqBody) false)).
  pose proof (contact_validate rt (field (c_fullName reqBody))
                (field (c_email reqBody)) (c_company reqBody)
                (field (c_subject reqBody)) (field (c_message reqBody))
                (orDefault (c_subscribeNewsletter reqBody) false) Hre Ht) as Hval.
  fold c in Hval. unfold Contact.ContactSubmission_insert.
  destruct (Contact.ContactSubmissionSchema_validate c) as [err|] eqn:Hv.
  - destruct (Js.truthy (Js.trim (field (c_fullName reqBody)))
              && Js.truthy (Js.trim (field (c_subject reqBody)))
              && Js.truthy (Js.trim (field (c_message reqBody)))) eqn:Hfill.
    + destruct Hval as [_ Hval]. specialize (Hval eq_refl). discriminate Hval.
    + split; [reflexivity | split; [reflexivity | discriminate]].
  - rewrite (proj1 Hval eq_refl). cbn [fst snd status reply].
    split; [reflexivity |]. split; [intro H; exfalso; apply H; reflexivity |].
    intros _. exists c. cbn [contacts newsletter].
    split; [reflexivity |]. split; [reflexivity |].
    split; [unfold c; cbn [Contact.newContactSubmission Contact.email];
            apply stored_email, Hre |].
    split; [cbn [NewsletterController.send NewsletterController.store
                   Newsletter.outbox]; rewrite <- app_assoc; reflexivity |].
    cbn [NewsletterController.send NewsletterController.store Newsletter.subscribers].
    split.
    + intro Hno. destruct (c_subscribeNewsletter reqBody) as [[|]|]; try reflexivity.
      exfalso. apply Hno. reflexivity.
    + intros Hyes Hinv Hfresh. rewrite Hyes. cbn [orDefault].
      apply addToNewsletter_active; assumption.
Qed.

End ContactForm.

(* ------------------------------------------------------------------------- *)
(** ** Origins and the error handler *)

Section Origins.
Import Middleware.

(** X20: an origin that is not allowed is answered by the error handler.
    The cors step lets a request through exactly when it carries no origin
    or one of the allowed origins; any other origin is answered 500
    INTERNAL_ERROR without details, and the text [Not allowed by CORS] is
    shown only when NODE_ENV is [development].  In production the allowed
    origins are the two site addresses and FRONTEND_URL when it is set, so
    the local development origins are refused there. *)
Theorem disallowed_origin (env : AppEnv) (origin : option string) :
  match corsMiddleware env origin with
  | None => Js.present origin = false \/ In (field origin) (allowedOrigins env)
  | Some r =>
      Js.present origin = true /\ ~ In (field origin) (allowedOrigins env)
      /\ er_status r = 500 /\ er_code r = "INTERNAL_ERROR" /\ er_details r = None
      /\ er_message r
         = if envIs (NODE_ENV env) "development" then "Not allowed by CORS"
           else "An unexpected error occurred. Please try again later."
  end
  /\ (envIs (NODE_ENV env) "production" = true ->
      forall o, In o (allowedOrigins env) ->
        o = "https://web3economy.xyz" \/ o = "https://www.web3economy.xyz"
        \/ FRONTEND_URL env = Some o).
Proof.
  split.
  - unfold corsMiddleware, corsOrigin.
    destruct (Js.present origin) eqn:Hp; cbn [negb]; [| left; reflexivity].
    destruct (existsb (String.eqb (field origin)) (allowedOrigins env)) eqn:Hex.
    + right. apply existsb_exists in Hex. destruct Hex as [o [Ho E]].
      apply String.eqb_eq in E. rewrite E. exact Ho.
    + split; [reflexivity |]. split.
      * intro Hin.
        assert (existsb (String.eqb (field origin)) (allowedOrigins env) = true) as Ht.
        { apply existsb_exists. exists (field origin).
          split; [exact Hin | apply String.eqb_refl]. }
        rewrite Ht in Hex. discriminate.
      * unfold errorHandler, plainError. cbn. repeat split; reflexivity.
  - intros Hprod o Ho. unfold allowedOrigins in Ho. rewrite Hprod in Ho.
    apply in_app_or in Ho. destruct Ho as [[<- | [<- | []]] | Ho]; auto.
    destruct (FRONTEND_URL env) as [u|]; [| contradiction].
    rewrite present_Some in Ho. destruct (Js.truthy u); [| contradiction].
    destruct Ho as [<- | []]. right. right. reflexivity.
Qed.

End Origins.

(* ------------------------------------------------------------------------- *)
(** ** The plain-text version of a message *)

Section PlainText.
Import EmailService.

Lemma eqb_gt_In (l : list ascii) :
  existsb (Ascii.eqb ">") l = false -> ~ In ">"%char l.
Proof.
  intros H Hin.
  assert (existsb (Ascii.eqb ">") l = true) as Ht.
  { apply existsb_exists. exists ">"%char. split; [exact Hin | reflexivity]. }
  rewrite Ht in H. discriminate.
Qed.

Lemma stripTags_In (inTag : bool) (l : list ascii) (x : ascii) :
  In x (stripTags inTag l) -> In x l.
Proof.
  revert inTag. induction l as [|c r IH]; intros inTag H; [destruct inTag; exact H |].
  simpl in H. destruct inTag.
  - right. destruct (Ascii.eqb c ">"); exact (IH _ H).
  - destruct (Ascii.eqb c "<" && existsb (Ascii.eqb ">") r).
    + right. exact (IH _ H).
    + destruct H as [<- | H]; [left; reflexivity | right; exact (IH _ H)].
Qed.

(** No [<] of the output has a [>] behind it. *)
Lemma stripTags_closed (inTag : bool) (l a b : list ascii) :
  stripTags inTag l = a ++ "<"%char :: b -> ~ In ">"%char b.
Proof.
  revert inTag a. induction l as [|c r IH]; intros inTag a H.
  - destruct inTag, a; discriminate H.
  - simpl in H. destruct inTag.
    + destruct (Ascii.eqb c ">"); exact (IH _ _ H).
    + destruct (Ascii.eqb c "<" && existsb (Ascii.eqb ">") r) eqn:E;
        [exact (IH _ _ H) |].
      destruct a as [|x a'].
      * simpl in H. injection H as Hc Hb. subst c. rewrite Ascii.eqb_refl in E.
        cbn [andb] in E. intro Hin. rewrite <- Hb in Hin.
        apply stripTags_In in Hin. exact (eqb_gt_In r E Hin).
      * simpl in H. injection H as _ Hr. exact (IH _ _ Hr).
Qed.

(** Text in which no [<] has a [>] behind it is left as it is. *)
Lemma stripTags_fixed (l : list ascii) :
  (forall a b, l = a ++ "<"%char :: b -> ~ In ">"%char b) ->
  stripTags false l = l.
Proof.
  induction l as [|c r IH]; intro H; [reflexivity |].
  simpl. assert (Hr : stripTags false r = r).
  { apply IH. intros a b E. apply (H (c :: a) b). rewrite E. reflexivity. }
  destruct (Ascii.eqb c "<") eqn:Ec; cbn [andb]; [| rewrite Hr; reflexivity].
  apply Ascii.eqb_eq in Ec. subst c.
  destruct (existsb (Ascii.eqb ">") r) eqn:Ex; [| rewrite Hr; reflexivity].
  exfalso. apply existsb_exists in Ex. destruct Ex as [x [Hx E]].
  apply Ascii.eqb_eq in E. subst x. exact (H [] r eq_refl Hx).
Qed.

(** X21: the plain-text version of a message.  When the caller supplies a
    non-empty text, that text is sent.  Otherwise the text is the HTML with
    its tags removed: in it no [<] is followed, anywhere later, by a [>], so
    no complete tag is left; removing tags again changes nothing; and HTML
    without any [<] is sent as it is. *)
Theorem plain_text_version (options : EmailOptions) :
  (Js.present (text options) = true -> mailText options = field (text options))
  /\ (Js.present (text options) = false ->
      (forall a b, Js.chars (mailText options) = a ++ "<"%char :: b ->
                   ~ In ">"%char b)
      /\ Js.str (stripTags false (Js.chars (mailText options))) = mailText options
      /\ (~ In "<"%char (Js.chars (html options)) -> mailText options = html options)).
Proof.
  unfold mailText, orElse. split; intro Hp; rewrite Hp; [reflexivity |].
  split; [| split].
  - intros a b H. rewrite chars_str in H. exact (stripTags_closed _ _ _ _ H).
  - rewrite chars_str. f_equal. apply stripTags_fixed.
    intros a b H. exact (stripTags_closed _ _ _ _ H).
  - intro Hno. rewrite stripTags_fixed; [apply str_chars |].
    intros a b H. exfalso. apply Hno. rewrite H. apply in_or_app. right. left.
    reflexivity.
Qed.

End PlainText.
